(** * Form-state protection and registration strategies: a shallow embedding

    The development follows the JavaScript sources module by module:
    - [Js]: the fragment of the language runtime the modules rely on
      (strings as sequences of UTF-16 code units, [trim], [parseInt],
      [Date] day counts, number printing);
    - [Utils]: [checkPasswordStrength], [randomDelay], [retry], the name
      tables (js/utils.js);
    - [FormProtector]: the form-state watchdog (js/formProtector.js);
    - [RegistrationStrategies]: strategy selection, the step pipeline and
      the strategy statistics (the registration strategies module);
    - [JsText], [UtilsMore], [RegistrationStrategiesMore]: regular
      expressions, the validators and generators of js/utils.js, and the
      form optimizer of the strategies module;
    - [OutlookRegistration]: the call of the strategies from the
      registration flow (js/outlookRegistration.js). *)

From Stdlib Require Import ZArith QArith Qround Lia String Ascii List Bool DecimalPos.
From stdpp Require Import base option list gmap strings.

Set Warnings "-register-all".
Open Scope nat_scope.

(* ===================================================================== *)
(** * The JavaScript runtime fragment                                     *)
(* ===================================================================== *)
Module Js.

(** A JavaScript string is a finite sequence of UTF-16 code units. *)
Abbreviation jsstring := (list N).

(** An ASCII literal of the source, as a sequence of code units. *)
Definition str (s : string) : jsstring :=
  map N_of_ascii (list_ascii_of_string s).

(** Code units removed by [String.prototype.trim]: the WhiteSpace and
    LineTerminator productions of ECMAScript. *)
Definition isWhiteSpace (c : N) : bool :=
  ((9 <=? c) && (c <=? 13) || (c =? 32) || (c =? 160) || (c =? 5760)
   || (8192 <=? c) && (c <=? 8202) || (c =? 8232) || (c =? 8233)
   || (c =? 8239) || (c =? 8287) || (c =? 12288) || (c =? 65279))%N.

Fixpoint trimStart (s : jsstring) : jsstring :=
  match s with
  | c :: s' => if isWhiteSpace c then trimStart s' else s
  | [] => []
  end.

Definition trimEnd (s : jsstring) : jsstring := rev (trimStart (rev s)).

Definition trim (s : jsstring) : jsstring := trimEnd (trimStart s).

(** Truthiness of a string value: only the empty string is falsy. *)
Definition truthy (s : jsstring) : bool :=
  match s with [] => false | _ :: _ => true end.

(** Truthiness of a property read: a missing property reads [undefined]. *)
Definition truthyProp (v : option jsstring) : bool :=
  match v with Some s => truthy s | None => false end.

(** [v && v.trim() !== ''] on a property read. *)
Definition nonBlank (v : option jsstring) : bool :=
  match v with
  | Some s => truthy s && truthy (trim s)
  | None => false
  end.

(** [!v || v.trim() === ''] on a string. *)
Definition blank (s : jsstring) : bool :=
  negb (truthy s) || negb (truthy (trim s)).

Definition isLower (c : N) : bool := ((97 <=? c) && (c <=? 122))%N.
Definition isUpper (c : N) : bool := ((65 <=? c) && (c <=? 90))%N.
Definition isDigit (c : N) : bool := ((48 <=? c) && (c <=? 57))%N.

(** Dynamically typed results: the values a function of the sources may
    return where the claims distinguish a boolean from a number. *)
Inductive jsvalue :=
  | VBool (b : bool)
  | VNumber (z : Z).

(** ** Number printing: [n.toString()] for a non-negative integer *)
Fixpoint uintDigits (u : Decimal.uint) : jsstring :=
  match u with
  | Decimal.Nil => []
  | Decimal.D0 u => 48%N :: uintDigits u
  | Decimal.D1 u => 49%N :: uintDigits u
  | Decimal.D2 u => 50%N :: uintDigits u
  | Decimal.D3 u => 51%N :: uintDigits u
  | Decimal.D4 u => 52%N :: uintDigits u
  | Decimal.D5 u => 53%N :: uintDigits u
  | Decimal.D6 u => 54%N :: uintDigits u
  | Decimal.D7 u => 55%N :: uintDigits u
  | Decimal.D8 u => 56%N :: uintDigits u
  | Decimal.D9 u => 57%N :: uintDigits u
  end.

Definition toString (n : N) : jsstring := uintDigits (N.to_uint n).

(** [s.padStart(2, '0')] *)
Definition padStart2 (s : jsstring) : jsstring :=
  repeat 48%N (2 - length s) ++ s.

(** [`${v}`] for a property read: a missing property prints "undefined". *)
Definition template (v : option jsstring) : jsstring :=
  match v with Some s => s | None => str "undefined" end.

(** ** [parseInt(s)] with no radix

    [None] stands for NaN. Leading white space is skipped, one sign is read,
    a [0x]/[0X] prefix selects radix 16, and the longest prefix of digits is
    converted. The result is kept as an exact integer: the sources only
    compare it with a day count, test it for zero, or build a date from it,
    and none of these is affected by the rounding of integers above 2^53. *)
Definition digitValue (radix : Z) (c : N) : option Z :=
  let v :=
    if isDigit c then Some (Z.of_N c - 48)%Z
    else if isLower c then Some (Z.of_N c - 97 + 10)%Z
    else if isUpper c then Some (Z.of_N c - 65 + 10)%Z
    else None in
  match v with
  | Some d => if (d <? radix)%Z then Some d else None
  | None => None
  end.

(** The longest prefix of digits, accumulated left to right. *)
Fixpoint parseDigits (radix : Z) (s : jsstring) (acc : option Z) : option Z :=
  match s with
  | c :: s' =>
      match digitValue radix c with
      | Some d => parseDigits radix s' (Some (match acc with
                                              | Some a => a * radix + d
                                              | None => d
                                              end)%Z)
      | None => acc
      end
  | [] => acc
  end.

Definition parseInt (s : jsstring) : option Z :=
  let s := trimStart s in
  let '(sign, s) :=
    match s with
    | 45%N :: s' => ((-1)%Z, s')
    | 43%N :: s' => (1%Z, s')
    | _ => (1%Z, s)
    end in
  let '(radix, s) :=
    match s with
    | 48%N :: 120%N :: s' => (16%Z, s')
    | 48%N :: 88%N :: s' => (16%Z, s')
    | _ => (10%Z, s)
    end in
  match parseDigits radix s None with
  | Some n => Some (sign * n)%Z
  | None => None
  end.

(** Truthiness of a number: NaN and 0 are falsy. *)
Definition truthyNumber (n : option Z) : bool :=
  match n with Some z => negb (z =? 0)%Z | None => false end.

(** ** [new Date(year, month, 0).getDate()]

    [None] stands for NaN (an invalid date). Years 0..99 denote 1900..1999;
    the month index is carried into the year; day 0 of a month is the last
    day of the month before it; dates more than 10^8 days from the epoch
    are invalid. *)
Definition isLeapYear (y : Z) : bool :=
  ((y mod 4 =? 0) && (negb (y mod 100 =? 0) || (y mod 400 =? 0)))%Z.

(** Days of the month with 0-based index [m] (0 = January). *)
Definition daysOfMonth (y m : Z) : Z :=
  (if (m =? 1) then (if isLeapYear y then 29 else 28)
   else if (m =? 3) || (m =? 5) || (m =? 8) || (m =? 10) then 30
   else 31)%Z.

Definition dayFromYear (y : Z) : Z :=
  (365 * (y - 1970) + (y - 1969) / 4 - (y - 1901) / 100 + (y - 1601) / 400)%Z.

(** Days from 1 January to the first day of the month with index [m]. *)
Definition daysBeforeMonth (y m : Z) : Z :=
  fold_left (fun acc k => (acc + daysOfMonth y (Z.of_nat k))%Z) (seq 0 (Z.to_nat m)) 0%Z.

Definition lastDayOfPreviousMonth (year month : Z) : option Z :=
  let yr := (if (0 <=? year) && (year <=? 99) then 1900 + year else year)%Z in
  let ym := (yr + month / 12)%Z in
  let mn := (month mod 12)%Z in
  (* day number of the first of month [mn] of year [ym], minus one *)
  let day := (dayFromYear ym + daysBeforeMonth ym mn - 1)%Z in
  if (Z.abs day <=? 100000000)%Z
  then Some (if (mn =? 0) then 31 else daysOfMonth ym (mn - 1))%Z
  else None.

End Js.

(* ===================================================================== *)
(** * The page: shared state, effects and asynchronous computations       *)
(* ===================================================================== *)
Module Runtime.
Import Js.

(** Form data: an object from field identifiers to string values. *)
Abbreviation FormData := (gmap string jsstring).

(** ** Errors

    A thrown [Error] is identified by its message; each constructor stands
    for one message of the sources. *)
Inductive SubmitFailure :=
  | EmailExists          (* 邮箱已存在 *)
  | NetworkTimeout       (* 网络连接超时 *)
  | ServerUnavailable    (* 服务器暂时不可用 *)
  | CaptchaWrong         (* 验证码错误 *)
  | RateLimited.         (* 请求频率过高 *)

Inductive Message :=
  | Registered            (* 注册成功 *)
  | RegisteredAggressive. (* 注册成功（激进模式） *)

Inductive JsError :=
  | MissingRequiredFields (missing : list string)  (* 缺少必填字段: a, b *)
  | EmailNameTooShort                              (* 邮箱名长度不足 *)
  | PasswordTooWeak                                (* 密码强度不足 *)
  | UnknownStrategy (strategy : string)            (* 未知策略: name *)
  | SubmissionFailed (reason : SubmitFailure)
  | AggressiveSubmissionFailed                     (* 注册失败（激进模式） *)
  | MissingKeyFields                               (* 缺少关键字段 *)
  | RegistrationFailed (message : option Message)  (* response.message || 注册失败 *)
  | AggregateError (errors : list JsError)         (* Promise.any, all rejected *)
  | TypeError                                      (* property read on undefined *)
  | OtherError (message : jsstring).

(** ** Observable effects, oldest first *)
Inductive LogMessage :=
  | StrategyStarted (name : string)
  | StrategySucceeded (name : string)
  | StrategyFailed (name : string) (e : JsError)
  | AggressiveStarted
  | AttemptStarted (n : nat)
  | AttemptSucceeded (n : nat)
  | AttemptFailed (n : nat) (e : JsError)
  | SubmittingRequest
  | VerificationNeeded
  | RegistrationComplete.

Inductive StepPhase := Running | Completed | Failed (e : JsError).

Inductive Event :=
  | Log (m : LogMessage)                         (* logStrategy *)
  | Warn (attempt maxRetries : nat) (e : JsError) (* console.warn of retry *)
  | Sleep (ms : Z)                               (* an awaited Utils.delay(ms) *)
  | UiProgress (step : nat) (name : string)      (* UIManager.updateProgress *)
  | UiStep (phase : StepPhase) (name : string)   (* UIManager.addLog for a step *)
  | IncrementTodayCount                          (* UIManager.incrementTodayCount *)
  | Forked (index : nat) (events : list Event).  (* what a concurrent task did *)

(** ** Strategy statistics *)
Record Counters := mkCounters { attempts : nat; successes : nat; failures : nat }.

(** [stats]: the three global counters and [strategyPerformance], whose
    entries are kept in the order [Object.entries] enumerates them. *)
Record Stats := mkStats {
  totals : Counters;
  strategyPerformance : list (string * Counters)
}.

(** ** The world an asynchronous computation runs in *)
Record World := mkWorld {
  random : nat -> Q;        (* the results of the calls of Math.random(), in order *)
  draws : nat;              (* how many of them have been consumed *)
  clock : Z;                (* Date.now(), advanced by awaited timers *)
  trace : list Event;
  uiManager : bool;         (* is window.UIManager present *)
  stats : Stats;
  currentFormData : option FormData
}.

Inductive Outcome (A : Type) :=
  | Returned (a : A)
  | Thrown (e : JsError).
Arguments Returned {A} a.
Arguments Thrown {A} e.

(** A (possibly asynchronous) computation: it resolves or rejects, and
    leaves the world changed. *)
Definition M (A : Type) : Type := World -> Outcome A * World.

Definition ret {A} (a : A) : M A := fun w => (Returned a, w).

Definition throw {A} (e : JsError) : M A := fun w => (Thrown e, w).

Definition bind {A B} (c : M A) (k : A -> M B) : M B :=
  fun w =>
    match c w with
    | (Returned a, w') => k a w'
    | (Thrown e, w') => (Thrown e, w')
    end.

Definition tryCatch {A} (body : M A) (handler : JsError -> M A) : M A :=
  fun w =>
    match body w with
    | (Returned a, w') => (Returned a, w')
    | (Thrown e, w') => handler e w'
    end.

Declare Scope js_scope.
Delimit Scope js_scope with js.
Notation "'let*' x := c 'in' k" := (bind c (fun x => k))
  (at level 10, x name, c at level 100, k at level 200) : js_scope.
Notation "c ;; k" := (bind c (fun _ => k))
  (at level 100, k at level 200, right associativity) : js_scope.

Definition withTrace (w : World) (t : list Event) : World :=
  mkWorld (random w) (draws w) (clock w) t (uiManager w) (stats w) (currentFormData w).

Definition withStats (w : World) (s : Stats) : World :=
  mkWorld (random w) (draws w) (clock w) (trace w) (uiManager w) s (currentFormData w).

Definition emit (e : Event) : M unit :=
  fun w => (Returned tt, withTrace w (trace w ++ [e])).

(** [if (window.UIManager) { ... }] *)
Definition ui (events : list Event) : M unit :=
  fun w => (Returned tt, if uiManager w then withTrace w (trace w ++ events) else w).

(** [Math.random()] *)
Definition mathRandom : M Q :=
  fun w => (Returned (random w (draws w)),
            mkWorld (random w) (S (draws w)) (clock w) (trace w) (uiManager w)
                    (stats w) (currentFormData w)).

(** [Date.now()] *)
Definition now : M Z := fun w => (Returned (clock w), w).

(** [Math.floor(Math.random() * n)] *)
Definition randomBelow (n : Z) : M Z :=
  fun w => bind mathRandom (fun r => ret (Qfloor (r * inject_Z n))) w.

Fixpoint mapM {A B} (f : A -> M B) (l : list A) : M (list B) :=
  match l with
  | [] => ret []
  | a :: l' => bind (f a) (fun b => bind (mapM f l') (fun bs => ret (b :: bs)))
  end.

(** ** Concurrent tasks and [Promise.any]

    Tasks started together run interleaved on one thread. Each task is run
    in a world of its own that starts at the current instant, sees its own
    share of the results of [Math.random()] and records its own trace; its
    promise settles at the instant its world's clock has reached. How the
    calls of [Math.random()] of different tasks interleave is not modelled:
    results about tasks hold for every [random]. Timers of equal deadline
    fire in the order the tasks were started. *)
Definition fork (n i : nat) (w : World) : World :=
  mkWorld (fun k => random w (draws w + n * k + i)) 0 (clock w) []
          (uiManager w) (stats w) (currentFormData w).

Definition settle {A} (tasks : list (M A)) (w : World) : list (Outcome A * World) :=
  imap (fun i task => task (fork (length tasks) i w)) tasks.

(** The fulfilled promise that settles first; among promises settling at
    the same instant, the one started first. *)
Fixpoint firstFulfilled {A} (settled : list (Outcome A * World)) : option (A * Z) :=
  match settled with
  | [] => None
  | (Returned a, w) :: rest =>
      match firstFulfilled rest with
      | Some (b, t) => if (t <? clock w)%Z then Some (b, t) else Some (a, clock w)
      | None => Some (a, clock w)
      end
  | (Thrown _, _) :: rest => firstFulfilled rest
  end.

Definition rejections {A} (settled : list (Outcome A * World)) : list JsError :=
  flat_map (fun r => match fst r with Thrown e => [e] | Returned _ => [] end) settled.

Definition promiseAny {A} (tasks : list (M A)) : M A :=
  fun w =>
    let settled := settle tasks w in
    let w' (t : Z) :=
      mkWorld (random w)
              (draws w + length tasks * fold_right Nat.max 0 (map (fun r => draws (snd r)) settled))
              t
              (trace w ++ imap (fun i r => Forked i (trace (snd r))) settled)
              (uiManager w) (stats w) (currentFormData w) in
    match firstFulfilled settled with
    | Some (a, t) => (Returned a, w' t)
    | None =>
        (Thrown (AggregateError (rejections settled)),
         w' (fold_right Z.max (clock w) (map (fun r => clock (snd r)) settled)))
    end.

End Runtime.

(* ===================================================================== *)
(** * js/utils.js                                                         *)
(* ===================================================================== *)
Module Utils.
Import Js.

Inductive Level := weak | fair | good | strong.

(** The feedback messages pushed by [checkPasswordStrength], in the order
    of the source: enter a password; at least 8 characters; needs a
    lowercase letter; an uppercase letter; a digit; a special character. *)
Inductive Feedback :=
  | FbEnterPassword | FbMinLength | FbNeedLower | FbNeedUpper
  | FbNeedDigit | FbNeedSymbol.

Record Strength := mkStrength {
  score : nat;
  level : Level;
  feedback : list Feedback
}.

(** One [if (test) result.score += 1; else result.feedback.push(msg)]. *)
Definition credit (test : bool) (msg : list Feedback) (r : Strength) : Strength :=
  if test
  then mkStrength (score r + 1) (level r) (feedback r)
  else mkStrength (score r) (level r) (feedback r ++ msg).

Definition levelOf (sc : nat) : Level :=
  if sc <=? 2 then weak
  else if sc <=? 4 then fair
  else if sc <=? 5 then good
  else strong.

Definition checkPasswordStrength (password : jsstring) : Strength :=
  let result := mkStrength 0 weak [] in
  if negb (truthy password)
  then mkStrength (score result) (level result) (feedback result ++ [FbEnterPassword])
  else
    let result := credit (8 <=? length password) [FbMinLength] result in
    let result := credit (12 <=? length password) [] result in
    let result := credit (existsb isLower password) [FbNeedLower] result in
    let result := credit (existsb isUpper password) [FbNeedUpper] result in
    let result := credit (existsb isDigit password) [FbNeedDigit] result in
    let result :=
      credit (existsb (fun c => negb (isLower c || isUpper c || isDigit c)) password)
             [FbNeedSymbol] result in
    mkStrength (score result) (levelOf (score result)) (feedback result).

(** The five criteria named by the strength rule. *)
Inductive Criterion := LengthAtLeast8 | HasLower | HasUpper | HasDigit | HasSymbol.

Definition meets (c : Criterion) (p : jsstring) : bool :=
  match c with
  | LengthAtLeast8 => 8 <=? length p
  | HasLower => existsb isLower p
  | HasUpper => existsb isUpper p
  | HasDigit => existsb isDigit p
  | HasSymbol => existsb (fun c => negb (isLower c || isUpper c || isDigit c)) p
  end.

(** ** Timers and random data *)
Section Effects.
Import Runtime.
Local Open Scope js_scope.

(** [delay(ms)], awaited: the task resumes [ms] milliseconds later. *)
Definition delay (ms : Z) : M unit :=
  fun w => (Returned tt,
            mkWorld (random w) (draws w) (clock w + Z.max 0 ms) (trace w ++ [Sleep ms])
                    (uiManager w) (stats w) (currentFormData w)).

(** [Math.floor(Math.random() * (max - min + 1)) + min] *)
Definition randomMs (min max : Z) : M Z :=
  let* n := randomBelow (max - min + 1) in ret (n + min)%Z.

Definition randomDelay (min max : Z) : M unit :=
  let* ms := randomMs min max in delay ms.

(** [table[Math.floor(Math.random() * table.length)]] *)
Definition pick (table : list jsstring) : M (option jsstring) :=
  let* i := randomBelow (Z.of_nat (length table)) in
  ret (if (i <? 0)%Z then None else table !! Z.to_nat i).

Definition firstNames : list jsstring :=
  map str ["James"; "John"; "Robert"; "Michael"; "William"; "David"; "Richard";
           "Joseph"; "Thomas"; "Christopher"; "Mary"; "Patricia"; "Jennifer";
           "Linda"; "Elizabeth"; "Barbara"; "Susan"; "Jessica"; "Sarah"; "Karen"]%string.

Definition lastNames : list jsstring :=
  map str ["Smith"; "Johnson"; "Williams"; "Brown"; "Jones"; "Garcia"; "Miller";
           "Davis"; "Rodriguez"; "Martinez"; "Hernandez"; "Lopez"; "Gonzalez";
           "Wilson"; "Anderson"; "Thomas"; "Taylor"; "Moore"; "Jackson"; "Martin"]%string.

(** [generateRandomName('en')]: [{ firstName, lastName }] *)
Definition generateRandomName : M (option jsstring * option jsstring) :=
  let* firstName := pick firstNames in
  let* lastName := pick lastNames in
  ret (firstName, lastName).

Definition userAgents : list jsstring :=
  map str
    ["Mozilla/5.0 (Windows NT 10.0; Win64; x64) AppleWebKit/537.36 (KHTML, like Gecko) Chrome/120.0.0.0 Safari/537.36";
     "Mozilla/5.0 (Windows NT 10.0; Win64; x64) AppleWebKit/537.36 (KHTML, like Gecko) Chrome/119.0.0.0 Safari/537.36";
     "Mozilla/5.0 (Macintosh; Intel Mac OS X 10_15_7) AppleWebKit/537.36 (KHTML, like Gecko) Chrome/120.0.0.0 Safari/537.36";
     "Mozilla/5.0 (Windows NT 10.0; Win64; x64; rv:109.0) Gecko/20100101 Firefox/120.0";
     "Mozilla/5.0 (Macintosh; Intel Mac OS X 10_15_7) AppleWebKit/605.1.15 (KHTML, like Gecko) Version/17.1 Safari/605.1.15"]%string.

Definition getRandomUserAgent : M (option jsstring) := pick userAgents.

(** [generateRandomString(length)] over the default charset *)
Definition generateRandomString (len : nat) : M jsstring :=
  let charset := str "abcdefghijklmnopqrstuvwxyz0123456789" in
  let* chars :=
    mapM (fun _ : nat =>
            let* i := randomBelow (Z.of_nat (length charset)) in
            ret (if (i <? 0)%Z then [] else option_list (charset !! Z.to_nat i)))
         (seq 0 len) in
  ret (concat chars).

(** [v.toString(16)] for [0 <= v < 16] *)
Definition hexDigit (v : Z) : N :=
  if (v <? 10)%Z then Z.to_N (48 + v) else Z.to_N (97 + v - 10).

(** [generateUUID()]: every [x] and [y] of the template is replaced by a
    random hexadecimal digit, [r] for [x] and [r & 0x3 | 0x8] for [y]. *)
Definition generateUUID : M jsstring :=
  mapM (fun c : N =>
          if ((c =? 120) || (c =? 121))%N then
            let* r := randomBelow 16 in
            ret (hexDigit (if (c =? 120)%N then r else Z.lor (Z.land r 3) 8))
          else ret c)
       (str "xxxxxxxx-xxxx-4xxx-yxxx-xxxxxxxxxxxx").

(** The loop of [retry], entered at iteration [i] with [remaining]
    iterations to go. A loop that runs out returns [undefined] ([None]). *)
Fixpoint retryLoop {A} (fn : M A) (maxRetries : nat) (delayMs : Z)
         (remaining i : nat) : M (option A) :=
  match remaining with
  | 0 => ret None
  | S remaining =>
      tryCatch
        (let* a := fn in ret (Some a))
        (fun error =>
           if i =? maxRetries - 1 then throw error
           else
             emit (Warn (i + 1) maxRetries error) ;;
             delay (delayMs * (Z.of_nat i + 1)) ;;
             retryLoop fn maxRetries delayMs remaining (i + 1))
  end.

Definition retry {A} (fn : M A) (maxRetries : nat) (delayMs : Z) : M (option A) :=
  retryLoop fn maxRetries delayMs maxRetries 0.

End Effects.

End Utils.

(* ===================================================================== *)
(** * js/formProtector.js                                                 *)
(* ===================================================================== *)
Module FormProtector.
Import Js.

(** A live form field. Text inputs store what is assigned to [value]; a
    [<select>] shows the assigned value only when one of its options
    carries it, and reads [""] otherwise. *)
Inductive Kind :=
  | TextInput
  | Select (options : list jsstring).

Record Element := mkElement { kind : Kind; value : jsstring }.

(** [field.value = v] *)
Definition assign (el : Element) (v : jsstring) : Element :=
  match kind el with
  | TextInput => mkElement TextInput v
  | Select options =>
      mkElement (Select options) (if bool_decide (v ∈ options) then v else [])
  end.

(** [el.innerHTML = '<option value="">...</option>'] followed by appending
    one option per entry of [values]: a select keeps the placeholder
    selected, a text input ignores children. *)
Definition replaceOptions (el : Element) (values : list jsstring) : Element :=
  match kind el with
  | TextInput => el
  | Select _ => mkElement (Select ([] :: values)) []
  end.

Inductive EventName := input | change.

Inductive Notice :=
  | FormRestored          (* info: form data loss detected, restored *)
  | RestoreSucceeded      (* success: all saved data restored *)
  | NothingToRestore.     (* warning: no saved data found *)

(** What the module does to its collaborators, oldest first. *)
Inductive Effect :=
  | SetValue (fieldId : string) (v : jsstring)
  | DispatchEvent (fieldId : string) (e : EventName)
  | ShowNotification (n : Notice).

Inductive Task := UpdateBirthDaysAndRestore.

Record State := mkState {
  savedFormState : gmap string jsstring;
  document : gmap string Element;       (* getElementById *)
  effects : list Effect;
  timers : list (nat * Task);           (* setTimeout(task, ms), oldest first *)
  currentYear : Z                       (* new Date().getFullYear() *)
}.

Definition protectedFields : list string :=
  ["first-name"; "last-name"; "desired-email"; "password";
   "birth-year"; "birth-month"; "birth-day"; "country"]%string.

Definition withSaved (st : State) (saved : gmap string jsstring) : State :=
  mkState saved (document st) (effects st) (timers st) (currentYear st).

Definition saveFieldValue (fieldId : string) (v : jsstring) (st : State) : State :=
  withSaved st (<[fieldId := v]> (savedFormState st)).

Definition saveAllValues (st : State) : State :=
  fold_left
    (fun st fieldId =>
       match document st !! fieldId with
       | Some field => saveFieldValue fieldId (value field) st
       | None => st
       end)
    protectedFields st.

(** One iteration of the [forEach] of [restoreAllValues]; the accumulator
    carries the state and [restoredCount]. *)
Definition restoreField (acc : State * nat) (fieldId : string) : State * nat :=
  let '(st, restoredCount) := acc in
  match document st !! fieldId, savedFormState st !! fieldId with
  | Some field, Some savedValue =>
      if truthy savedValue && truthy (trim savedValue)
      then (mkState (savedFormState st)
                    (<[fieldId := assign field savedValue]> (document st))
                    (effects st ++ [SetValue fieldId savedValue;
                                    DispatchEvent fieldId input;
                                    DispatchEvent fieldId change])
                    (timers st) (currentYear st),
            restoredCount + 1)
      else acc
  | _, _ => acc
  end.

Definition restoreAllValues (st : State) : State * jsvalue :=
  let '(st, restoredCount) := fold_left restoreField protectedFields (st, 0) in
  let st :=
    if truthyProp (savedFormState st !! "birth-month"%string)
    then mkState (savedFormState st) (document st) (effects st)
                 (timers st ++ [(100, UpdateBirthDaysAndRestore)]) (currentYear st)
    else st in
  (st, VBool (0 <? restoredCount)).

(** The values of the options generated by the [for] loop over the days. *)
Definition dayOptions (daysInMonth : option Z) : list jsstring :=
  match daysInMonth with
  | Some n => map (fun day => padStart2 (toString (N.of_nat day))) (seq 1 (Z.to_nat n))
  | None => []
  end.

(** [parseInt(savedDay) <= daysInMonth], false when either side is NaN. *)
Definition numLe (a b : option Z) : bool :=
  match a, b with
  | Some x, Some y => (x <=? y)%Z
  | _, _ => false
  end.

Definition updateBirthDaysAndRestore (st : State) : State :=
  match document st !! "birth-month"%string,
        document st !! "birth-day"%string,
        document st !! "birth-year"%string with
  | Some birthMonth, Some birthDay, Some birthYear =>
      let month := parseInt (value birthMonth) in
      let year :=
        if truthyNumber (parseInt (value birthYear))
        then parseInt (value birthYear) else Some (currentYear st) in
      if truthyNumber month then
        match month, year with
        | Some m, Some y =>
            let daysInMonth := lastDayOfPreviousMonth y m in
            let birthDay := replaceOptions birthDay (dayOptions daysInMonth) in
            let birthDay :=
              match savedFormState st !! "birth-day"%string with
              | Some savedDay =>
                  if truthy savedDay && numLe (parseInt savedDay) daysInMonth
                  then assign birthDay savedDay
                  else birthDay
              | None => birthDay
              end in
            mkState (savedFormState st)
                    (<["birth-day"%string := birthDay]> (document st))
                    (effects st) (timers st) (currentYear st)
        | _, _ => st
        end
      else st
  | _, _, _ => st
  end.

(** The event loop firing the oldest pending timer. *)
Definition runTimer (st : State) : State :=
  match timers st with
  | (_, UpdateBirthDaysAndRestore) :: rest =>
      updateBirthDaysAndRestore
        (mkState (savedFormState st) (document st) (effects st) rest (currentYear st))
  | [] => st
  end.

(** [Object.keys(saved).length > 0 && Object.values(saved).some(...)] *)
Definition hasValidSavedData (st : State) : bool :=
  (0 <? size (savedFormState st))
  && existsb (fun kv => truthy (snd kv) && truthy (trim (snd kv)))
             (map_to_list (savedFormState st)).

(** One iteration of the [forEach] of [checkFormCleared]; the accumulator
    is [(emptyCount, totalCount)]. *)
Definition countField (doc : gmap string Element) (acc : nat * nat) (fieldId : string)
  : nat * nat :=
  let '(emptyCount, totalCount) := acc in
  match doc !! fieldId with
  | Some field =>
      (if blank (value field) then emptyCount + 1 else emptyCount, totalCount + 1)
  | None => acc
  end.

(** [emptyCount / totalCount]; [None] is the NaN of 0/0. *)
Definition ratio (emptyCount totalCount : nat) : option Q :=
  match totalCount with
  | 0 => None
  | S _ => Some (Z.of_nat emptyCount # Pos.of_nat totalCount)
  end.

Definition checkFormCleared (st : State) : bool :=
  let '(emptyCount, totalCount) :=
    fold_left (countField (document st)) protectedFields (0, 0) in
  let clearRate := ratio emptyCount totalCount in
  match clearRate with
  | Some r => negb (Qle_bool r (1 # 2)) && hasValidSavedData st
  | None => false
  end.

Definition showNotification (n : Notice) (st : State) : State :=
  mkState (savedFormState st) (document st) (effects st ++ [ShowNotification n])
          (timers st) (currentYear st).

(** One tick of the 2-second interval of [startAutoSave]. *)
Definition assessmentTick (st : State) : State :=
  if checkFormCleared st
  then showNotification FormRestored (fst (restoreAllValues st))
  else st.

Definition forceRestore (st : State) : State * jsvalue :=
  let '(st, restored) := restoreAllValues st in
  match restored with
  | VBool true => (showNotification RestoreSucceeded st, restored)
  | _ => (showNotification NothingToRestore st, restored)
  end.

Definition clearSavedData (st : State) : State := withSaved st ∅.

Definition getSavedData (st : State) : gmap string jsstring := savedFormState st.

Definition setSavedData (data : gmap string jsstring) (st : State) : State :=
  withSaved st data.

End FormProtector.

(* ===================================================================== *)
(** * The registration strategies module                                  *)
(* ===================================================================== *)
Module RegistrationStrategies.
Import Js Runtime.
Local Open Scope js_scope.

Inductive UseProxy := ProxyOff | ProxyOn | ProxyAuto.

Record StrategyConfig := mkConfig {
  name : string;
  retryCount : nat;
  delayRange : Z * Z;
  useProxy : UseProxy;
  randomizeData : bool;
  humanLikeDelay : bool;
  validateSteps : bool;
  adaptiveRetry : bool;
  errorRecovery : bool;
  parallelAttempts : bool;
  fallbackStrategies : list string
}.

Definition standard : StrategyConfig :=
  mkConfig "标准模式" 3 (1000, 3000)%Z ProxyOff false true true false false false [].

Definition smart : StrategyConfig :=
  mkConfig "智能模式" 5 (2000, 5000)%Z ProxyAuto true true true true true false [].

Definition aggressive : StrategyConfig :=
  mkConfig "激进模式" 10 (500, 2000)%Z ProxyOn true false false false false true
           ["proxy"; "vpn"; "mobile"]%string.

Definition strategies : list (string * StrategyConfig) :=
  [("standard", standard); ("smart", smart); ("aggressive", aggressive)]%string.

(** ** Property reads on object literals

    [strategies] and [strategyPerformance] are plain objects: a read
    [o[key]] finds the own property if there is one, and otherwise any
    member inherited from [Object.prototype], which is an object or a
    function and hence truthy. *)
Definition objectPrototypeKeys : list string :=
  ["constructor"; "__proto__"; "hasOwnProperty"; "isPrototypeOf";
   "propertyIsEnumerable"; "toLocaleString"; "toString"; "valueOf";
   "__defineGetter__"; "__defineSetter__"; "__lookupGetter__";
   "__lookupSetter__"]%string.

Inductive Property (A : Type) :=
  | Own (a : A)
  | Inherited
  | Undefined.
Arguments Own {A} a.
Arguments Inherited {A}.
Arguments Undefined {A}.

Fixpoint lookupOwn {A} (key : string) (o : list (string * A)) : option A :=
  match o with
  | [] => None
  | (k, a) :: o' => if String.eqb k key then Some a else lookupOwn key o'
  end.

Definition getProperty {A} (o : list (string * A)) (key : string) : Property A :=
  match lookupOwn key o with
  | Some a => Own a
  | None => if bool_decide (key ∈ objectPrototypeKeys) then Inherited else Undefined
  end.

(** [key] as an array index: the canonical decimal form of an integer
    below 2^32 - 1. Such keys are enumerated first, in ascending order. *)
Definition isArrayIndex (key : string) : option N :=
  let cs := map N_of_ascii (list_ascii_of_string key) in
  match cs with
  | [] => None
  | c :: rest =>
      if forallb isDigit cs && implb (c =? 48)%N (bool_decide (rest = []))
      then
        let n := fold_left (fun acc d => (acc * 10 + (d - 48))%N) cs 0%N in
        if (n <? 4294967295)%N then Some n else None
      else None
  end.

(** Creating the own property [key]: after the array indices below it when
    it is an array index itself, last otherwise. *)
Fixpoint createProperty {A} (key : string) (a : A) (o : list (string * A))
  : list (string * A) :=
  match o with
  | [] => [(key, a)]
  | (k, b) :: o' =>
      match isArrayIndex key, isArrayIndex k with
      | Some n, Some m =>
          if (n <? m)%N then (key, a) :: o else (k, b) :: createProperty key a o'
      | Some _, None => (key, a) :: o
      | None, _ => (k, b) :: createProperty key a o'
      end
  end.

Fixpoint updateOwn {A} (key : string) (f : A -> A) (o : list (string * A))
  : list (string * A) :=
  match o with
  | [] => []
  | (k, a) :: o' =>
      if String.eqb k key then (k, f a) :: o' else (k, a) :: updateOwn key f o'
  end.

(** What [getStrategy] returns: a profile, or a member inherited from
    [Object.prototype], which has none of the fields of a profile. *)
Inductive ConfigValue :=
  | Profile (config : StrategyConfig)
  | Builtin (key : string).

(** [getStrategy(strategyName)]: [this.strategies[strategyName] ||
    this.strategies.standard] *)
Definition getStrategy (strategyName : string) : ConfigValue :=
  match getProperty strategies strategyName with
  | Own config => Profile config
  | Inherited => Builtin strategyName
  | Undefined => Profile standard
  end.

(** [`${config.name}`]; the inherited members are functions named after
    their key, except the constructor [Object] and the prototype object,
    which has no name. *)
Definition configName (config : ConfigValue) : string :=
  match config with
  | Profile c => name c
  | Builtin key =>
      if String.eqb key "constructor" then "Object"
      else if String.eqb key "__proto__" then "undefined"
      else key
  end.

Definition logStrategy (m : LogMessage) : M unit := emit (Log m).

(** ** recommendStrategy *)
Record Context := mkContext {
  networkSpeed : string;       (* default 'unknown' *)
  previousFailures : Z;        (* default 0 *)
  timeOfDay : Z;               (* default new Date().getHours() *)
  isVpnDetected : bool         (* default false *)
}.

(** [stats.successes / stats.attempts]. The quotient of two counters is
    kept exact; the comparison of two such quotients agrees with the one
    on doubles as long as the counters stay below 2^26. *)
Definition successRate (c : Counters) : Q :=
  Z.of_nat (successes c) # Pos.of_nat (attempts c).

(** One iteration of the [for...of] over [Object.entries(performance)];
    the accumulator is [(bestStrategy, bestSuccessRate)]. *)
Definition considerStrategy (best : string * Q) (entry : string * Counters) : string * Q :=
  let '(strategy, c) := entry in
  if 0 <? attempts c then
    if negb (Qle_bool (successRate c) (snd best))
    then (strategy, successRate c) else best
  else best.

Definition recommendStrategy (context : Context) (s : Stats) : string :=
  let performance := strategyPerformance s in
  let '(bestStrategy, _) :=
    fold_left considerStrategy performance ("standard"%string, 0%Q) in
  if (3 <? previousFailures context)%Z then "aggressive"
  else if isVpnDetected context || String.eqb (networkSpeed context) "slow" then "smart"
  else if (9 <=? timeOfDay context)%Z && (timeOfDay context <=? 17)%Z then "smart"
  else bestStrategy.

(** ** executeSteps *)
Record Step (V : Type) := mkStep {
  stepName : string;
  action : option V -> M V         (* the input is [null] for the first step *)
}.
Arguments mkStep {V} stepName action.
Arguments stepName {V} s.
Arguments action {V} s.

(** The [for] loop of [executeSteps], entered at index [i] with [result]
    holding the output of the previous step. *)
Fixpoint executeStepsFrom {V} (config : StrategyConfig) (updateUI : bool)
         (i : nat) (result : option V) (steps : list (Step V)) : M (option V) :=
  match steps with
  | [] => ret result
  | step :: rest =>
      (if updateUI
       then ui [UiProgress (i + 1) (stepName step); UiStep Running (stepName step)]
       else ret tt) ;;
      let* result :=
        tryCatch
          ((if humanLikeDelay config && (0 <? i)
            then Utils.randomDelay (fst (delayRange config)) (snd (delayRange config))
            else ret tt) ;;
           let* result := action step result in
           (if updateUI then ui [UiStep Completed (stepName step)] else ret tt) ;;
           ret result)
          (fun error =>
             (if updateUI then ui [UiStep (Failed error) (stepName step)] else ret tt) ;;
             throw error) in
      executeStepsFrom config updateUI (i + 1) (Some result) rest
  end.

Definition executeSteps {V} (steps : list (Step V)) (config : StrategyConfig)
           (updateUI : bool) : M (option V) :=
  executeStepsFrom config updateUI 0 None steps.

(** ** The values flowing through the pipelines *)
Module Request.
Record t := make {
  email : jsstring;
  password : option jsstring;
  firstName : option jsstring;
  lastName : option jsstring;
  birthDate : jsstring;
  country : option jsstring;
  phone : option jsstring;          (* [None] is null *)
  userAgent : option jsstring;
  timestamp : Z;
  clientId : option jsstring;
  sessionId : option jsstring
}.
End Request.

Module Response.
Record t := make {
  success : bool;
  email : jsstring;
  message : option Message;
  verificationRequired : bool
}.
End Response.

Module Result.
Record t := make {
  success : bool;
  email : jsstring;
  password : jsstring;
  message : option Message;
  timestamp : Z                      (* the instant printed by toISOString *)
}.
End Result.

Inductive StepValue :=
  | Validation (valid : bool) (data : option FormData)   (* { valid, data } *)
  | Requested (r : Request.t)
  | Responded (r : Response.t)
  | Finished (r : Result.t).

Definition required : list string :=
  ["desired-email"; "password"; "first-name"; "last-name"; "country"]%string.

Definition validateFormData (formData : FormData) : M StepValue :=
  let missing := List.filter (fun field => negb (truthyProp (formData !! field))) required in
  if 0 <? length missing then throw (MissingRequiredFields missing)
  else if length (default [] (formData !! "desired-email"%string)) <? 3
  then throw EmailNameTooShort
  else
    let passwordStrength :=
      Utils.checkPasswordStrength (default [] (formData !! "password"%string)) in
    match Utils.level passwordStrength with
    | Utils.weak => throw PasswordTooWeak
    | _ => ret (Validation true (Some formData))
    end.

Definition prepareRequest (formData : FormData) (config : StrategyConfig) : M Request.t :=
  let* userAgent := Utils.getRandomUserAgent in
  let* timestamp := now in
  let requestData :=
    Request.make
      (template (formData !! "desired-email"%string) ++ str "@outlook.com")
      (formData !! "password"%string)
      (formData !! "first-name"%string)
      (formData !! "last-name"%string)
      (template (formData !! "birth-year"%string) ++ str "-"
       ++ template (formData !! "birth-month"%string) ++ str "-"
       ++ template (formData !! "birth-day"%string))
      (formData !! "country"%string)
      (if truthyProp (formData !! "phone"%string)
       then Some (template (formData !! "phone-country"%string)
                  ++ template (formData !! "phone"%string))
       else None)
      userAgent timestamp None None in
  if randomizeData config then
    let* clientId := Utils.generateUUID in
    let* sessionId := Utils.generateRandomString 16 in
    ret (Request.make (Request.email requestData) (Request.password requestData)
           (Request.firstName requestData) (Request.lastName requestData)
           (Request.birthDate requestData) (Request.country requestData)
           (Request.phone requestData) (Request.userAgent requestData)
           (Request.timestamp requestData) (Some clientId) (Some sessionId))
  else ret requestData.

(** [prepareAggressiveRequest]: the request of [prepareRequest] with the
    user agent and country of [variations[index % 3]]. *)
Definition prepareAggressiveRequest (formData : FormData) (config : StrategyConfig)
           (index : nat) : M Request.t :=
  let* requestData := prepareRequest formData config in
  let* ua0 := Utils.getRandomUserAgent in
  let* ua1 := Utils.getRandomUserAgent in
  let* ua2 := Utils.getRandomUserAgent in
  let variations := [(ua0, str "US"); (ua1, str "CA"); (ua2, str "GB")] in
  match variations !! (index mod 3) with
  | Some (userAgent, country) =>
      ret (Request.make (Request.email requestData) (Request.password requestData)
             (Request.firstName requestData) (Request.lastName requestData)
             (Request.birthDate requestData) (Some country)
             (Request.phone requestData) userAgent
             (Request.timestamp requestData) (Request.clientId requestData)
             (Request.sessionId requestData))
  | None => ret requestData
  end.

Definition submitErrors : list SubmitFailure :=
  [EmailExists; NetworkTimeout; ServerUnavailable; CaptchaWrong; RateLimited].

(** [submitRegistration]: the mocked submission. The thresholds 0.2 and
    0.7 are taken as the decimal fractions they denote. *)
Definition submitRegistration (requestData : Request.t) (config : StrategyConfig)
  : M Response.t :=
  logStrategy SubmittingRequest ;;
  Utils.randomDelay 2000 5000 ;;
  let* r := mathRandom in
  if negb (Qle_bool r (2 # 10)) then
    let* v := mathRandom in
    ret (Response.make true (Request.email requestData) (Some Registered)
                       (negb (Qle_bool v (7 # 10))))
  else
    let* i := randomBelow (Z.of_nat (length submitErrors)) in
    match (if (i <? 0)%Z then None else submitErrors !! Z.to_nat i) with
    | Some reason => throw (SubmissionFailed reason)
    | None => throw (OtherError (str "undefined"))
    end.

Definition submitRegistrationWithRetry (requestData : Request.t) (config : StrategyConfig)
  : M (option Response.t) :=
  Utils.retry (submitRegistration requestData config) (retryCount config) 2000.

Definition submitRegistrationAggressive (requestData : Request.t) (config : StrategyConfig)
  : M Response.t :=
  Utils.randomDelay 500 1500 ;;
  let* r := mathRandom in
  if negb (Qle_bool r (15 # 100)) then
    ret (Response.make true (Request.email requestData) (Some RegisteredAggressive) false)
  else throw AggressiveSubmissionFailed.

Definition validateResponse (response : Response.t) : M Response.t :=
  if negb (Response.success response)
  then throw (RegistrationFailed (Response.message response))
  else
    (if Response.verificationRequired response
     then logStrategy VerificationNeeded else ret tt) ;;
    ret response.

(** [this.currentFormData?.password || '****'] *)
Definition currentPassword (w : World) : jsstring :=
  match currentFormData w with
  | Some formData =>
      if truthyProp (formData !! "password"%string)
      then default [] (formData !! "password"%string) else str "****"
  | None => str "****"
  end.

Definition finalizeRegistration (data : Response.t) : M Result.t :=
  let* password := (fun w => (Returned (currentPassword w), w)) in
  let* timestamp := now in
  let result :=
    Result.make true (Response.email data) password (Response.message data) timestamp in
  ui [IncrementTodayCount] ;;
  logStrategy RegistrationComplete ;;
  ret result.

Definition quickValidate (formData : FormData) : M StepValue :=
  if negb (truthyProp (formData !! "desired-email"%string))
     || negb (truthyProp (formData !! "password"%string))
  then throw MissingKeyFields
  else ret (Validation true None).

(** The steps receive the output of the step before them; in the
    pipelines below that output always has the shape the step reads, and
    any other shape is answered by a [TypeError]. *)
Definition onRequest (f : Request.t -> M StepValue) (input : option StepValue) : M StepValue :=
  match input with Some (Requested r) => f r | _ => throw TypeError end.

Definition onResponse (f : Response.t -> M StepValue) (input : option StepValue) : M StepValue :=
  match input with Some (Responded r) => f r | _ => throw TypeError end.

Definition executeStandardStrategy (formData : FormData) (config : StrategyConfig)
  : M (option StepValue) :=
  let steps :=
    [ mkStep "验证参数" (fun _ => validateFormData formData);
      mkStep "准备请求" (fun _ => let* r := prepareRequest formData config in ret (Requested r));
      mkStep "提交注册" (onRequest (fun requestData =>
                           let* r := submitRegistration requestData config in
                           ret (Responded r)));
      mkStep "验证结果" (onResponse (fun response =>
                           let* r := validateResponse response in ret (Responded r)));
      mkStep "完成注册" (onResponse (fun data =>
                           let* r := finalizeRegistration data in ret (Finished r))) ] in
  executeSteps steps config true.

(** [generateDataVariants(formData, count)] *)
Definition generateDataVariants (formData : FormData) (count : nat) : M (list FormData) :=
  mapM (fun i : nat =>
          let variant := formData in
          let* suffix := randomBelow 1000 in
          let variant :=
            <["desired-email"%string :=
                template (formData !! "desired-email"%string) ++ toString (Z.to_N suffix)]>
              variant in
          if 0 <? i then
            let* names := Utils.generateRandomName in
            ret (<["last-name"%string := template (snd names)]>
                   (<["first-name"%string := template (fst names)]> variant))
          else ret variant)
       (seq 0 count).

(** One of the concurrent attempts of the aggressive strategy. *)
Definition attempt (config : StrategyConfig) (index : nat) (variant : FormData)
  : M (option StepValue) :=
  tryCatch
    (logStrategy (AttemptStarted (index + 1)) ;;
     let steps :=
       [ mkStep "快速验证" (fun _ => quickValidate variant);
         mkStep "准备请求" (fun _ =>
                              let* r := prepareAggressiveRequest variant config index in
                              ret (Requested r));
         mkStep "提交注册" (onRequest (fun requestData =>
                              let* r := submitRegistrationAggressive requestData config in
                              ret (Responded r)));
         mkStep "验证结果" (onResponse (fun response =>
                              let* r := validateResponse response in ret (Responded r)));
         mkStep "完成注册" (onResponse (fun data =>
                              let* r := finalizeRegistration data in ret (Finished r))) ] in
     let* result := executeSteps steps config false in
     logStrategy (AttemptSucceeded (index + 1)) ;;
     ret result)
    (fun error =>
       logStrategy (AttemptFailed (index + 1) error) ;;
       throw error).

Definition executeAggressiveStrategy (formData : FormData) (config : StrategyConfig)
  : M (option StepValue) :=
  logStrategy AggressiveStarted ;;
  let* dataVariants := generateDataVariants formData 3 in
  let attempts := imap (fun index variant => attempt config index variant) dataVariants in
  promiseAny attempts.

(** ** Statistics *)
Definition zero : Counters := mkCounters 0 0 0.
Definition countAttempt (c : Counters) := mkCounters (attempts c + 1) (successes c) (failures c).
Definition countSuccess (c : Counters) := mkCounters (attempts c) (successes c + 1) (failures c).
Definition countFailure (c : Counters) := mkCounters (attempts c) (successes c) (failures c + 1).

(** [this.stats.attempts++] and the like *)
Definition bumpTotals (f : Counters -> Counters) : M unit :=
  fun w => (Returned tt,
            withStats w (mkStats (f (totals (stats w))) (strategyPerformance (stats w)))).

Definition initializeStrategyStats (strategy : string) : M unit :=
  fun w =>
    match getProperty (strategyPerformance (stats w)) strategy with
    | Undefined =>
        (Returned tt,
         withStats w (mkStats (totals (stats w))
                              (createProperty strategy zero (strategyPerformance (stats w)))))
    | _ => (Returned tt, w)
    end.

(** [this.stats.strategyPerformance[strategy].attempts++] and the like. On
    a member inherited from [Object.prototype] the counter is written to
    that member and the statistics stay as they are. *)
Definition bumpPerformance (f : Counters -> Counters) (strategy : string) : M unit :=
  fun w =>
    match getProperty (strategyPerformance (stats w)) strategy with
    | Own _ =>
        (Returned tt,
         withStats w (mkStats (totals (stats w))
                              (updateOwn strategy f (strategyPerformance (stats w)))))
    | Inherited => (Returned tt, w)
    | Undefined => (Thrown TypeError, w)
    end.

Section ExecuteStrategy.

(** The smart pipeline probes the browser environment; the claims below
    hold whatever it does. *)
Variable executeSmartStrategy : FormData -> StrategyConfig -> M (option StepValue).

(** The three pipelines are only reached under their own names, where
    [getStrategy] returns the profile of that name. *)
Definition withConfig (config : ConfigValue)
           (run : StrategyConfig -> M (option StepValue)) : M (option StepValue) :=
  match config with Profile c => run c | Builtin _ => throw TypeError end.

Definition executeStrategy (formData : FormData) (strategy : string) : M (option StepValue) :=
  let config := getStrategy strategy in
  bumpTotals countAttempt ;;
  initializeStrategyStats strategy ;;
  bumpPerformance countAttempt strategy ;;
  tryCatch
    (logStrategy (StrategyStarted (configName config)) ;;
     let* result :=
       if String.eqb strategy "standard"
       then withConfig config (executeStandardStrategy formData)
       else if String.eqb strategy "smart"
       then withConfig config (executeSmartStrategy formData)
       else if String.eqb strategy "aggressive"
       then withConfig config (executeAggressiveStrategy formData)
       else throw (UnknownStrategy strategy) in
     bumpTotals countSuccess ;;
     bumpPerformance countSuccess strategy ;;
     logStrategy (StrategySucceeded (configName config)) ;;
     ret result)
    (fun error =>
       bumpTotals countFailure ;;
       bumpPerformance countFailure strategy ;;
       logStrategy (StrategyFailed (configName config) error) ;;
       throw error).

End ExecuteStrategy.

Definition resetStats : M unit :=
  fun w => (Returned tt, withStats w (mkStats zero [])).

End RegistrationStrategies.

(* ===================================================================== *)
(** * The JavaScript runtime fragment, continued: text                    *)
(* ===================================================================== *)
Module JsText.
Import Js.

(** [n.toString()] for an integer [n] *)
Definition numberToString (z : Z) : jsstring :=
  if (z <? 0)%Z then 45%N :: toString (Z.to_N (- z)) else toString (Z.to_N z).

(** [parts.join(separator)] *)
Fixpoint join (separator : jsstring) (parts : list jsstring) : jsstring :=
  match parts with
  | [] => []
  | p :: rest =>
      match rest with
      | [] => p
      | _ :: _ => p ++ separator ++ join separator rest
      end
  end.

(** ** Regular expressions

    The patterns of the sources are built from character classes,
    concatenation and [+]; [NoMatch], [Either] and [Many] are what their
    derivatives need. [matchesWhole r s] is [/^r$/.test(s)]: without flags
    [^] and [$] match at the two ends of the input only, and a class
    matches one code unit. *)
Inductive RegExp :=
  | NoMatch
  | EmptyMatch
  | Chars (class : N -> bool)
  | Then (r s : RegExp)
  | Either (r s : RegExp)
  | Many (r : RegExp).

(** [r+] *)
Definition OneOrMore (r : RegExp) : RegExp := Then r (Many r).

Fixpoint nullable (r : RegExp) : bool :=
  match r with
  | NoMatch => false
  | EmptyMatch => true
  | Chars _ => false
  | Then r s => nullable r && nullable s
  | Either r s => nullable r || nullable s
  | Many _ => true
  end.

(** What is left of [r] to match once the code unit [c] has been read. *)
Fixpoint derivative (c : N) (r : RegExp) : RegExp :=
  match r with
  | NoMatch => NoMatch
  | EmptyMatch => NoMatch
  | Chars class => if class c then EmptyMatch else NoMatch
  | Then r s =>
      if nullable r
      then Either (Then (derivative c r) s) (derivative c s)
      else Then (derivative c r) s
  | Either r s => Either (derivative c r) (derivative c s)
  | Many r => Then (derivative c r) (Many r)
  end.

Definition matchesWhole (r : RegExp) (s : jsstring) : bool :=
  nullable (fold_left (fun r c => derivative c r) s r).

End JsText.

(* ===================================================================== *)
(** * js/utils.js, continued                                              *)
(* ===================================================================== *)
Module UtilsMore.
Import Js JsText Runtime Utils.
Local Open Scope js_scope.

(** [[^\s@]] *)
Definition notSpaceOrAt (c : N) : bool := negb (isWhiteSpace c || (c =? 64)%N).

(** [/^[^\s@]+@[^\s@]+\.[^\s@]+$/] *)
Definition emailRegex : RegExp :=
  Then (OneOrMore (Chars notSpaceOrAt))
       (Then (Chars (N.eqb 64))
             (Then (OneOrMore (Chars notSpaceOrAt))
                   (Then (Chars (N.eqb 46))
                         (OneOrMore (Chars notSpaceOrAt))))).

Definition validateEmail (email : jsstring) : bool := matchesWhole emailRegex email.

(** [validateText(text, minLength, maxLength)] on a string *)
Definition validateText (text : jsstring) (minLength maxLength : Z) : bool :=
  if negb (truthy text) then false
  else
    let length := Z.of_nat (length (trim text)) in
    (minLength <=? length)%Z && (length <=? maxLength)%Z.

Definition adjectives : list jsstring :=
  map str ["cool"; "smart"; "happy"; "bright"; "swift"; "lucky"; "super"; "mega";
           "ultra"; "pro"]%string.

Definition nouns : list jsstring :=
  map str ["user"; "player"; "master"; "hero"; "star"; "ninja"; "wizard"; "champion";
           "legend"; "ace"]%string.

(** [generateRandomEmail(prefix)]; the default prefix is the empty string. *)
Definition generateRandomEmail (prefix : jsstring) : M jsstring :=
  let* numbers := randomBelow 9999 in
  if truthy prefix then ret (prefix ++ numberToString numbers)
  else
    let* adjective := pick adjectives in
    let* noun := pick nouns in
    ret (template adjective ++ template noun ++ numberToString numbers).

Module Birth.
Record t := make {
  year : jsstring;
  month : jsstring;
  day : jsstring
}.
End Birth.

Section Calendar.

(** [new Date().getFullYear()]: the local calendar is not part of the
    world, the current year is given. *)
Variable currentYear : Z.

(** [generateRandomBirth(minAge, maxAge)]. The day count of an invalid
    date is NaN, and so is then the day. *)
Definition generateRandomBirth (minAge maxAge : Z) : M Birth.t :=
  let* age := randomBelow (maxAge - minAge + 1) in
  let birthYear := (currentYear - age - minAge)%Z in
  let* month := randomBelow 12 in
  let birthMonth := (month + 1)%Z in
  let daysInMonth := lastDayOfPreviousMonth birthYear birthMonth in
  let* r := mathRandom in
  let birthDay :=
    match daysInMonth with
    | Some n => Some (Qfloor (r * inject_Z n) + 1)%Z
    | None => None
    end in
  ret (Birth.make (numberToString birthYear)
                  (padStart2 (numberToString birthMonth))
                  (padStart2 (match birthDay with
                              | Some d => numberToString d
                              | None => str "NaN"
                              end))).

End Calendar.

(** [getRandomIP()]: [Array.from({length: 4}, ...)] calls its function
    for the indices 0 to 3 in order. *)
Definition getRandomIP : M jsstring :=
  let* parts := mapM (fun _ : nat => randomBelow 256) (seq 0 4) in
  ret (join (str ".") (map numberToString parts)).

End UtilsMore.

(* ===================================================================== *)
(** * The registration strategies module, continued                       *)
(* ===================================================================== *)
Module RegistrationStrategiesMore.
Import Js JsText Runtime Utils UtilsMore RegistrationStrategies.
Local Open Scope js_scope.

(** [generateEmailAlternatives(originalEmail)] on a string: five names
    with a random numeric suffix, six with a fixed suffix, four with a
    prefix. *)
Definition generateEmailAlternatives (originalEmail : jsstring) : M (list jsstring) :=
  let* alternatives :=
    mapM (fun _ : nat =>
            let* n := randomBelow 1000 in ret (originalEmail ++ numberToString n))
         (seq 1 5) in
  let suffixes := map str ["01"; "02"; "03"; "123"; "2024"; "2025"]%string in
  let alternatives :=
    alternatives ++ map (fun suffix => originalEmail ++ suffix) suffixes in
  let prefixes := map str ["new"; "my"; "user"; "mail"]%string in
  ret (alternatives ++ map (fun prefix => prefix ++ originalEmail) prefixes).

(** The rates are compared as the decimal fractions they denote. *)
Definition countrySuccessRates : list (string * Q) :=
  [("US"%string, 92 # 100); ("CA"%string, 89 # 100); ("GB"%string, 87 # 100);
   ("AU"%string, 85 # 100); ("SG"%string, 83 # 100); ("HK"%string, 80 # 100);
   ("CN"%string, 75 # 100)]%Q.

Definition selectOptimalCountry : M (option jsstring) :=
  let highSuccessCountries :=
    map (fun entry => str (fst entry))
        (List.filter (fun entry => negb (Qle_bool (snd entry) (8 # 10)))
                     countrySuccessRates) in
  pick highSuccessCountries.

(** The object [optimizeFormData] returns: the string-valued fields of the
    form, and the array [emailAlternatives] when it has been set. *)
Module Optimized.
Record t := make {
  data : FormData;
  emailAlternatives : option (list jsstring)
}.
End Optimized.

(** [v || fallback] on a property read *)
Definition orElse (v : option jsstring) (fallback : jsstring) : jsstring :=
  if truthyProp v then default [] v else fallback.

Section Optimize.

(** [new Date().getFullYear()], as for [generateRandomBirth]. *)
Variable currentYear : Z.

(** [optimizeFormData(formData)]. A country that [selectOptimalCountry]
    leaves undefined reads like a missing one. *)
Definition optimizeFormData (formData : FormData) : M Optimized.t :=
  let optimized := formData in
  let* alternatives :=
    if truthyProp (optimized !! "desired-email"%string) then
      let* alternatives :=
        generateEmailAlternatives (default [] (optimized !! "desired-email"%string)) in
      ret (Some alternatives)
    else ret None in
  let optimized :=
    match alternatives with
    | Some _ => delete "emailAlternatives"%string optimized
    | None => optimized
    end in
  let* optimized :=
    if negb (truthyProp (optimized !! "birth-month"%string))
       || negb (truthyProp (optimized !! "birth-day"%string))
       || negb (truthyProp (optimized !! "birth-year"%string))
    then
      let* randomBirth := generateRandomBirth currentYear 20 35 in
      let optimized :=
        <["birth-month"%string :=
            orElse (optimized !! "birth-month"%string) (Birth.month randomBirth)]>
          optimized in
      let optimized :=
        <["birth-day"%string :=
            orElse (optimized !! "birth-day"%string) (Birth.day randomBirth)]>
          optimized in
      ret (<["birth-year"%string :=
               orElse (optimized !! "birth-year"%string) (Birth.year randomBirth)]>
             optimized)
    else ret optimized in
  let* optimized :=
    if negb (truthyProp (optimized !! "country"%string)) then
      let* country := selectOptimalCountry in
      ret (match country with
           | Some c => <["country"%string := c]> optimized
           | None => delete "country"%string optimized
           end)
    else ret optimized in
  ret (Optimized.make optimized alternatives).

End Optimize.

(** [getStats()]: the statistics and the overall success rate, 0 before
    the first attempt. *)
Definition getStats (s : Stats) : Stats * Q :=
  (s, if 0 <? attempts (totals s) then successRate (totals s) else 0%Q).

End RegistrationStrategiesMore.

(* ===================================================================== *)
(** * js/outlookRegistration.js: the call of the strategies               *)
(* ===================================================================== *)
Module OutlookRegistration.
Import Js Runtime RegistrationStrategies.
Local Open Scope js_scope.

Section ExecuteRegistration.

Variable executeSmartStrategy : FormData -> StrategyConfig -> M (option StepValue).

(** The built-in flow used when the strategies module is not loaded. *)
Variable executeSimpleRegistration : FormData -> M (option StepValue).

(** Is [window.RegistrationStrategies] present. *)
Variable strategiesLoaded : bool.

(** [window.RegistrationStrategies.currentFormData = formData] *)
Definition setCurrentFormData (formData : FormData) : M unit :=
  fun w => (Returned tt,
            mkWorld (random w) (draws w) (clock w) (trace w) (uiManager w) (stats w)
                    (Some formData)).

Definition executeRegistration (formData : FormData) (strategy : string)
  : M (option StepValue) :=
  if strategiesLoaded then
    setCurrentFormData formData ;;
    executeStrategy executeSmartStrategy formData strategy
  else executeSimpleRegistration formData.

End ExecuteRegistration.

End OutlookRegistration.

(* ===================================================================== *)
(** * Vocabulary of the statements                                        *)
(* ===================================================================== *)

(** ** For js/utils.js *)
Module UtilsSpec.

Definition b2n (b : bool) : nat := if b then 1 else 0.

End UtilsSpec.

(** ** For js/formProtector.js *)
Module FormProtectorSpec.
Import Js FormProtector.

(** What [restoreAllValues] decides for one field, read off the state the
    loop starts from: the live element and the value to write, if any. *)
Definition toWrite (st : State) (fieldId : string) : option (Element * jsstring) :=
  match document st !! fieldId, savedFormState st !! fieldId with
  | Some field, Some savedValue =>
      if truthy savedValue && truthy (trim savedValue)
      then Some (field, savedValue) else None
  | _, _ => None
  end.

Definition isWritten (st : State) (fieldId : string) : bool :=
  match toWrite st fieldId with Some _ => true | None => false end.

Definition fieldEffects (st : State) (fieldId : string) : list Effect :=
  match toWrite st fieldId with
  | Some (_, v) => [SetValue fieldId v; DispatchEvent fieldId input;
                    DispatchEvent fieldId change]
  | None => []
  end.

Definition afterWrite (st : State) (fieldId : string) : option Element :=
  match toWrite st fieldId with
  | Some (field, v) => Some (assign field v)
  | None => document st !! fieldId
  end.

(** A form with the eight tracked fields present and empty. *)
Definition emptyForm : gmap string Element :=
  list_to_map (map (fun id => (id, mkElement TextInput [])) protectedFields).

Definition twoNames : gmap string jsstring :=
  list_to_map [("first-name"%string, str "Alex"); ("last-name"%string, str "Smith")].

Definition isLive (st : State) (fieldId : string) : bool :=
  match document st !! fieldId with Some _ => true | None => false end.

(** A live field whose value is empty after trimming. *)
Definition liveEmpty (st : State) (fieldId : string) : bool :=
  match document st !! fieldId with
  | Some field => blank (value field)
  | None => false
  end.

(** A snapshot is valid when at least one saved value is non-empty after
    trimming. *)
Definition validSnapshot (S : gmap string jsstring) : Prop :=
  exists k v, S !! k = Some v /\ nonBlank (Some v) = true.

(** Five of the eight fields cleared, three still filled. *)
Definition fiveCleared : gmap string Element :=
  <["first-name"%string := mkElement TextInput (str "Alex")]>
    (<["last-name"%string := mkElement TextInput (str "Smith")]>
       (<["country"%string := mkElement TextInput (str "US")]> emptyForm)).

Definition fieldValue (st : State) (fieldId : string) : option jsstring :=
  value <$> (document st !! fieldId).




End FormProtectorSpec.

(** ** For the registration strategies module *)
Module StrategySpec.
Import Js Runtime RegistrationStrategies.
Local Open Scope js_scope.

(** The strategy the loop over the statistics leaves in [bestStrategy]. *)
Definition bestByHistory (perf : list (string * Counters)) : string :=
  fst (fold_left considerStrategy perf ("standard"%string, 0%Q)).

(** What the loop has found after a prefix of the entries: nothing with a
    positive rate yet, or the first entry of the highest rate. *)
Definition loopInvariant (perf : list (string * Counters)) (best : string * Q) : Prop :=
  (best = ("standard"%string, 0%Q)
   /\ forall j n d, perf !! j = Some (n, d) -> 0 < attempts d -> successes d = 0)
  \/ (exists i c,
         perf !! i = Some (fst best, c) /\ 0 < attempts c /\ 0 < successes c
         /\ snd best = successRate c
         /\ forall j n d, perf !! j = Some (n, d) -> 0 < attempts d ->
              (successRate d <= successRate c)%Q
              /\ (j < i -> (successRate d < successRate c)%Q)).

(** The profiles in the order the table declares them. *)
Definition declared : list string := ["standard"; "smart"; "aggressive"]%string.

(** From the spec's words: the profile with the highest recorded success
    rate, ties broken by declaration order, [standard] without history. *)
Definition spec_bestByHistory (perf : list (string * Counters)) : string :=
  let recorded :=
    flat_map (fun n => match lookupOwn n perf with
                       | Some c => if 0 <? attempts c then [(n, successRate c)] else []
                       | None => []
                       end) declared in
  match recorded with
  | [] => "standard"%string
  | first :: rest =>
      fst (fold_left (fun best e => if negb (Qle_bool (snd e) (snd best)) then e else best)
                     rest first)
  end.

(** A context in which none of the contextual rules fires. *)
Definition quietEvening : Context := mkContext "unknown" 0 20 false.

(** Statistics in which the aggressive strategy was used first, and both
    it and the standard strategy succeeded once. *)
Definition aggressiveFirst : Stats :=
  mkStats (mkCounters 2 2 0)
          [("aggressive"%string, mkCounters 1 1 0); ("standard"%string, mkCounters 1 1 0)].

(** Most of the module neither rejects nor touches the statistics, the
    current form data, the source of random numbers or the presence of the
    UI: it only draws numbers, waits and logs. A world is in the frame
    [rnd], [st], [cfd], [uiflag] when it has these four components. *)
Definition inFrame (rnd : nat -> Q) (st : Stats) (cfd : option FormData) (uiflag : bool)
           (w : World) : Prop :=
  random w = rnd /\ stats w = st /\ currentFormData w = cfd /\ uiManager w = uiflag.

(** [returns rnd st cfd uiflag c Post]: started in any world of the frame,
    [c] resolves with a value satisfying [Post] in a world of the frame. *)
Definition returns (rnd : nat -> Q) (st : Stats) (cfd : option FormData) (uiflag : bool)
           {A} (c : M A) (Post : A -> Prop) : Prop :=
  forall w, inFrame rnd st cfd uiflag w ->
            exists a w', c w = (Returned a, w') /\ inFrame rnd st cfd uiflag w' /\ Post a.

(** [this.currentFormData?.password || '****'] when the current form data
    is [cfd] *)
Definition framePassword (cfd : option FormData) : jsstring :=
  match cfd with
  | Some formData =>
      if truthyProp (formData !! "password"%string)
      then default [] (formData !! "password"%string) else str "****"
  | None => str "****"
  end.

(** The names of the three profiles of the table. *)
Definition isKnown (strategy : string) : bool :=
  String.eqb strategy "standard" || String.eqb strategy "smart"
  || String.eqb strategy "aggressive".

(** The bucket of [strategy] once [initializeStrategyStats] has run. *)
Definition initialized (strategy : string) (perf : list (string * Counters))
  : list (string * Counters) :=
  match lookupOwn strategy perf with
  | Some _ => perf
  | None => createProperty strategy zero perf
  end.

(** The world in which [executeStrategy] starts the pipeline of a
    strategy: an attempt has been counted and the start logged. *)
Definition started (strategy : string) (config : StrategyConfig) (w : World) : World :=
  mkWorld (random w) (draws w) (clock w) (trace w ++ [Log (StrategyStarted (name config))])
          (uiManager w)
          (mkStats (countAttempt (totals (stats w)))
                   (updateOwn strategy countAttempt
                              (initialized strategy (strategyPerformance (stats w)))))
          (currentFormData w).

(** The input of the end-to-end scenario. *)
Definition alex : FormData :=
  list_to_map
    [("first-name"%string, str "Alex"); ("last-name"%string, str "Smith");
     ("desired-email"%string, str "alexsmith01"); ("password"%string, str "Abc12345!");
     ("birth-year"%string, str "1995"); ("birth-month"%string, str "04");
     ("birth-day"%string, str "12"); ("country"%string, str "US")].

(** A freshly loaded page: no statistics, no current form data, no UI. *)
Definition freshWorld (random : nat -> Q) : World :=
  mkWorld random 0 0 [] false (mkStats zero []) None.

(** A smart pipeline for closed examples; the standard and the aggressive
    strategy never call it. *)
Definition noSmartStrategy : FormData -> StrategyConfig -> M (option StepValue) :=
  fun _ _ => throw TypeError.

(** A source of random numbers that always returns 0.5. *)
Definition oneHalf : nat -> Q := fun _ => 1 # 2.

(** What happens before the action of the step with index [i] is called:
    the optional notice to the UI, then the delay. *)
Definition beforeAction {V} (config : StrategyConfig) (updateUI : bool)
           (i : nat) (step : Step V) : M unit :=
  ((if updateUI
    then ui [UiProgress (i + 1) (stepName step); UiStep Running (stepName step)]
    else ret tt) ;;
   (if humanLikeDelay config && (0 <? i)
    then Utils.randomDelay (fst (delayRange config)) (snd (delayRange config))
    else ret tt))%js.

(** How many of [n] steps entered at index [i] are preceded by a delay. *)
Definition delayed (config : StrategyConfig) (i n : nat) : nat :=
  if humanLikeDelay config then (if 0 <? i then n else n - 1) else 0.

(** The durations of the awaited delays of a trace. *)
Definition sleeps (t : list Event) : list Z :=
  flat_map (fun ev => match ev with Sleep ms => [ms] | _ => [] end) t.

(** A step that computes its output from its input and does nothing else. *)
Definition pureStep {V} (f : option V -> V) : Step V :=
  mkStep "" (fun input => ret (f input)).

(** The mocked submission draws three random numbers per call: its
    latency, its success, and then either the verification flag or the
    error. The [j]-th call (from 0) of a retry loop started in [w] reads
    the draws [3j], [3j + 1] and [3j + 2] after those already consumed. *)
Definition latencyAt (w : World) (j : nat) : Z :=
  (Qfloor (random w (draws w + 3 * j) * inject_Z (5000 - 2000 + 1)) + 2000)%Z.

Definition attemptFails (w : World) (j : nat) : bool :=
  Qle_bool (random w (draws w + 3 * j + 1)) (2 # 10).

Definition failureAt (w : World) (j : nat) : JsError :=
  let i := Qfloor (random w (draws w + 3 * j + 2)
                   * inject_Z (Z.of_nat (length submitErrors))) in
  match (if (i <? 0)%Z then None else submitErrors !! Z.to_nat i) with
  | Some reason => SubmissionFailed reason
  | None => OtherError (str "undefined")
  end.

(** What a failed attempt that is retried leaves in the trace, and what
    the last attempt leaves. *)
Definition failedAttempt (w : World) (maxRetries j : nat) : list Event :=
  [Log SubmittingRequest; Sleep (latencyAt w j);
   Warn (j + 1) maxRetries (failureAt w j); Sleep (2000 * (Z.of_nat j + 1))].

Definition lastAttempt (w : World) (j : nat) : list Event :=
  [Log SubmittingRequest; Sleep (latencyAt w j)].

(** The number of calls of the submission recorded in a trace. *)
Definition submissions (t : list Event) : nat :=
  length (List.filter (fun ev => match ev with
                                 | Log SubmittingRequest => true
                                 | _ => false
                                 end) t).

(** From the spec's words: the transient errors are those of the network,
    the server and the rate limit. *)
Definition spec_isTransient (reason : SubmitFailure) : bool :=
  match reason with
  | NetworkTimeout | ServerUnavailable | RateLimited => true
  | EmailExists | CaptchaWrong => false
  end.

(** Random numbers for which the first submission fails with "email
    exists" and the second succeeds. *)
Definition emailTakenOnce : nat -> Q :=
  fun k => match k with
           | 1 => (1 # 10)%Q  (* first call: not above 0.2, it fails *)
           | 2 => 0%Q         (* the first error of the table *)
           | _ => (1 # 2)%Q
           end.

Definition someRequest : Request.t :=
  Request.make (str "alexsmith01@outlook.com") (Some (str "Abc12345!"))
               (Some (str "Alex")) (Some (str "Smith")) (str "1995-04-12")
               (Some (str "US")) None None 0 None None.



End StrategySpec.

(* ===================================================================== *)
(** * Vocabulary for the further properties                             *)
(* ===================================================================== *)
Module FormProtectorMoreSpec.
Import Js FormProtector FormProtectorSpec.


(** The notice [forceRestore] shows for a given answer of
    [restoreAllValues]. *)
Definition noticeFor (restored : bool) : Notice :=
  if restored then RestoreSucceeded else NothingToRestore.

(** A page on which the eight tracked fields are text inputs holding only
    white space. *)
Definition blankForm : gmap string Element :=
  list_to_map (map (fun id => (id, mkElement TextInput (str "  "))) protectedFields).

(** A page with a birth-day select that lost its options, and the date
    fields of 29 February 2024. *)
Definition leapForm : gmap string Element :=
  <["birth-year"%string := mkElement (Select [[]; str "2023"; str "2024"]) (str "2024")]>
    (<["birth-month"%string := mkElement (Select [[]; str "02"; str "04"]) (str "02")]>
       (<["birth-day"%string := mkElement (Select [[]]) []]> emptyForm)).

Definition leapDay : gmap string jsstring :=
  list_to_map [("birth-day"%string, str "29")].

End FormProtectorMoreSpec.

Module UtilsMoreSpec.
Import Js JsText Runtime Utils UtilsMore.

(** The criteria in the order [checkPasswordStrength] tests them, and the
    advice it gives for each one that is not met. *)
Definition criteria : list Criterion :=
  [LengthAtLeast8; HasLower; HasUpper; HasDigit; HasSymbol].

Definition advice (c : Criterion) : Feedback :=
  match c with
  | LengthAtLeast8 => FbMinLength
  | HasLower => FbNeedLower
  | HasUpper => FbNeedUpper
  | HasDigit => FbNeedDigit
  | HasSymbol => FbNeedSymbol
  end.

(** A source of random numbers as [Math.random] promises it: every
    number is at least 0 and below 1. *)
Definition unitInterval (rnd : nat -> Q) : Prop :=
  forall n, (0 <= rnd n)%Q /\ (rnd n < 1)%Q.

(** The world after [n] more calls of [Math.random()] and nothing else. *)
Definition drawn (n : nat) (w : World) : World :=
  mkWorld (random w) (draws w + n) (clock w) (trace w) (uiManager w) (stats w)
          (currentFormData w).

(** A lowercase hexadecimal digit. *)
Definition isHexDigit (c : N) : bool :=
  isDigit c || ((97 <=? c) && (c <=? 102))%N.

(** What may stand in a UUID at a position where the template has [t]. *)
Definition uuidChar (t c : N) : bool :=
  if (t =? 120)%N then isHexDigit c
  else if (t =? 121)%N then ((c =? 56) || (c =? 57) || (c =? 97) || (c =? 98))%N
  else (c =? t)%N.

Definition uuidTemplate : jsstring := str "xxxxxxxx-xxxx-4xxx-yxxx-xxxxxxxxxxxx".

(** The strings a regular expression denotes. *)
Inductive Matches : RegExp -> jsstring -> Prop :=
  | MatchesEmpty : Matches EmptyMatch []
  | MatchesChars class c : class c = true -> Matches (Chars class) [c]
  | MatchesThen r s u v : Matches r u -> Matches s v -> Matches (Then r s) (u ++ v)
  | MatchesLeft r s u : Matches r u -> Matches (Either r s) u
  | MatchesRight r s u : Matches s u -> Matches (Either r s) u
  | MatchesNone r : Matches (Many r) []
  | MatchesMore r u v : Matches r u -> Matches (Many r) v -> Matches (Many r) (u ++ v).

(** An operation that fails whenever it is called, at once and without
    waiting. *)
Definition alwaysFails {A} (fn : M A) : Prop :=
  forall w, exists e w', fn w = (Thrown e, w')
                         /\ clock w' = clock w
                         /\ StrategySpec.sleeps (trace w') = StrategySpec.sleeps (trace w).

(** The waits of [retry] between [n] failed calls. *)
Definition backoff (delayMs : Z) (n : nat) : list Z :=
  map (fun j => (delayMs * Z.of_nat j)%Z) (seq 1 (n - 1)).

End UtilsMoreSpec.

Module StrategyMoreSpec.
Import Js JsText Runtime Utils UtilsMore RegistrationStrategies StrategySpec.
Import UtilsMoreSpec RegistrationStrategiesMore.

(** A computation that leaves the strategy statistics as they are,
    whether it resolves or rejects. *)
Definition keepsStats {A} (c : M A) : Prop :=
  forall w, stats (snd (c w)) = stats w.

Definition succeeded {A} (o : Outcome A) : bool :=
  match o with Returned _ => true | Thrown _ => false end.

(** The counter [executeStrategy] increments at the end of a run. *)
Definition countOutcome (ok : bool) : Counters -> Counters :=
  if ok then countSuccess else countFailure.

(** [strategyPerformance] once [initializeStrategyStats] has run. *)
Definition initializedFor (strategy : string) (perf : list (string * Counters))
  : list (string * Counters) :=
  match getProperty perf strategy with
  | Undefined => createProperty strategy zero perf
  | _ => perf
  end.

(** [strategyPerformance] once [strategyPerformance[strategy]] has been
    incremented by [f]. *)
Definition bumped (f : Counters -> Counters) (strategy : string)
           (perf : list (string * Counters)) : list (string * Counters) :=
  match getProperty perf strategy with
  | Own _ => updateOwn strategy f perf
  | _ => perf
  end.

(** The statistics after a run of [strategy] with the given outcome. *)
Definition tally (strategy : string) (ok : bool) (s : Stats) : Stats :=
  mkStats (countOutcome ok (countAttempt (totals s)))
          (bumped (countOutcome ok) strategy
                  (bumped countAttempt strategy
                          (initializedFor strategy (strategyPerformance s)))).

(** Statistics in which only the three profiles have recorded successes. *)
Definition honest (perf : list (string * Counters)) : Prop :=
  forall n c, In (n, c) perf -> 0 < successes c -> isKnown n = true.

End StrategyMoreSpec.

Module PipelineSpec.
Import Js JsText Runtime Utils UtilsMore RegistrationStrategies StrategySpec.
Import UtilsMoreSpec RegistrationStrategiesMore StrategyMoreSpec.

(** The forms [validateFormData] lets through. *)
Definition acceptable (formData : FormData) : Prop :=
  (forall field, In field required -> truthyProp (formData !! field) = true)
  /\ 3 <= length (default [] (formData !! "desired-email"%string))
  /\ 3 <= score (checkPasswordStrength (default [] (formData !! "password"%string))).

(** The world after a call of the mocked submission that took [latency]
    milliseconds. *)
Definition submitted (latency : Z) (w : World) : World :=
  mkWorld (random w) (draws w + 3) (clock w + latency)
          (trace w ++ [Log SubmittingRequest; Sleep latency])
          (uiManager w) (stats w) (currentFormData w).

(** A form without name and password. *)
Definition emailOnly : FormData :=
  list_to_map [("desired-email"%string, str "alexsmith01")].

(** Counters in which every attempt has been settled. *)
Definition balanced (c : Counters) : Prop := successes c + failures c = attempts c.

(** The countries [prepareAggressiveRequest] reports, by attempt. *)
Definition aggressiveCountries : list jsstring := [str "US"; str "CA"; str "GB"].

(** The fixed email alternatives for a name. *)
Definition fixedAlternatives (originalEmail : jsstring) : list jsstring :=
  map (fun suffix => originalEmail ++ str suffix)
      ["01"; "02"; "03"; "123"; "2024"; "2025"]%string
  ++ map (fun prefix => str prefix ++ originalEmail) ["new"; "my"; "user"; "mail"]%string.

(** The fields [optimizeFormData] fills in when they are empty. *)
Definition completedKeys : list string :=
  ["birth-month"; "birth-day"; "birth-year"; "country"]%string.

Section Runs.
Variable executeSmartStrategy : FormData -> StrategyConfig -> M (option StepValue).

(** The world after a series of calls of [executeStrategy], each awaited
    before the next. *)
Fixpoint afterRuns (runs : list (FormData * string)) (w : World) : World :=
  match runs with
  | [] => w
  | (formData, strategy) :: rest =>
      afterRuns rest (snd (executeStrategy executeSmartStrategy formData strategy w))
  end.

End Runs.

End PipelineSpec.

(* ===================================================================== *)
(** * Properties of js/utils.js                                           *)
(* ===================================================================== *)
Module UtilsFacts.
Import Js Utils UtilsSpec.

Lemma score_credit t m r : score (credit t m r) = score r + b2n t.
Proof. destruct t; simpl; lia. Qed.

(** Away from the empty string the score is the number of satisfied tests. *)
Lemma score_sum (p : jsstring) :
  score (checkPasswordStrength p) =
    b2n (meets LengthAtLeast8 p) + b2n (12 <=? length p) + b2n (meets HasLower p)
    + b2n (meets HasUpper p) + b2n (meets HasDigit p) + b2n (meets HasSymbol p).
Proof.
  unfold checkPasswordStrength.
  destruct p as [|c p]; [reflexivity|].
  cbn [truthy negb score]. rewrite !score_credit. reflexivity.
Qed.

Lemma level_spec (p : jsstring) :
  level (checkPasswordStrength p) = levelOf (score (checkPasswordStrength p)).
Proof. unfold checkPasswordStrength. destruct p; reflexivity. Qed.

Lemma b2n_mono (a b : bool) : (a = true -> b = true) -> b2n a <= b2n b.
Proof. destruct a, b; simpl; intros H; first [lia | discriminate (H eq_refl)]. Qed.

Lemma score_mono_criteria (p q : jsstring) :
  length p <= length q ->
  (forall c, meets c p = true -> meets c q = true) ->
  score (checkPasswordStrength p) <= score (checkPasswordStrength q).
Proof.
  intros Hlen Hc. rewrite !score_sum.
  pose proof (b2n_mono _ _ (Hc LengthAtLeast8)).
  pose proof (b2n_mono _ _ (Hc HasLower)).
  pose proof (b2n_mono _ _ (Hc HasUpper)).
  pose proof (b2n_mono _ _ (Hc HasDigit)).
  pose proof (b2n_mono _ _ (Hc HasSymbol)).
  assert (b2n (12 <=? length p) <= b2n (12 <=? length q)).
  { apply b2n_mono. intros H12. apply Nat.leb_le in H12. apply Nat.leb_le. lia. }
  lia.
Qed.

Lemma existsb_insert {A} (f : A -> bool) (p s q : list A) :
  existsb f (p ++ q) = true -> existsb f (p ++ s ++ q) = true.
Proof.
  rewrite !existsb_app, !orb_true_iff. tauto.
Qed.

Lemma meets_insert c (p s q : jsstring) :
  meets c (p ++ q) = true -> meets c (p ++ s ++ q) = true.
Proof.
  destruct c; cbn [meets]; try apply existsb_insert.
  rewrite !Nat.leb_le, !length_app. lia.
Qed.

(** C8. The strength score of [Utils.checkPasswordStrength] never decreases
    when characters are added to a password (so that more of the criteria
    length >= 8, lowercase, uppercase, digit, symbol become satisfied), nor
    from a password to a longer-or-equal one that satisfies at least the same
    criteria; the level is "weak" exactly when the score is at most 2, and a
    score of 3 is classified "fair". *)
Theorem checkPasswordStrength_monotone :
  (forall p s q : jsstring,
      score (checkPasswordStrength (p ++ q))
      <= score (checkPasswordStrength (p ++ s ++ q)))
  /\ (forall p q : jsstring,
      length p <= length q ->
      (forall c, meets c p = true -> meets c q = true) ->
      score (checkPasswordStrength p) <= score (checkPasswordStrength q))
  /\ (forall p : jsstring,
      level (checkPasswordStrength p) = weak <-> score (checkPasswordStrength p) <= 2)
  /\ (forall p : jsstring,
      score (checkPasswordStrength p) = 3 -> level (checkPasswordStrength p) = fair).
Proof.
  split; [|split; [|split]].
  - intros p s q. apply score_mono_criteria.
    + rewrite !length_app. lia.
    + intros c. apply meets_insert.
  - exact score_mono_criteria.
  - intros p. rewrite level_spec. unfold levelOf.
    destruct (score (checkPasswordStrength p) <=? 2) eqn:E2.
    + apply Nat.leb_le in E2. tauto.
    + apply Nat.leb_gt in E2.
      split; [|lia].
      destruct (score (checkPasswordStrength p) <=? 4);
        [discriminate|destruct (score (checkPasswordStrength p) <=? 5); discriminate].
  - intros p H3. rewrite level_spec, H3. reflexivity.
Qed.

Lemma checkPasswordStrength_monotone_witness :
  score (checkPasswordStrength (str "abc12345"))
  <= score (checkPasswordStrength (str "Abc12345!")).
Proof.
  apply (proj1 (proj2 checkPasswordStrength_monotone)).
  - vm_compute. lia.
  - intros c; destruct c; vm_compute; intros H; first [reflexivity | discriminate H].
Defined.

End UtilsFacts.

(* ===================================================================== *)
(** * Properties of js/formProtector.js                                   *)
(* ===================================================================== *)
Module FormProtectorFacts.
Import Js FormProtector FormProtectorSpec.

Lemma protectedFields_NoDup : NoDup protectedFields.
Proof. apply (bool_decide_unpack _). vm_compute. exact I. Qed.

Lemma restoreField_spec (st : State) (n : nat) (a : string) :
  let r := restoreField (st, n) a in
  savedFormState (fst r) = savedFormState st
  /\ timers (fst r) = timers st
  /\ currentYear (fst r) = currentYear st
  /\ effects (fst r) = effects st ++ fieldEffects st a
  /\ snd r = n + (if isWritten st a then 1 else 0)
  /\ document (fst r) !! a = afterWrite st a
  /\ (forall id, id <> a -> document (fst r) !! id = document st !! id).
Proof.
  unfold restoreField, fieldEffects, isWritten, afterWrite, toWrite.
  destruct (document st !! a) as [field|] eqn:Hd;
    destruct (savedFormState st !! a) as [v|] eqn:Hs; cbn;
    rewrite ?Hd, ?app_nil_r, ?Nat.add_0_r; try by repeat split.
  destruct (truthy v && truthy (trim v)); cbn;
    rewrite ?Hd, ?app_nil_r, ?Nat.add_0_r; try by repeat split.
  repeat split; try done.
  - apply lookup_insert_eq.
  - intros id Hne. by apply lookup_insert_ne.
Qed.

Lemma flat_map_ext_In {A B} (f g : A -> list B) (l : list A) :
  (forall a, In a l -> f a = g a) -> flat_map f l = flat_map g l.
Proof.
  induction l as [|a l IH]; intros H; [reflexivity|].
  cbn. rewrite (H a) by (left; reflexivity).
  f_equal. apply IH. intros b Hb. apply H. by right.
Qed.

Lemma toWrite_ext (st st' : State) (id : string) :
  savedFormState st' = savedFormState st ->
  document st' !! id = document st !! id ->
  toWrite st' id = toWrite st id.
Proof. unfold toWrite. by intros -> ->. Qed.

Lemma restore_fold (l : list string) :
  NoDup l ->
  forall (st : State) (n : nat),
    let r := fold_left restoreField l (st, n) in
    savedFormState (fst r) = savedFormState st
    /\ timers (fst r) = timers st
    /\ currentYear (fst r) = currentYear st
    /\ effects (fst r) = effects st ++ flat_map (fieldEffects st) l
    /\ snd r = n + length (List.filter (isWritten st) l)
    /\ (forall id, document (fst r) !! id =
                   if bool_decide (id ∈ l) then afterWrite st id else document st !! id).
Proof.
  induction 1 as [|a l Hnotin Hnd IH]; intros st n.
  - cbn. rewrite app_nil_r, Nat.add_0_r. by repeat split.
  - cbn [fold_left].
    destruct (restoreField_spec st n a) as (Hs & Ht & Hy & He & Hn & Ha & Hother).
    destruct (restoreField (st, n) a) as [st' n'] eqn:Hr. cbn [fst snd] in *.
    specialize (IH st' n'). cbn zeta in IH.
    destruct IH as (Hs' & Ht' & Hy' & He' & Hn' & Hdoc').
    assert (Hext : forall id, id ∈ l -> toWrite st' id = toWrite st id).
    { intros id Hin. apply toWrite_ext; [done|]. apply Hother. set_solver. }
    assert (Heff : flat_map (fieldEffects st') l = flat_map (fieldEffects st) l).
    { apply flat_map_ext_In. intros id Hin%list_elem_of_In.
      unfold fieldEffects. by rewrite Hext. }
    assert (Hcnt : List.filter (isWritten st') l = List.filter (isWritten st) l).
    { apply filter_ext_in. intros id Hin%list_elem_of_In.
      unfold isWritten. by rewrite Hext. }
    repeat split.
    + congruence.
    + congruence.
    + congruence.
    + rewrite He', He, Heff. cbn [flat_map]. by rewrite app_assoc.
    + rewrite Hn', Hn, Hcnt. cbn [List.filter].
      destruct (isWritten st a); cbn [length]; lia.
    + intros id. rewrite Hdoc'.
      destruct (decide (id = a)) as [->|Hne].
      * rewrite (bool_decide_eq_false_2 _ Hnotin).
        rewrite (bool_decide_eq_true_2 (a ∈ a :: l)) by set_solver. done.
      * rewrite (Hother id Hne).
        destruct (bool_decide (id ∈ l)) eqn:Hin.
        -- apply bool_decide_eq_true_1 in Hin.
           rewrite (bool_decide_eq_true_2 (id ∈ a :: l)) by set_solver.
           unfold afterWrite. rewrite (Hext id Hin).
           destruct (toWrite st id) as [[? ?]|]; [done|by apply Hother].
        -- apply bool_decide_eq_false_1 in Hin.
           rewrite (bool_decide_eq_false_2 (id ∈ a :: l)); [done|].
           by intros [?|?]%elem_of_cons.
Qed.

(** [restoreAllValues], field by field. *)
Lemma restoreAllValues_spec (st : State) :
  let r := restoreAllValues st in
  savedFormState (fst r) = savedFormState st
  /\ currentYear (fst r) = currentYear st
  /\ effects (fst r) = effects st ++ flat_map (fieldEffects st) protectedFields
  /\ timers (fst r) =
       timers st ++ (if truthyProp (savedFormState st !! "birth-month"%string)
                     then [(100, UpdateBirthDaysAndRestore)] else [])
  /\ snd r = VBool (0 <? length (List.filter (isWritten st) protectedFields))
  /\ (forall id, document (fst r) !! id =
                 if bool_decide (id ∈ protectedFields)
                 then afterWrite st id else document st !! id).
Proof.
  unfold restoreAllValues.
  destruct (restore_fold protectedFields protectedFields_NoDup st 0)
    as (Hs & Ht & Hy & He & Hn & Hdoc).
  destruct (fold_left restoreField protectedFields (st, 0)) as [st' n'].
  cbn [fst snd] in *. rewrite Hs, Hn, Nat.add_0_l.
  destruct (truthyProp (savedFormState st !! "birth-month"%string));
    cbn [fst snd savedFormState currentYear effects timers document];
    rewrite ?app_nil_r, ?Ht; by repeat split.
Qed.

End FormProtectorFacts.

Module FormProtectorClaims.
Import Js FormProtector FormProtectorSpec FormProtectorFacts.

Lemma isWritten_setSavedData (S : gmap string jsstring) (st : State) (id : string) :
  isWritten (setSavedData S st) id
  = bool_decide (is_Some (document st !! id)) && nonBlank (S !! id).
Proof.
  unfold isWritten, toWrite, setSavedData, withSaved, nonBlank. cbn.
  destruct (document st !! id) as [field|], (S !! id) as [v|];
    case_bool_decide as Hd; cbn; try reflexivity;
    try (by destruct (truthy v && truthy (trim v)));
    try (exfalso; apply Hd; by eexists);
    try (by destruct Hd as [? [=]]).
Qed.

Lemma toWrite_Some (st : State) (id : string) (field : Element) (v : jsstring) :
  toWrite st id = Some (field, v) <->
  document st !! id = Some field /\ savedFormState st !! id = Some v
  /\ nonBlank (Some v) = true.
Proof.
  unfold toWrite, nonBlank.
  destruct (document st !! id) as [f|], (savedFormState st !! id) as [w|];
    try (split; [discriminate|intros (? & ? & ?); discriminate]).
  destruct (truthy w && truthy (trim w)) eqn:E.
  - split; [intros [= -> ->]; by rewrite E|intros ([= ->] & [= ->] & _); done].
  - split; [discriminate|intros ([= ->] & [= ->] & H)]. congruence.
Qed.

(** C1 (as the code has it). After [setSavedData S], [restoreAllValues]
    writes exactly the tracked live fields whose value in [S] is non-empty
    after trimming, each with that value, leaves every other field as it
    was, and returns the boolean "at least one field was written" (not the
    number of fields written). *)
Theorem restoreAll_after_setSnapshot (S : gmap string jsstring) (st : State) :
  let r := restoreAllValues (setSavedData S st) in
  (exists written : list Effect,
      effects (fst r) = effects st ++ written
      /\ forall id v,
          In (SetValue id v) written <->
          In id protectedFields /\ is_Some (document st !! id)
          /\ S !! id = Some v /\ nonBlank (Some v) = true)
  /\ (forall id field v,
         In id protectedFields -> document st !! id = Some field ->
         S !! id = Some v -> nonBlank (Some v) = true ->
         document (fst r) !! id = Some (assign field v))
  /\ (forall id, nonBlank (S !! id) = false ->
                 document (fst r) !! id = document st !! id)
  /\ snd r =
       VBool (0 <? length (List.filter
                             (fun id => bool_decide (is_Some (document st !! id))
                                        && nonBlank (S !! id))
                             protectedFields)).
Proof.
  set (st0 := setSavedData S st).
  destruct (restoreAllValues_spec st0) as (_ & _ & He & _ & Hret & Hdoc).
  cbn zeta. repeat split.
  - exists (flat_map (fieldEffects st0) protectedFields). split; [exact He|].
    intros id v. rewrite in_flat_map. split.
    + intros (x & Hx & Hin). unfold fieldEffects in Hin.
      destruct (toWrite st0 x) as [[field w]|] eqn:Hw; [|destruct Hin].
      apply toWrite_Some in Hw as (Hd & Hs & Hnb).
      destruct Hin as [[= <- <-]|[[=]|[[=]|[]]]].
      repeat split; eauto.
    + intros (Hin & [field Hfield] & HS & Hnb). exists id. split; [done|].
      unfold fieldEffects.
      assert (Hw : toWrite st0 id = Some (field, v)) by by apply toWrite_Some.
      rewrite Hw. by left.
  - intros id field v Hin Hfield HS Hnb. rewrite Hdoc.
    rewrite bool_decide_eq_true_2 by by apply list_elem_of_In.
    unfold afterWrite.
    assert (Hw : toWrite st0 id = Some (field, v)) by by apply toWrite_Some.
    by rewrite Hw.
  - intros id Hnb. rewrite Hdoc. unfold afterWrite.
    destruct (toWrite st0 id) as [[field v]|] eqn:Hw.
    + apply toWrite_Some in Hw as (_ & Hs & Hnb'). cbn in Hs. congruence.
    + by destruct (bool_decide (id ∈ protectedFields)).
  - rewrite Hret. do 3 f_equal. apply filter_ext. intros id.
    apply isWritten_setSavedData.
Qed.

Lemma restoreAll_after_setSnapshot_witness :
  document (fst (restoreAllValues
                   (setSavedData twoNames (mkState ∅ emptyForm [] [] 2026))))
    !! "first-name"%string
  = Some (mkElement TextInput (str "Alex")).
Proof.
  apply (proj1 (proj2 (restoreAll_after_setSnapshot twoNames
                         (mkState ∅ emptyForm [] [] 2026)))
           "first-name"%string (mkElement TextInput []) (str "Alex")).
  - vm_compute. tauto.
  - vm_compute. reflexivity.
  - vm_compute. reflexivity.
  - vm_compute. reflexivity.
Defined.

(** C1 (as stated) fails: with two fields written, the value returned is
    the boolean [true], not the count 2. *)
Lemma restoreAll_returns_count_counterexample :
  twoNames <> ∅
  /\ length (List.filter
               (fun id => bool_decide (is_Some (emptyForm !! id))
                          && nonBlank (twoNames !! id)) protectedFields) = 2
  /\ snd (restoreAllValues (setSavedData twoNames (mkState ∅ emptyForm [] [] 2026)))
     = VBool true
  /\ snd (restoreAllValues (setSavedData twoNames (mkState ∅ emptyForm [] [] 2026)))
     <> VNumber 2.
Proof.
  split; [|split; [|split]].
  - intros H. apply (f_equal (fun m => m !! "first-name"%string)) in H.
    vm_compute in H. discriminate H.
  - vm_compute. reflexivity.
  - vm_compute. reflexivity.
  - vm_compute. discriminate.
Qed.

(** ** The cleared-form check *)

Lemma countField_step (st : State) (a : string) (e t : nat) :
  countField (document st) (e, t) a
  = (e + (if liveEmpty st a then 1 else 0), t + (if isLive st a then 1 else 0)).
Proof.
  unfold countField, liveEmpty, isLive.
  destruct (document st !! a) as [field|]; [|by rewrite !Nat.add_0_r].
  destruct (blank (value field)); by rewrite ?Nat.add_0_r.
Qed.

Lemma countField_fold (st : State) (l : list string) (e t : nat) :
  fold_left (countField (document st)) l (e, t)
  = (e + length (List.filter (liveEmpty st) l), t + length (List.filter (isLive st) l)).
Proof.
  revert e t. induction l as [|a l IH]; intros e t; cbn [fold_left List.filter length].
  - by rewrite !Nat.add_0_r.
  - rewrite countField_step, IH.
    destruct (liveEmpty st a), (isLive st a); cbn [length]; f_equal; lia.
Qed.

Lemma filter_all {A} (f : A -> bool) (l : list A) :
  (forall a, In a l -> f a = true) -> List.filter f l = l.
Proof.
  induction l as [|a l IH]; intros H; [reflexivity|].
  cbn. rewrite (H a) by (by left). f_equal. apply IH. intros b Hb. apply H. by right.
Qed.

Lemma hasValidSavedData_iff (st : State) :
  hasValidSavedData st = true <-> validSnapshot (savedFormState st).
Proof.
  unfold hasValidSavedData, validSnapshot, nonBlank.
  rewrite andb_true_iff, existsb_exists. split.
  - intros (_ & [k v] & Hin & Hv). exists k, v. split; [|exact Hv].
    by apply elem_of_map_to_list, list_elem_of_In.
  - intros (k & v & Hk & Hv). split.
    + apply Nat.ltb_lt.
      assert (size (savedFormState st) <> 0)
        by (apply map_size_ne_0_lookup; exists k; by eexists).
      lia.
    + exists (k, v). split; [|exact Hv].
      by apply list_elem_of_In, elem_of_map_to_list.
Qed.

(** C2. With the eight tracked fields present and a valid saved snapshot,
    [checkFormCleared] reports true when five or more live fields are empty
    after trimming and false when exactly four are; without a valid
    snapshot it reports false whatever the live fields hold. *)
Theorem checkFormCleared_threshold (st : State) :
  (forall id, In id protectedFields -> is_Some (document st !! id)) ->
  let emptyCount := length (List.filter (liveEmpty st) protectedFields) in
  (validSnapshot (savedFormState st) -> 5 <= emptyCount -> checkFormCleared st = true)
  /\ (validSnapshot (savedFormState st) -> emptyCount = 4 -> checkFormCleared st = false)
  /\ (~ validSnapshot (savedFormState st) -> checkFormCleared st = false).
Proof.
  intros Hall emptyCount.
  assert (Htotal : length (List.filter (isLive st) protectedFields) = 8).
  { rewrite filter_all; [reflexivity|].
    intros id Hin. unfold isLive. by destruct (Hall id Hin) as [? ->]. }
  assert (Hcheck : checkFormCleared st
                   = negb (Z.of_nat emptyCount * 2 <=? 8)%Z && hasValidSavedData st).
  { unfold checkFormCleared. rewrite countField_fold, Htotal. reflexivity. }
  rewrite Hcheck. repeat split.
  - intros Hv Hge. apply hasValidSavedData_iff in Hv. rewrite Hv, andb_true_r.
    apply negb_true_iff, Z.leb_gt. lia.
  - intros Hv Heq. rewrite Heq. reflexivity.
  - intros Hnv. destruct (hasValidSavedData st) eqn:E.
    + exfalso. by apply Hnv, hasValidSavedData_iff.
    + apply andb_false_r.
Qed.

Lemma checkFormCleared_threshold_witness :
  checkFormCleared (mkState twoNames fiveCleared [] [] 2026) = true.
Proof.
  refine (proj1 (checkFormCleared_threshold
                   (mkState twoNames fiveCleared [] [] 2026) _) _ _).
  - intros id Hin. cbn in Hin.
    repeat (destruct Hin as [<-|Hin]; [vm_compute; eauto|]). destruct Hin.
  - exists "first-name"%string, (str "Alex"). split; vm_compute; reflexivity.
  - vm_compute. lia.
Defined.

(** ** The birth-day options *)

Lemma kind_assign (el : Element) (v : jsstring) : kind (assign el v) = kind el.
Proof. unfold assign. by destruct (kind el). Qed.



End FormProtectorClaims.

(* ===================================================================== *)
(** * Properties of the registration strategies module                    *)
(* ===================================================================== *)
Module StrategyFacts.
Import Js Runtime RegistrationStrategies StrategySpec.

(** ** Strategy selection *)

Lemma recommendStrategy_unfold (context : Context) (s : Stats) :
  recommendStrategy context s =
    if (3 <? previousFailures context)%Z then "aggressive"%string
    else if isVpnDetected context || String.eqb (networkSpeed context) "slow"
    then "smart"%string
    else if (9 <=? timeOfDay context)%Z && (timeOfDay context <=? 17)%Z
    then "smart"%string
    else bestByHistory (strategyPerformance s).
Proof.
  unfold recommendStrategy, bestByHistory.
  by destruct (fold_left considerStrategy (strategyPerformance s) _).
Qed.

Lemma successRate_nonpos (c : Counters) :
  (successRate c <= 0)%Q -> successes c = 0.
Proof. unfold successRate, Qle. cbn. lia. Qed.

Lemma successRate_pos (c : Counters) :
  0 < successes c -> (0 < successRate c)%Q.
Proof. unfold successRate, Qlt. cbn. lia. Qed.

Lemma Qgt_bool_iff (x y : Q) : negb (Qle_bool x y) = true <-> (y < x)%Q.
Proof.
  rewrite negb_true_iff. split.
  - intros H. apply Qnot_le_lt. intros Hle. apply Qle_bool_iff in Hle. congruence.
  - intros H. destruct (Qle_bool x y) eqn:E; [|reflexivity].
    apply Qle_bool_iff in E. exfalso. exact (Qlt_not_le _ _ H E).
Qed.

Lemma considerStrategy_invariant (perf : list (string * Counters)) :
  loopInvariant perf (fold_left considerStrategy perf ("standard"%string, 0%Q)).
Proof.
  induction perf as [|[n c] perf IH] using rev_ind.
  - left. split; [reflexivity|]. intros j ? ? H. by rewrite lookup_nil in H.
  - rewrite fold_left_app. cbn [fold_left].
    set (best := fold_left considerStrategy perf _) in *.
    unfold considerStrategy at 1. destruct best as [b r]. cbn [snd].
    destruct (0 <? attempts c) eqn:Ha.
    2:{ (* an entry without attempts changes nothing *)
      apply Nat.ltb_ge in Ha.
      destruct IH as [[Hb Hall]|(i & c0 & Hi & Ha0 & Hs0 & Hr & Hall)].
      - left. split; [exact Hb|]. intros j m d Hj Hd.
        apply lookup_app_Some in Hj as [Hj|[_ Hj]]; [by eapply Hall|].
        apply list_lookup_singleton_Some in Hj as [_ [= _ <-]]. lia.
      - right. exists i, c0. repeat split; try done.
        + by apply lookup_app_l_Some.
        + apply lookup_app_Some in H as [Hj|[_ Hj]]; [by eapply Hall|].
          apply list_lookup_singleton_Some in Hj as [_ [= _ <-]]. lia.
        + intros Hlt. apply lookup_app_Some in H as [Hj|[Hlen Hj]]; [by eapply Hall|].
          apply list_lookup_singleton_Some in Hj as [_ [= _ <-]]. lia. }
    apply Nat.ltb_lt in Ha.
    destruct (negb (Qle_bool (successRate c) r)) eqn:Hgt.
    + (* a strictly better rate: the new entry becomes the best *)
      apply Qgt_bool_iff in Hgt. right. exists (length perf), c. cbn [fst snd].
      assert (Hpos : 0 < successes c).
      { destruct (successes c) eqn:Hs; [|lia]. exfalso.
        destruct IH as [[[= _ ->] _]|(i & c0 & _ & _ & Hs0 & Hr & _)].
        - unfold successRate, Qlt in Hgt. rewrite Hs in Hgt. cbn in Hgt. lia.
        - cbn [snd] in Hr. apply successRate_pos in Hs0. rewrite <- Hr in Hs0.
          unfold successRate, Qlt in Hgt. rewrite Hs in Hgt. cbn in Hgt.
          unfold Qlt in Hs0. cbn in Hs0. nia. }
      repeat split; try done.
      * rewrite lookup_app_r, Nat.sub_diag by lia. reflexivity.
      * apply lookup_app_Some in H as [Hj|[_ Hj]].
        -- destruct IH as [[[= _ ->] Hall]|(i & c0 & _ & _ & _ & Hr & Hall)].
           ++ assert (Hz : (successRate d <= 0)%Q).
              { unfold successRate, Qle. cbn. rewrite (Hall _ _ _ Hj H0). cbn. lia. }
              apply Qlt_le_weak. eapply Qle_lt_trans; [exact Hz|exact Hgt].
           ++ cbn [snd] in Hr. subst r. apply Qlt_le_weak.
              eapply Qle_lt_trans; [apply (Hall _ _ _ Hj H0)|exact Hgt].
        -- apply list_lookup_singleton_Some in Hj as [_ [= _ <-]]. apply Qle_refl.
      * intros Hlt. apply lookup_app_Some in H as [Hj|[Hlen Hj]]; [|lia].
        destruct IH as [[[= _ ->] Hall]|(i & c0 & _ & _ & _ & Hr & Hall)].
        -- assert (Hz : (successRate d <= 0)%Q).
           { unfold successRate, Qle. cbn. rewrite (Hall _ _ _ Hj H0). cbn. lia. }
           eapply Qle_lt_trans; [exact Hz|exact Hgt].
        -- cbn [snd] in Hr. subst r.
           eapply Qle_lt_trans; [apply (Hall _ _ _ Hj H0)|exact Hgt].
    + (* not better: the best so far stays *)
      apply negb_false_iff, Qle_bool_iff in Hgt.
      destruct IH as [[[= -> ->] Hall]|(i & c0 & Hi & Ha0 & Hs0 & Hr & Hall)].
      * left. split; [reflexivity|]. intros j m d Hj Hd.
        apply lookup_app_Some in Hj as [Hj|[_ Hj]]; [by eapply Hall|].
        apply list_lookup_singleton_Some in Hj as [_ [= _ <-]].
        by apply successRate_nonpos.
      * right. exists i, c0. cbn [fst snd] in *. subst r.
        pose proof (lookup_lt_Some _ _ _ Hi) as Hilt.
        repeat split; try done.
        -- by apply lookup_app_l_Some.
        -- apply lookup_app_Some in H as [Hj|[_ Hj]]; [by eapply Hall|].
           by apply list_lookup_singleton_Some in Hj as [_ [= _ <-]].
        -- intros Hlt. apply lookup_app_Some in H as [Hj|[Hlen Hj]]; [by eapply Hall|].
           lia.
Qed.

(** C5 (as the code has it). [recommendStrategy] applies its rules in
    order: more than 3 previous failures give "aggressive" (so 4 failures
    do, whatever the other fields); else a detected VPN or a slow network
    gives "smart"; else an hour in [9,17] gives "smart"; otherwise the
    answer is the first entry, in the enumeration order of the statistics,
    among those of the highest success rate, provided that rate is positive,
    and "standard" when no recorded rate is positive. *)
Theorem recommendStrategy_rules (context : Context) (s : Stats) :
  let perf := strategyPerformance s in
  ((3 < previousFailures context)%Z -> recommendStrategy context s = "aggressive"%string)
  /\ (previousFailures context = 4%Z -> recommendStrategy context s = "aggressive"%string)
  /\ ((previousFailures context <= 3)%Z ->
      isVpnDetected context = true \/ networkSpeed context = "slow"%string ->
      recommendStrategy context s = "smart"%string)
  /\ ((previousFailures context <= 3)%Z ->
      (9 <= timeOfDay context <= 17)%Z ->
      recommendStrategy context s = "smart"%string)
  /\ ((previousFailures context <= 3)%Z ->
      isVpnDetected context = false -> networkSpeed context <> "slow"%string ->
      ~ (9 <= timeOfDay context <= 17)%Z ->
      recommendStrategy context s = bestByHistory perf)
  /\ ((forall j n d, perf !! j = Some (n, d) -> 0 < attempts d -> successes d = 0) ->
      bestByHistory perf = "standard"%string)
  /\ ((exists j n d, perf !! j = Some (n, d) /\ 0 < attempts d /\ 0 < successes d) ->
      exists i c,
        perf !! i = Some (bestByHistory perf, c) /\ 0 < attempts c /\ 0 < successes c
        /\ forall j n d, perf !! j = Some (n, d) -> 0 < attempts d ->
             (successRate d <= successRate c)%Q
             /\ (j < i -> (successRate d < successRate c)%Q)).
Proof.
  intros perf. rewrite !recommendStrategy_unfold. fold perf.
  pose proof (considerStrategy_invariant perf) as Hinv.
  repeat split.
  - intros H. apply Z.ltb_lt in H. by rewrite H.
  - intros ->. reflexivity.
  - intros Hle Hor. apply Z.ltb_ge in Hle. rewrite Hle.
    destruct Hor as [->| ->]; [reflexivity|].
    by rewrite orb_true_r.
  - intros Hle [H9 H17]. apply Z.ltb_ge in Hle. rewrite Hle.
    apply Z.leb_le in H9, H17. rewrite H9, H17. cbn.
    by destruct (isVpnDetected context || _).
  - intros Hle -> Hslow Hhour. apply Z.ltb_ge in Hle. rewrite Hle.
    apply String.eqb_neq in Hslow. rewrite Hslow. cbn.
    destruct ((9 <=? timeOfDay context)%Z && (timeOfDay context <=? 17)%Z) eqn:E;
      [|reflexivity].
    apply andb_true_iff in E as [H9 H17]. apply Z.leb_le in H9, H17. lia.
  - intros Hzero. unfold bestByHistory.
    destruct Hinv as [[-> _]|(i & c & Hi & Ha & Hs & _)]; [reflexivity|].
    specialize (Hzero _ _ _ Hi Ha). lia.
  - intros (j & n & d & Hj & Ha & Hs). unfold bestByHistory.
    destruct Hinv as [[_ Hall]|(i & c & Hi & Hac & Hsc & _ & Hall)].
    + specialize (Hall _ _ _ Hj Ha). lia.
    + exists i, c. repeat split; try done; by eapply Hall.
Qed.

Lemma recommendStrategy_rules_witness :
  recommendStrategy (mkContext "fast" 4 12 true) (mkStats zero []) = "aggressive"%string.
Proof.
  apply (proj1 (proj2 (recommendStrategy_rules (mkContext "fast" 4 12 true)
                                               (mkStats zero [])))).
  reflexivity.
Defined.

(** C5 (as stated) fails on ties: with equal rates the code keeps the
    entry enumerated first, here "aggressive", where the declaration order
    gives "standard". *)
Lemma recommendStrategy_tie_counterexample :
  recommendStrategy quietEvening aggressiveFirst = "aggressive"%string
  /\ spec_bestByHistory (strategyPerformance aggressiveFirst) = "standard"%string.
Proof. split; vm_compute; reflexivity. Qed.

(** ** Computations that return

    Most of the module neither rejects nor touches the statistics, the
    current form data, the source of random numbers or the presence of the
    UI: it only draws numbers, waits and logs. [returns c Post] says that
    [c], started in any world with the given frame, resolves with a value
    satisfying [Post] in a world with the same frame. *)
Section Frame.
Variables (rnd : nat -> Q) (st : Stats) (cfd : option FormData) (uiflag : bool).

Local Abbreviation inFrame := (inFrame rnd st cfd uiflag).
Local Abbreviation returns := (returns rnd st cfd uiflag).

Lemma returns_ret {A} (a : A) (Post : A -> Prop) : Post a -> returns (ret a) Post.
Proof. intros H w Hw. by exists a, w. Qed.

Lemma returns_bind {A B} (c : M A) (k : A -> M B) (P : A -> Prop) (Post : B -> Prop) :
  returns c P -> (forall a, P a -> returns (k a) Post) -> returns (bind c k) Post.
Proof.
  intros Hc Hk w Hw. destruct (Hc w Hw) as (a & w1 & Hrun & Hw1 & Ha).
  destruct (Hk a Ha w1 Hw1) as (b & w2 & Hrun2 & Hw2 & Hb).
  exists b, w2. unfold bind. by rewrite Hrun.
Qed.

Lemma returns_weaken {A} (c : M A) (P Post : A -> Prop) :
  returns c P -> (forall a, P a -> Post a) -> returns c Post.
Proof.
  intros Hc Himp w Hw. destruct (Hc w Hw) as (a & w1 & Hrun & Hw1 & Ha).
  exists a, w1. auto.
Qed.

Lemma returns_tryCatch {A} (body : M A) (handler : JsError -> M A) (Post : A -> Prop) :
  returns body Post -> returns (tryCatch body handler) Post.
Proof.
  intros Hc w Hw. destruct (Hc w Hw) as (a & w1 & Hrun & Hw1 & Ha).
  exists a, w1. unfold tryCatch. by rewrite Hrun.
Qed.

Lemma returns_emit (e : Event) : returns (emit e) (fun _ => True).
Proof. intros w Hw. by exists tt, (withTrace w (trace w ++ [e])). Qed.

Lemma returns_ui (events : list Event) : returns (ui events) (fun _ => True).
Proof.
  intros w Hw. eexists tt, _. split; [reflexivity|]. split; [|done].
  by destruct (uiManager w).
Qed.

Lemma returns_mathRandom : returns mathRandom (fun r => exists n, r = rnd n).
Proof.
  intros w (Hr & Hs & Hc & Hu). eexists _, _. split; [reflexivity|].
  split; [done|]. exists (draws w). cbn. by rewrite Hr.
Qed.

Lemma returns_now : returns now (fun _ => True).
Proof. intros w Hw. by exists (clock w), w. Qed.

Lemma returns_randomBelow (n : Z) :
  returns (randomBelow n) (fun i => exists k, i = Qfloor (rnd k * inject_Z n)).
Proof.
  eapply returns_bind; [apply returns_mathRandom|].
  intros r [k ->]. apply returns_ret. by exists k.
Qed.

Lemma returns_delay (ms : Z) : returns (Utils.delay ms) (fun _ => True).
Proof. intros w Hw. eexists tt, _. split; [reflexivity|]. done. Qed.

Lemma returns_randomDelay (min max : Z) :
  returns (Utils.randomDelay min max) (fun _ => True).
Proof.
  eapply returns_bind.
  - eapply returns_bind; [apply returns_randomBelow|].
    intros i _. by apply (returns_ret _ (fun _ => True)).
  - intros ms _. apply returns_delay.
Qed.

Lemma returns_pick (table : list jsstring) :
  returns (Utils.pick table) (fun v => forall s, v = Some s -> In s table).
Proof.
  eapply returns_bind; [apply returns_randomBelow|].
  intros i _. apply returns_ret. intros s.
  destruct (i <? 0)%Z; [discriminate|].
  intros H. by eapply list_elem_of_In, list_elem_of_lookup_2.
Qed.

End Frame.

(** ** The statistics kept by executeStrategy *)

Lemma lookupOwn_createProperty_eq {A} (key : string) (a : A) (o : list (string * A)) :
  lookupOwn key o = None -> lookupOwn key (createProperty key a o) = Some a.
Proof.
  induction o as [|[k b] o IH]; cbn [createProperty lookupOwn].
  - by rewrite String.eqb_refl.
  - destruct (String.eqb k key) eqn:E; [discriminate|]. intros Hnone.
    destruct (isArrayIndex key) as [n|], (isArrayIndex k) as [m|];
      try destruct (n <? m)%N;
      cbn [lookupOwn]; rewrite ?String.eqb_refl, ?E; auto.
Qed.

Lemma lookupOwn_createProperty_ne {A} (key key' : string) (a : A) (o : list (string * A)) :
  key' <> key -> lookupOwn key' (createProperty key a o) = lookupOwn key' o.
Proof.
  intros Hne. apply not_eq_sym, String.eqb_neq in Hne.
  induction o as [|[k b] o IH]; cbn [createProperty lookupOwn].
  - by rewrite Hne.
  - destruct (isArrayIndex key) as [n|], (isArrayIndex k) as [m|];
      try destruct (n <? m)%N;
      cbn [lookupOwn]; rewrite ?Hne, ?IH; auto.
Qed.

Lemma lookupOwn_updateOwn_eq {A} (key : string) (f : A -> A) (o : list (string * A)) :
  lookupOwn key (updateOwn key f o) = f <$> lookupOwn key o.
Proof.
  induction o as [|[k b] o IH]; cbn [updateOwn lookupOwn]; [reflexivity|].
  destruct (String.eqb k key) eqn:E; cbn [lookupOwn]; rewrite E; auto.
Qed.

Lemma lookupOwn_updateOwn_ne {A} (key key' : string) (f : A -> A) (o : list (string * A)) :
  key' <> key -> lookupOwn key' (updateOwn key f o) = lookupOwn key' o.
Proof.
  intros Hne.
  induction o as [|[k b] o IH]; cbn [updateOwn lookupOwn]; [reflexivity|].
  destruct (String.eqb k key) eqn:E; cbn [lookupOwn]; [|by rewrite IH].
  apply String.eqb_eq in E as ->.
  apply not_eq_sym, String.eqb_neq in Hne. by rewrite Hne.
Qed.

Lemma getProperty_own {A} (o : list (string * A)) (key : string) (a : A) :
  lookupOwn key o = Some a -> getProperty o key = Own a.
Proof. unfold getProperty. by intros ->. Qed.

Section Unknown.
Variable executeSmartStrategy : FormData -> StrategyConfig -> M (option StepValue).

(** An unrecognised name that is not a member of [Object.prototype]: the
    call rejects before any pipeline runs, after counting an attempt and a
    failure both globally and in a bucket under that name. *)
Lemma executeStrategy_unknown (formData : FormData) (strategy : string) (w : World) :
  isKnown strategy = false ->
  strategy ∉ objectPrototypeKeys ->
  let perf := strategyPerformance (stats w) in
  let perf' :=
    updateOwn strategy countFailure
      (updateOwn strategy countAttempt (initialized strategy perf)) in
  executeStrategy executeSmartStrategy formData strategy w
  = (Thrown (UnknownStrategy strategy),
     mkWorld (random w) (draws w) (clock w)
             (trace w ++ [Log (StrategyStarted (name standard))]
                     ++ [Log (StrategyFailed (name standard) (UnknownStrategy strategy))])
             (uiManager w)
             (mkStats (countFailure (countAttempt (totals (stats w)))) perf')
             (currentFormData w))
  /\ lookupOwn strategy perf'
     = Some (countFailure (countAttempt (default zero (lookupOwn strategy perf)))).
Proof.
  intros Hknown Hproto perf perf'.
  unfold isKnown in Hknown.
  apply orb_false_iff in Hknown as [Hknown Hagg].
  apply orb_false_iff in Hknown as [Hstd Hsmart].
  assert (Hinit : lookupOwn strategy (initialized strategy perf)
                  = Some (default zero (lookupOwn strategy perf))).
  { unfold initialized. destruct (lookupOwn strategy perf) eqn:E; [exact E|].
    by apply lookupOwn_createProperty_eq. }
  assert (Hupd : lookupOwn strategy (updateOwn strategy countAttempt (initialized strategy perf))
                 = Some (countAttempt (default zero (lookupOwn strategy perf)))).
  { by rewrite lookupOwn_updateOwn_eq, Hinit. }
  split.
  2:{ subst perf'. by rewrite lookupOwn_updateOwn_eq, Hupd. }
  assert (Hcfg : getStrategy strategy = Profile standard).
  { unfold getStrategy, getProperty, strategies. cbn [lookupOwn].
    rewrite (String.eqb_sym "standard"), (String.eqb_sym "smart"),
      (String.eqb_sym "aggressive"), Hstd, Hsmart, Hagg.
    by rewrite bool_decide_eq_false_2. }
  unfold executeStrategy. rewrite Hcfg, Hstd, Hsmart, Hagg.
  unfold bind, tryCatch, bumpTotals, initializeStrategyStats, bumpPerformance,
    logStrategy, emit, throw, ret, withStats, withTrace, configName.
  cbn [stats strategyPerformance totals trace random draws clock uiManager
       currentFormData fst snd].
  fold perf.
  assert (Hgp : getProperty perf strategy
                = match lookupOwn strategy perf with Some c => Own c | None => Undefined end).
  { unfold getProperty. destruct (lookupOwn strategy perf); [done|].
    by rewrite bool_decide_eq_false_2. }
  rewrite Hgp.
  destruct (lookupOwn strategy perf) as [c|] eqn:Eown;
    cbn [stats strategyPerformance totals trace random draws clock uiManager
         currentFormData fst snd].
  - unfold initialized in *. rewrite Eown in *.
    rewrite (getProperty_own _ _ _ Eown).
    cbn [stats strategyPerformance totals trace random draws clock uiManager
         currentFormData fst snd].
    rewrite (getProperty_own _ _ _ Hupd).
    cbn [stats strategyPerformance totals trace random draws clock uiManager
         currentFormData fst snd].
    subst perf'. by rewrite Eown, <- app_assoc.
  - unfold initialized in *. rewrite Eown in *.
    rewrite (getProperty_own _ _ _ Hinit).
    cbn [stats strategyPerformance totals trace random draws clock uiManager
         currentFormData fst snd].
    rewrite (getProperty_own _ _ _ Hupd).
    cbn [stats strategyPerformance totals trace random draws clock uiManager
         currentFormData fst snd].
    subst perf'. by rewrite Eown, <- app_assoc.
Qed.

End Unknown.

(** The statistics around a pipeline that resolves: an attempt is counted
    before it runs and a success after, globally and in the bucket of the
    strategy. *)
Lemma counted_success {A} (strategy : string) (config : StrategyConfig) (body : M A)
      (handler : JsError -> M A) (w w4 : World) (r : A) :
  strategy ∉ objectPrototypeKeys ->
  body (started strategy config w) = (Returned r, w4) ->
  stats w4 = stats (started strategy config w) ->
  (bumpTotals countAttempt ;;
   initializeStrategyStats strategy ;;
   bumpPerformance countAttempt strategy ;;
   tryCatch
     (logStrategy (StrategyStarted (name config)) ;;
      let* result := body in
      bumpTotals countSuccess ;;
      bumpPerformance countSuccess strategy ;;
      logStrategy (StrategySucceeded (name config)) ;;
      ret result)
     handler)%js w
  = (Returned r,
     mkWorld (random w4) (draws w4) (clock w4)
             (trace w4 ++ [Log (StrategySucceeded (name config))]) (uiManager w4)
             (mkStats (countSuccess (countAttempt (totals (stats w))))
                      (updateOwn strategy countSuccess
                         (strategyPerformance (stats (started strategy config w)))))
             (currentFormData w4))
  /\ lookupOwn strategy
       (updateOwn strategy countSuccess
          (strategyPerformance (stats (started strategy config w))))
     = Some (countSuccess (countAttempt
               (default zero (lookupOwn strategy (strategyPerformance (stats w)))))).
Proof.
  intros Hproto Hbody Hstats.
  set (perf := strategyPerformance (stats w)) in *.
  set (perf1 := updateOwn strategy countAttempt (initialized strategy perf)).
  change (strategyPerformance (stats (started strategy config w))) with perf1.
  assert (Hinit : lookupOwn strategy (initialized strategy perf)
                  = Some (default zero (lookupOwn strategy perf))).
  { unfold initialized. destruct (lookupOwn strategy perf) eqn:E; [exact E|].
    by apply lookupOwn_createProperty_eq. }
  assert (Hupd : lookupOwn strategy perf1
                 = Some (countAttempt (default zero (lookupOwn strategy perf)))).
  { subst perf1. by rewrite lookupOwn_updateOwn_eq, Hinit. }
  split; [|by rewrite lookupOwn_updateOwn_eq, Hupd].
  assert (Hgp : getProperty perf strategy
                = match lookupOwn strategy perf with Some c => Own c | None => Undefined end).
  { unfold getProperty. destruct (lookupOwn strategy perf); [done|].
    by rewrite bool_decide_eq_false_2. }
  assert (Hw3 : (bumpTotals countAttempt ;;
                 initializeStrategyStats strategy ;;
                 bumpPerformance countAttempt strategy ;;
                 logStrategy (StrategyStarted (name config)))%js w
                = (Returned tt, started strategy config w)).
  { unfold started, bind, bumpTotals, initializeStrategyStats, bumpPerformance,
      logStrategy, emit, withStats, withTrace.
    cbn [stats strategyPerformance totals trace random draws clock uiManager
         currentFormData fst snd].
    fold perf. rewrite Hgp. unfold initialized in Hinit. unfold initialized.
    destruct (lookupOwn strategy perf) as [c|] eqn:Eown;
      cbn [stats strategyPerformance totals trace random draws clock uiManager
           currentFormData fst snd].
    - fold perf. rewrite (getProperty_own _ _ _ Eown). reflexivity.
    - rewrite (getProperty_own _ _ _ Hinit). reflexivity. }
  unfold bind, tryCatch in *.
  destruct (bumpTotals countAttempt w) as [[[]|?] wa]; [|discriminate].
  destruct (initializeStrategyStats strategy wa) as [[[]|?] wb]; [|discriminate].
  destruct (bumpPerformance countAttempt strategy wb) as [[[]|?] wc]; [|discriminate].
  destruct (logStrategy (StrategyStarted (name config)) wc) as [[[]|?] wd]; [|discriminate].
  injection Hw3 as ->. rewrite Hbody.
  unfold bumpTotals, bumpPerformance, logStrategy, emit, ret, withStats, withTrace.
  cbn [stats strategyPerformance totals trace random draws clock uiManager
       currentFormData fst snd].
  rewrite Hstats.
  change (strategyPerformance (stats (started strategy config w))) with perf1.
  change (totals (stats (started strategy config w)))
    with (countAttempt (totals (stats w))).
  rewrite (getProperty_own _ _ _ Hupd).
  cbn [stats strategyPerformance totals trace random draws clock uiManager
       currentFormData fst snd].
  reflexivity.
Qed.

(** [executeStrategy] under the names of the standard and of the
    aggressive profile. *)
Lemma executeStrategy_standard
      (executeSmartStrategy : FormData -> StrategyConfig -> M (option StepValue))
      (formData : FormData) :
  executeStrategy executeSmartStrategy formData "standard"
  = (bumpTotals countAttempt ;;
     initializeStrategyStats "standard" ;;
     bumpPerformance countAttempt "standard" ;;
     tryCatch
       (logStrategy (StrategyStarted (name standard)) ;;
        let* result := executeStandardStrategy formData standard in
        bumpTotals countSuccess ;;
        bumpPerformance countSuccess "standard" ;;
        logStrategy (StrategySucceeded (name standard)) ;;
        ret result)
       (fun error =>
          bumpTotals countFailure ;;
          bumpPerformance countFailure "standard" ;;
          logStrategy (StrategyFailed (name standard) error) ;;
          throw error))%js.
Proof. reflexivity. Qed.

Lemma executeStrategy_aggressive
      (executeSmartStrategy : FormData -> StrategyConfig -> M (option StepValue))
      (formData : FormData) :
  executeStrategy executeSmartStrategy formData "aggressive"
  = (bumpTotals countAttempt ;;
     initializeStrategyStats "aggressive" ;;
     bumpPerformance countAttempt "aggressive" ;;
     tryCatch
       (logStrategy (StrategyStarted (name aggressive)) ;;
        let* result := executeAggressiveStrategy formData aggressive in
        bumpTotals countSuccess ;;
        bumpPerformance countSuccess "aggressive" ;;
        logStrategy (StrategySucceeded (name aggressive)) ;;
        ret result)
       (fun error =>
          bumpTotals countFailure ;;
          bumpPerformance countFailure "aggressive" ;;
          logStrategy (StrategyFailed (name aggressive) error) ;;
          throw error))%js.
Proof. reflexivity. Qed.

(** ** The end-to-end scenario *)

Section Scenario.
Variable executeSmartStrategy : FormData -> StrategyConfig -> M (option StepValue).

(** C10 at a name inherited from [Object.prototype]: the call still
    rejects with the unknown-strategy error and counts a global attempt and
    a global failure, but no bucket is created under the name. *)
Theorem executeStrategy_inherited_name (formData : FormData) (random : nat -> Q) :
  let r := executeStrategy executeSmartStrategy formData "constructor" (freshWorld random) in
  fst r = Thrown (UnknownStrategy "constructor")
  /\ totals (stats (snd r)) = mkCounters 1 0 1
  /\ lookupOwn "constructor" (strategyPerformance (stats (snd r))) = None
  /\ strategyPerformance (stats (snd r)) = [].
Proof. cbn zeta. repeat split. Qed.

Lemma submitRegistration_succeeds (requestData : Request.t) (config : StrategyConfig)
      (w : World) :
  (2 # 10 < random w (S (draws w)))%Q ->
  let latency := (Qfloor (random w (draws w) * inject_Z (5000 - 2000 + 1)) + 2000)%Z in
  submitRegistration requestData config w
  = (Returned (Response.make true (Request.email requestData) (Some Registered)
                 (negb (Qle_bool (random w (S (S (draws w)))) (7 # 10)))),
     mkWorld (random w) (S (S (S (draws w)))) (clock w + Z.max 0 latency)
             ((trace w ++ [Log SubmittingRequest]) ++ [Sleep latency])
             (uiManager w) (stats w) (currentFormData w)).
Proof.
  intros Hok latency. apply Qgt_bool_iff in Hok.
  unfold submitRegistration, logStrategy, emit, Utils.randomDelay, Utils.randomMs,
    Utils.delay, randomBelow, mathRandom, bind, ret, withTrace.
  cbn [random draws clock trace uiManager stats currentFormData fst snd].
  rewrite Hok. reflexivity.
Qed.

(** *** The standard pipeline, step by step *)
Section Pipeline.
Variables (rnd : nat -> Q) (st : Stats) (cfd : option FormData) (uiflag : bool).
Hypothesis submissionSucceeds : forall n, (2 # 10 < rnd n)%Q.

Local Abbreviation returns := (returns rnd st cfd uiflag).

Lemma returns_submitRegistration (requestData : Request.t) (config : StrategyConfig) :
  returns (submitRegistration requestData config)
          (fun response => Response.success response = true
                           /\ Response.email response = Request.email requestData).
Proof.
  intros w Hw. pose proof Hw as (Hr & Hs & Hc & Hu).
  eexists _, _. split.
  - apply submitRegistration_succeeds. rewrite Hr. apply submissionSucceeds.
  - split; [done|]. by split.
Qed.

Lemma returns_validateResponse (response : Response.t) :
  Response.success response = true ->
  returns (validateResponse response) (fun r => r = response).
Proof.
  intros Hok. unfold validateResponse. rewrite Hok. cbn [negb].
  eapply returns_bind with (P := fun _ => True).
  - destruct (Response.verificationRequired response);
      [apply returns_emit|by apply returns_ret].
  - intros _ _. by apply returns_ret.
Qed.

Lemma returns_finalizeRegistration (data : Response.t) :
  returns (finalizeRegistration data)
          (fun result => Result.success result = true
                         /\ Result.email result = Response.email data
                         /\ Result.password result = framePassword cfd).
Proof.
  unfold finalizeRegistration.
  eapply returns_bind with (P := fun p => p = framePassword cfd).
  { intros w Hw. exists (currentPassword w), w. split; [done|]. split; [done|].
    destruct Hw as (_ & _ & Hc & _). unfold currentPassword, framePassword.
    by rewrite Hc. }
  intros ? ->. eapply returns_bind; [apply returns_now|]. intros ts _.
  eapply returns_bind; [apply returns_ui|]. intros _ _.
  eapply returns_bind; [apply returns_emit|]. intros _ _.
  by apply returns_ret.
Qed.

Lemma returns_prepareRequest (formData : FormData) (config : StrategyConfig) :
  randomizeData config = false ->
  returns (prepareRequest formData config)
          (fun r => Request.email r
                    = template (formData !! "desired-email"%string) ++ str "@outlook.com").
Proof.
  intros Hrd. unfold prepareRequest. rewrite Hrd.
  eapply returns_bind; [apply returns_pick|]. intros ua _.
  eapply returns_bind; [apply returns_now|]. intros ts _.
  by apply returns_ret.
Qed.

(** One iteration of the loop of [executeSteps] whose step returns. *)
Lemma returns_executeStepsFrom_cons {V} (config : StrategyConfig) (updateUI : bool)
      (i : nat) (result : option V) (step : Step V) (rest : list (Step V))
      (P : V -> Prop) (Post : option V -> Prop) :
  returns (action step result) P ->
  (forall v, P v -> returns (executeStepsFrom config updateUI (i + 1) (Some v) rest) Post) ->
  returns (executeStepsFrom config updateUI i result (step :: rest)) Post.
Proof.
  intros Hstep Hrest. cbn [executeStepsFrom].
  eapply returns_bind with (P := fun _ => True).
  { destruct updateUI; [apply returns_ui|by apply returns_ret]. }
  intros _ _. eapply returns_bind with (P := P); [|exact Hrest].
  apply returns_tryCatch.
  eapply returns_bind with (P := fun _ => True).
  { destruct (humanLikeDelay config && (0 <? i));
      [apply returns_randomDelay|by apply returns_ret]. }
  intros _ _. eapply returns_bind; [exact Hstep|].
  intros v Hv. eapply returns_bind with (P := fun _ => True).
  { destruct updateUI; [apply returns_ui|by apply returns_ret]. }
  intros _ _. by apply returns_ret.
Qed.

Lemma validateFormData_alex : validateFormData alex = ret (Validation true (Some alex)).
Proof. vm_compute. reflexivity. Qed.

Lemma returns_executeStandardStrategy_alex :
  returns (executeStandardStrategy alex standard)
          (fun r => exists result,
               r = Some (Finished result)
               /\ Result.success result = true
               /\ Result.email result = str "alexsmith01@outlook.com"
               /\ Result.password result = framePassword cfd).
Proof.
  unfold executeStandardStrategy, executeSteps.
  eapply returns_executeStepsFrom_cons with (P := fun _ => True).
  { cbn [action]. rewrite validateFormData_alex. by apply returns_ret. }
  intros validation _.
  eapply returns_executeStepsFrom_cons
    with (P := fun v => exists r, v = Requested r
                                  /\ Request.email r = str "alexsmith01@outlook.com").
  { cbn [action]. eapply returns_bind; [by apply returns_prepareRequest|].
    intros r Hr. apply returns_ret. exists r. split; [done|].
    rewrite Hr. vm_compute. reflexivity. }
  intros ? (requestData & -> & Hemail).
  eapply returns_executeStepsFrom_cons
    with (P := fun v => exists r, v = Responded r /\ Response.success r = true
                                  /\ Response.email r = str "alexsmith01@outlook.com").
  { cbn [action onRequest]. eapply returns_bind; [apply returns_submitRegistration|].
    intros r [Hok Hr]. apply returns_ret. exists r. by rewrite Hr, Hemail. }
  intros ? (response & -> & Hok & Hremail).
  eapply returns_executeStepsFrom_cons
    with (P := fun v => v = Responded response).
  { cbn [action onResponse]. eapply returns_bind; [by apply returns_validateResponse|].
    intros ? ->. by apply returns_ret. }
  intros ? ->.
  eapply returns_executeStepsFrom_cons
    with (P := fun v => exists result,
                 v = Finished result /\ Result.success result = true
                 /\ Result.email result = str "alexsmith01@outlook.com"
                 /\ Result.password result = framePassword cfd).
  { cbn [action onResponse]. eapply returns_bind; [apply returns_finalizeRegistration|].
    intros r (Hs & He & Hp). apply returns_ret. exists r. by rewrite He, Hremail. }
  intros ? (result & -> & Hres). cbn [executeStepsFrom]. apply returns_ret. eauto.
Qed.

End Pipeline.

(** C6 (as the code has it). With the input of the scenario installed as
    the current form data (as the registration flow does before it calls
    [executeStrategy]) and a submission that always succeeds, the standard
    strategy resolves with success [true], email "alexsmith01@outlook.com"
    and password "Abc12345!", and the standard bucket counts one more
    attempt and one more success. *)
Theorem standard_end_to_end (w : World) :
  (forall n, (2 # 10 < random w n)%Q) ->
  currentFormData w = Some alex ->
  exists result w',
    executeStrategy executeSmartStrategy alex "standard" w
    = (Returned (Some (Finished result)), w')
    /\ Result.success result = true
    /\ Result.email result = str "alexsmith01@outlook.com"
    /\ Result.password result = str "Abc12345!"
    /\ exists after,
        let before :=
          default zero (lookupOwn "standard" (strategyPerformance (stats w))) in
        lookupOwn "standard" (strategyPerformance (stats w')) = Some after
        /\ successes after = successes before + 1
        /\ attempts after = attempts before + 1
        /\ failures after = failures before.
Proof.
  intros Hok Hcfd.
  remember (started "standard" standard w) as w3 eqn:Hw3.
  destruct (returns_executeStandardStrategy_alex
              (random w) (stats w3) (currentFormData w) (uiManager w) Hok w3)
    as (r & w4 & Hrun & (_ & Hst & _ & _) & result & -> & Hs & He & Hp).
  { subst w3. by repeat split. }
  subst w3.
  assert (Hproto : "standard"%string ∉ objectPrototypeKeys)
    by (apply (bool_decide_unpack _); vm_compute; exact I).
  destruct (counted_success "standard" standard
              (executeStandardStrategy alex standard)
              (fun error =>
                 bumpTotals countFailure ;;
                 bumpPerformance countFailure "standard" ;;
                 logStrategy (StrategyFailed (name standard) error) ;;
                 throw error)%js
              w w4 _ Hproto Hrun Hst) as [Hexec Hbucket].
  exists result. eexists. split; [rewrite executeStrategy_standard; exact Hexec|].
  split; [exact Hs|]. split; [exact He|]. split.
  - rewrite Hp. unfold framePassword. rewrite Hcfd. vm_compute. reflexivity.
  - eexists. cbn [stats strategyPerformance]. split; [exact Hbucket|].
    cbn [successes attempts failures countSuccess countAttempt]. lia.
Qed.

End Scenario.

Lemma standard_end_to_end_witness :
  exists result w',
    executeStrategy noSmartStrategy alex "standard"
      (mkWorld oneHalf 0 0 [] false (mkStats zero []) (Some alex))
    = (Returned (Some (Finished result)), w')
    /\ Result.password result = str "Abc12345!".
Proof.
  destruct (standard_end_to_end noSmartStrategy
              (mkWorld oneHalf 0 0 [] false (mkStats zero []) (Some alex)))
    as (result & w' & Hrun & _ & _ & Hp & _).
  - intros n. reflexivity.
  - reflexivity.
  - exists result, w'. by split.
Defined.

(** C6 (as stated) fails when [executeStrategy] is called on a fresh page:
    nothing has set the current form data, and the password of the result
    is the placeholder "****". *)
Lemma standard_password_counterexample :
  exists result w',
    executeStrategy noSmartStrategy alex "standard" (freshWorld oneHalf)
    = (Returned (Some (Finished result)), w')
    /\ Result.success result = true
    /\ Result.email result = str "alexsmith01@outlook.com"
    /\ Result.password result = str "****"
    /\ Result.password result <> str "Abc12345!".
Proof.
  eexists _, _. split; [vm_compute; reflexivity|].
  repeat split; discriminate.
Qed.

(** ** The step pipeline *)
Section ExecuteSteps.
Context {V : Type}.
Variables (config : StrategyConfig) (updateUI : bool).

(** The loop over a concatenation: the second part continues from the
    output, the index and the world the first part ends with, and is not
    entered when the first part rejects. *)
Lemma executeStepsFrom_app (pre post : list (Step V)) (i : nat) (result : option V)
      (w : World) :
  executeStepsFrom config updateUI i result (pre ++ post) w
  = match executeStepsFrom config updateUI i result pre w with
    | (Returned r, w') => executeStepsFrom config updateUI (i + length pre) r post w'
    | (Thrown e, w') => (Thrown e, w')
    end.
Proof.
  revert i result w. induction pre as [|step pre IH]; intros i result w.
  - cbn. by rewrite Nat.add_0_r.
  - cbn [app executeStepsFrom length]. unfold bind.
    match goal with
    | |- context [(if updateUI then ?a else ?b) w] =>
        destruct ((if updateUI then a else b) w) as [[[]|e] w1]
    end; [|reflexivity].
    match goal with
    | |- context [tryCatch ?a ?b w1] => destruct (tryCatch a b w1) as [[v|e] w2]
    end; [|reflexivity].
    rewrite IH. by replace (i + 1 + length pre) with (i + S (length pre)) by lia.
Qed.

Lemma beforeAction_returns (i : nat) (step : Step V) (w : World) :
  exists w1, beforeAction config updateUI i step w = (Returned tt, w1).
Proof.
  unfold beforeAction, bind.
  destruct updateUI; cbn [ui ret];
    destruct (humanLikeDelay config && (0 <? i)); cbn; eauto.
Qed.

(** A step whose action throws: the loop ends there, whatever follows. *)
Lemma executeStepsFrom_throw (i : nat) (result : option V) (step : Step V)
      (rest : list (Step V)) (w w1 w2 : World) (e : JsError) :
  beforeAction config updateUI i step w = (Returned tt, w1) ->
  action step result w1 = (Thrown e, w2) ->
  executeStepsFrom config updateUI i result (step :: rest) w
  = (Thrown e, if updateUI && uiManager w2
               then withTrace w2 (trace w2 ++ [UiStep (Failed e) (stepName step)])
               else w2).
Proof.
  unfold beforeAction. intros Hbefore Hact. cbn [executeStepsFrom].
  unfold bind, tryCatch in *.
  match goal with
  | |- context [(if updateUI then ?a else ?b) w] =>
      destruct ((if updateUI then a else b) w) as [[[]|e0] wa]
  end; [|discriminate].
  match goal with
  | |- context [(if humanLikeDelay config && ?c then ?a else ?b) wa] =>
      destruct ((if humanLikeDelay config && c then a else b) wa) as [[[]|e0] wb]
  end; [|discriminate].
  injection Hbefore as ->. rewrite Hact.
  destruct updateUI; cbn [ui ret throw andb]; [|reflexivity].
  by destruct (uiManager w2).
Qed.

(** A step whose action returns: the loop goes on with the next index, on
    the value returned. *)
Lemma executeStepsFrom_return (i : nat) (result : option V) (step : Step V)
      (rest : list (Step V)) (w w1 w2 : World) (v : V) :
  beforeAction config updateUI i step w = (Returned tt, w1) ->
  action step result w1 = (Returned v, w2) ->
  executeStepsFrom config updateUI i result (step :: rest) w
  = executeStepsFrom config updateUI (i + 1) (Some v) rest
      (if updateUI && uiManager w2
       then withTrace w2 (trace w2 ++ [UiStep Completed (stepName step)])
       else w2).
Proof.
  unfold beforeAction. intros Hbefore Hact. cbn [executeStepsFrom].
  unfold bind, tryCatch in *.
  match goal with
  | |- context [(if updateUI then ?a else ?b) w] =>
      destruct ((if updateUI then a else b) w) as [[[]|e0] wa]
  end; [|discriminate].
  match goal with
  | |- context [(if humanLikeDelay config && ?c then ?a else ?b) wa] =>
      destruct ((if humanLikeDelay config && c then a else b) wa) as [[[]|e0] wb]
  end; [|discriminate].
  injection Hbefore as ->. rewrite Hact.
  destruct updateUI; cbn [ui ret throw andb]; [|reflexivity].
  by destruct (uiManager w2).
Qed.

End ExecuteSteps.

Lemma sleeps_app (t u : list Event) : sleeps (t ++ u) = sleeps t ++ sleeps u.
Proof. apply flat_map_app. Qed.

Lemma randomMs_range (r : Q) (min max : Z) :
  (0 <= r)%Q -> (r < 1)%Q -> (min <= max)%Z ->
  (min <= Qfloor (r * inject_Z (max - min + 1)) + min <= max)%Z.
Proof.
  intros H0 H1 Hle.
  set (n := (max - min + 1)%Z).
  assert (Hn : (0 < inject_Z n)%Q) by (unfold Qlt; cbn; lia).
  assert (Hlo : (0 <= Qfloor (r * inject_Z n))%Z).
  { change 0%Z with (Qfloor 0). apply Qfloor_resp_le.
    apply Qmult_le_0_compat; [exact H0|by apply Qlt_le_weak]. }
  assert (Hhi : (Qfloor (r * inject_Z n) < n)%Z).
  { assert (Hlt : (r * inject_Z n < inject_Z n)%Q).
    { rewrite <- (Qmult_1_l (inject_Z n)) at 2. by apply Qmult_lt_compat_r. }
    pose proof (Qfloor_le (r * inject_Z n)) as Hfl.
    pose proof (Qle_lt_trans _ _ _ Hfl Hlt) as Hq.
    by rewrite <- Zlt_Qlt in Hq. }
  lia.
Qed.

Section PureSteps.
Context {V : Type}.
Variables (config : StrategyConfig) (updateUI : bool).

Lemma executeStepsFrom_pure (fs : list (option V -> V)) (i : nat) (result : option V)
      (w : World) :
  (forall n, (0 <= random w n)%Q /\ (random w n < 1)%Q) ->
  (fst (delayRange config) <= snd (delayRange config))%Z ->
  exists w' ds,
    executeStepsFrom config updateUI i result (map pureStep fs) w
    = (Returned (fold_left (fun r f => Some (f r)) fs result), w')
    /\ random w' = random w
    /\ sleeps (trace w') = sleeps (trace w) ++ ds
    /\ length ds = delayed config i (length fs)
    /\ Forall (fun d => (fst (delayRange config) <= d <= snd (delayRange config))%Z) ds.
Proof.
  intros Hvalid Hrange. revert i result w Hvalid.
  induction fs as [|f fs IH]; intros i result w Hvalid.
  - exists w, []. cbn. rewrite app_nil_r. repeat split; try done.
    unfold delayed. by destruct (humanLikeDelay config), (0 <? i).
  - cbn [map executeStepsFrom fold_left pureStep action stepName].
    (* the world in which the action runs, and the delay before it *)
    set (wa := if updateUI && uiManager w
               then withTrace w (trace w ++ [UiProgress (i + 1) ""; UiStep Running ""])
               else w).
    set (d := (Qfloor (random wa (draws wa)
                       * inject_Z (snd (delayRange config) - fst (delayRange config) + 1))
               + fst (delayRange config))%Z).
    set (wb := if humanLikeDelay config && (0 <? i)
               then mkWorld (random wa) (S (draws wa)) (clock wa + Z.max 0 d)
                            (trace wa ++ [Sleep d]) (uiManager wa) (stats wa)
                            (currentFormData wa)
               else wa).
    set (wc := if updateUI && uiManager wb
               then withTrace wb (trace wb ++ [UiStep Completed ""]) else wb).
    assert (Hra : random wa = random w).
    { subst wa. by destruct (updateUI && uiManager w). }
    assert (Hrb : random wb = random w).
    { subst wb. by destruct (humanLikeDelay config && (0 <? i)). }
    assert (Hrc : random wc = random w).
    { subst wc. by destruct (updateUI && uiManager wb). }
    assert (Hsa : sleeps (trace wa) = sleeps (trace w)).
    { subst wa. destruct (updateUI && uiManager w); [|done].
      cbn [withTrace trace]. by rewrite sleeps_app, app_nil_r. }
    assert (Hsb : sleeps (trace wb)
                  = sleeps (trace w)
                    ++ (if humanLikeDelay config && (0 <? i) then [d] else [])).
    { subst wb. destruct (humanLikeDelay config && (0 <? i)).
      - cbn [trace]. by rewrite sleeps_app, Hsa.
      - by rewrite app_nil_r. }
    assert (Hsc : sleeps (trace wc) = sleeps (trace wb)).
    { subst wc. destruct (updateUI && uiManager wb); [|done].
      cbn [withTrace trace]. by rewrite sleeps_app, app_nil_r. }
    assert (Hd : (fst (delayRange config) <= d <= snd (delayRange config))%Z).
    { subst d. rewrite Hra. destruct (Hvalid (draws wa)). by apply randomMs_range. }
    destruct (IH (i + 1) (Some (f result)) wc) as (w' & ds & Hrun & Hr' & Hs' & Hlen & Hall).
    { intros n. rewrite Hrc. apply Hvalid. }
    exists w', ((if humanLikeDelay config && (0 <? i) then [d] else []) ++ ds).
    split; [|split; [|split; [|split]]].
    + rewrite <- Hrun. unfold bind, tryCatch.
      subst wc wb d wa. unfold Utils.randomDelay, Utils.randomMs, Utils.delay,
        randomBelow, mathRandom, bind, ret, ui.
      destruct updateUI, (uiManager w), (humanLikeDelay config), (0 <? i);
        reflexivity.
    + congruence.
    + by rewrite Hs', Hsc, Hsb, app_assoc.
    + rewrite length_app, Hlen. unfold delayed.
      replace (0 <? i + 1) with true by (symmetry; apply Nat.ltb_lt; lia).
      destruct (humanLikeDelay config), (0 <? i); cbn [andb length]; lia.
    + apply Forall_app. split; [|exact Hall].
      destruct (humanLikeDelay config && (0 <? i));
        [constructor; [exact Hd|constructor]|constructor].
Qed.

End PureSteps.

(** Before the action of a step is called, the run waits once, for a
    duration within [delayRange], when [humanLikeDelay] is set and the step
    is not the first; it does not wait otherwise. *)
Lemma beforeAction_delay {V} (config : StrategyConfig) (updateUI : bool)
      (i : nat) (step : Step V) (w : World) :
  (forall n, (0 <= random w n)%Q /\ (random w n < 1)%Q) ->
  (fst (delayRange config) <= snd (delayRange config))%Z ->
  exists w1 ds,
    beforeAction config updateUI i step w = (Returned tt, w1)
    /\ sleeps (trace w1) = sleeps (trace w) ++ ds
    /\ length ds = (if humanLikeDelay config && (0 <? i) then 1 else 0)
    /\ Forall (fun d => (fst (delayRange config) <= d <= snd (delayRange config))%Z) ds.
Proof.
  intros Hvalid Hrange.
  set (wa := if updateUI && uiManager w
             then withTrace w (trace w ++ [UiProgress (i + 1) (stepName step);
                                           UiStep Running (stepName step)])
             else w).
  set (d := (Qfloor (random wa (draws wa)
                     * inject_Z (snd (delayRange config) - fst (delayRange config) + 1))
             + fst (delayRange config))%Z).
  assert (Hra : random wa = random w).
  { subst wa. by destruct (updateUI && uiManager w). }
  assert (Hsa : sleeps (trace wa) = sleeps (trace w)).
  { subst wa. destruct (updateUI && uiManager w); [|done].
    cbn [withTrace trace]. by rewrite sleeps_app, app_nil_r. }
  assert (Hd : (fst (delayRange config) <= d <= snd (delayRange config))%Z).
  { subst d. rewrite Hra. destruct (Hvalid (draws wa)). by apply randomMs_range. }
  destruct (humanLikeDelay config && (0 <? i)) eqn:Hdelay.
  - exists (mkWorld (random wa) (S (draws wa)) (clock wa + Z.max 0 d)
                    (trace wa ++ [Sleep d]) (uiManager wa) (stats wa)
                    (currentFormData wa)), [d].
    split; [|split; [|split]].
    + unfold beforeAction, bind. rewrite Hdelay. subst d wa.
      unfold Utils.randomDelay, Utils.randomMs, Utils.delay, randomBelow, mathRandom,
        bind, ret, ui.
      destruct updateUI; cbn [andb]; [destruct (uiManager w)|]; reflexivity.
    + cbn [trace]. by rewrite sleeps_app, Hsa.
    + reflexivity.
    + constructor; [exact Hd|constructor].
  - exists wa, []. split; [|split; [|split]].
    + unfold beforeAction, bind. rewrite Hdelay. subst wa. unfold ui, ret.
      destruct updateUI; cbn [andb]; [destruct (uiManager w)|]; reflexivity.
    + by rewrite app_nil_r.
    + reflexivity.
    + constructor.
Qed.

(** C3. [executeSteps] runs its steps one after the other, each on the
    output of the one before it and the first on [null] (first and second
    part); with [humanLikeDelay] it waits before every step after the first,
    for a duration within [delayRange], and never otherwise (first and third
    part); a step whose action returns hands its value to the next step
    (fourth part); and when the action of a step throws, the call rejects
    with that very error in the world that action left: none of the later
    steps has any effect and no result is returned (fifth part). *)
Theorem executeSteps_contract {V : Type} (config : StrategyConfig) (updateUI : bool) :
  (forall (fs : list (option V -> V)) (w : World),
      (forall n, (0 <= random w n)%Q /\ (random w n < 1)%Q) ->
      (fst (delayRange config) <= snd (delayRange config))%Z ->
      exists w' ds,
        executeSteps (map pureStep fs) config updateUI w
        = (Returned (fold_left (fun r f => Some (f r)) fs None), w')
        /\ sleeps (trace w') = sleeps (trace w) ++ ds
        /\ length ds = (if humanLikeDelay config then length fs - 1 else 0)
        /\ Forall (fun d => (fst (delayRange config) <= d <= snd (delayRange config))%Z) ds)
  /\ (forall (pre post : list (Step V)) (w : World),
         executeSteps (pre ++ post) config updateUI w
         = match executeSteps pre config updateUI w with
           | (Returned r, w') => executeStepsFrom config updateUI (length pre) r post w'
           | (Thrown e, w') => (Thrown e, w')
           end)
  /\ (forall (i : nat) (step : Step V) (w : World),
         (forall n, (0 <= random w n)%Q /\ (random w n < 1)%Q) ->
         (fst (delayRange config) <= snd (delayRange config))%Z ->
         exists w1 ds,
           beforeAction config updateUI i step w = (Returned tt, w1)
           /\ sleeps (trace w1) = sleeps (trace w) ++ ds
           /\ length ds = (if humanLikeDelay config && (0 <? i) then 1 else 0)
           /\ Forall (fun d => (fst (delayRange config) <= d <= snd (delayRange config))%Z)
                     ds)
  /\ (forall (i : nat) (r : option V) (step : Step V) (rest : list (Step V))
             (w w1 w2 : World) (v : V),
         beforeAction config updateUI i step w = (Returned tt, w1) ->
         action step r w1 = (Returned v, w2) ->
         executeStepsFrom config updateUI i r (step :: rest) w
         = executeStepsFrom config updateUI (i + 1) (Some v) rest
             (if updateUI && uiManager w2
              then withTrace w2 (trace w2 ++ [UiStep Completed (stepName step)])
              else w2))
  /\ (forall (pre post : list (Step V)) (step : Step V) (w w1 w2 w3 : World)
             (r : option V) (e : JsError),
         executeSteps pre config updateUI w = (Returned r, w1) ->
         beforeAction config updateUI (length pre) step w1 = (Returned tt, w2) ->
         action step r w2 = (Thrown e, w3) ->
         executeSteps (pre ++ step :: post) config updateUI w
         = (Thrown e,
            if updateUI && uiManager w3
            then withTrace w3 (trace w3 ++ [UiStep (Failed e) (stepName step)])
            else w3)).
Proof.
  split; [|split; [|split; [|split]]].
  - intros fs w Hvalid Hrange.
    destruct (executeStepsFrom_pure config updateUI fs 0 None w Hvalid Hrange)
      as (w' & ds & Hrun & _ & Hs & Hlen & Hall).
    exists w', ds. unfold executeSteps. by repeat split.
  - intros pre post w. unfold executeSteps.
    exact (executeStepsFrom_app config updateUI pre post 0 None w).
  - intros i step w. apply beforeAction_delay.
  - intros i r step rest w w1 w2 v. apply executeStepsFrom_return.
  - intros pre post step w w1 w2 w3 r e Hpre Hbefore Hact.
    unfold executeSteps in *. rewrite executeStepsFrom_app, Hpre.
    by apply executeStepsFrom_throw with (w1 := w2).
Qed.

Lemma executeSteps_contract_witness :
  exists w' ds,
    executeSteps (map pureStep [fun _ : option nat => 1; fun r => default 0 r + 1])
                 standard true (freshWorld oneHalf)
    = (Returned (Some 2), w')
    /\ sleeps (trace w') = ds /\ length ds = 1.
Proof.
  destruct (proj1 (executeSteps_contract (V := nat) standard true)
              [fun _ : option nat => 1; fun r => default 0 r + 1] (freshWorld oneHalf))
    as (w' & ds & Hrun & Hs & Hlen & _).
  - intros n. unfold oneHalf, Qle, Qlt. cbn. lia.
  - cbn. lia.
  - exists w', ds. split; [exact Hrun|]. split; [exact Hs|exact Hlen].
Defined.

(** ** The retry-wrapped submission *)

Lemma submissions_app (t u : list Event) :
  submissions (t ++ u) = submissions t + submissions u.
Proof. unfold submissions. by rewrite List.filter_app, length_app. Qed.

Lemma submissions_failedAttempts (w : World) (n : nat) (l : list nat) :
  submissions (flat_map (failedAttempt w n) l) = length l.
Proof.
  induction l as [|j l IH]; [reflexivity|].
  cbn [flat_map length]. rewrite submissions_app, IH. reflexivity.
Qed.

Lemma submitRegistration_fails (requestData : Request.t) (config : StrategyConfig)
      (w : World) :
  Qle_bool (random w (S (draws w))) (2 # 10) = true ->
  let latency := (Qfloor (random w (draws w) * inject_Z (5000 - 2000 + 1)) + 2000)%Z in
  let i := Qfloor (random w (S (S (draws w)))
                   * inject_Z (Z.of_nat (length submitErrors))) in
  submitRegistration requestData config w
  = (Thrown match (if (i <? 0)%Z then None else submitErrors !! Z.to_nat i) with
            | Some reason => SubmissionFailed reason
            | None => OtherError (str "undefined")
            end,
     mkWorld (random w) (S (S (S (draws w)))) (clock w + Z.max 0 latency)
             ((trace w ++ [Log SubmittingRequest]) ++ [Sleep latency])
             (uiManager w) (stats w) (currentFormData w)).
Proof.
  intros Hfail latency i.
  unfold submitRegistration, logStrategy, emit, Utils.randomDelay, Utils.randomMs,
    Utils.delay, randomBelow, mathRandom, bind, ret, throw, withTrace.
  cbn [random draws clock trace uiManager stats currentFormData fst snd].
  rewrite Hfail.
  cbn [negb random draws clock trace uiManager stats currentFormData fst snd].
  fold i.
  by destruct (if (i <? 0)%Z then None else submitErrors !! Z.to_nat i).
Qed.

Section Retry.
Variables (requestData : Request.t) (config : StrategyConfig) (w : World).

Local Abbreviation n := (retryCount config).
Local Abbreviation loop :=
  (Utils.retryLoop (submitRegistration requestData config) n 2000).

(** The loop entered at iteration [i], some later attempt [k] succeeding. *)
Lemma retryLoop_success (remaining : nat) :
  forall (i k : nat) (wi : World),
    i + remaining = n -> random wi = random w -> draws wi = draws w + 3 * i ->
    i <= k < n ->
    (forall j, i <= j < k -> attemptFails w j = true) ->
    attemptFails w k = false ->
    exists response w',
      loop remaining i wi = (Returned (Some response), w')
      /\ Response.success response = true
      /\ Response.email response = Request.email requestData
      /\ trace w' = trace wi ++ flat_map (failedAttempt w n) (seq i (k - i))
                            ++ lastAttempt w k.
Proof.
  induction remaining as [|remaining IH]; intros i k wi Hn Hr Hd Hk Hfail Hok; [lia|].
  cbn [Utils.retryLoop]. unfold tryCatch, bind at 1.
  destruct (decide (k = i)) as [->|Hne].
  - (* this attempt succeeds *)
    rewrite submitRegistration_succeeds.
    2:{ rewrite Hr, Hd. unfold attemptFails in Hok.
        replace (S (draws w + 3 * i)) with (draws w + 3 * i + 1) by lia.
        by apply Qgt_bool_iff, negb_true_iff. }
    eexists _, _. split; [reflexivity|]. cbn [trace Response.success Response.email].
    repeat split. rewrite Nat.sub_diag. cbn [seq flat_map app].
    unfold lastAttempt, latencyAt. rewrite Hr, Hd, <- app_assoc. reflexivity.
  - (* this attempt fails and is retried *)
    assert (Hfi : attemptFails w i = true) by (apply Hfail; lia).
    rewrite submitRegistration_fails.
    2:{ rewrite Hr, Hd. unfold attemptFails in Hfi.
        by replace (S (draws w + 3 * i)) with (draws w + 3 * i + 1) by lia. }
    replace (i =? n - 1) with false by (symmetry; apply Nat.eqb_neq; lia).
    unfold bind, emit, Utils.delay, withTrace.
    cbn [random draws clock trace uiManager stats currentFormData fst snd].
    match goal with
    | |- context [loop remaining (i + 1) ?wn] =>
        destruct (IH (i + 1) k wn) as (response & w' & Hrun & Hs & He & Ht)
    end; try done; try lia.
    { cbn [draws]. lia. }
    { intros j Hj. apply Hfail. lia. }
    exists response, w'. split; [exact Hrun|]. split; [exact Hs|]. split; [exact He|].
    rewrite Ht. cbn [trace].
    replace (k - i) with (S (k - (i + 1))) by lia.
    cbn [seq flat_map]. replace (S i) with (i + 1) by lia.
    unfold failedAttempt at 2, failureAt, latencyAt.
    rewrite Hr, Hd.
    replace (S (S (draws w + 3 * i))) with (draws w + 3 * i + 2) by lia.
    rewrite <- !app_assoc. reflexivity.
Qed.

(** The loop entered at iteration [i], every remaining attempt failing. *)
Lemma retryLoop_exhausted (remaining : nat) :
  forall (i : nat) (wi : World),
    i + remaining = n -> random wi = random w -> draws wi = draws w + 3 * i ->
    0 < remaining ->
    (forall j, i <= j < n -> attemptFails w j = true) ->
    exists w',
      loop remaining i wi = (Thrown (failureAt w (n - 1)), w')
      /\ trace w' = trace wi ++ flat_map (failedAttempt w n) (seq i (n - 1 - i))
                            ++ lastAttempt w (n - 1).
Proof.
  induction remaining as [|remaining IH]; intros i wi Hn Hr Hd Hpos Hfail; [lia|].
  cbn [Utils.retryLoop]. unfold tryCatch, bind at 1.
  assert (Hfi : attemptFails w i = true) by (apply Hfail; lia).
  rewrite submitRegistration_fails.
  2:{ rewrite Hr, Hd. unfold attemptFails in Hfi.
      by replace (S (draws w + 3 * i)) with (draws w + 3 * i + 1) by lia. }
  destruct (decide (remaining = 0)) as [->|Hne].
  - (* the last attempt: its error is thrown *)
    replace (i =? n - 1) with true by (symmetry; apply Nat.eqb_eq; lia).
    eexists. split.
    + unfold throw, failureAt. rewrite Hr, Hd.
      replace (S (S (draws w + 3 * i))) with (draws w + 3 * (n - 1) + 2) by lia.
      reflexivity.
    + cbn [trace]. replace (n - 1 - i) with 0 by lia. cbn [seq flat_map app].
      unfold lastAttempt, latencyAt. rewrite ?Hr, ?Hd, <- app_assoc.
      by replace (n - 1) with i by lia.
  - replace (i =? n - 1) with false by (symmetry; apply Nat.eqb_neq; lia).
    unfold bind, emit, Utils.delay, withTrace.
    cbn [random draws clock trace uiManager stats currentFormData fst snd].
    match goal with
    | |- context [loop remaining (i + 1) ?wn] =>
        destruct (IH (i + 1) wn) as (w' & Hrun & Ht)
    end; try done; try lia.
    { cbn [draws]. lia. }
    { intros j Hj. apply Hfail. lia. }
    exists w'. split; [exact Hrun|].
    rewrite Ht. cbn [trace].
    replace (n - 1 - i) with (S (n - 1 - (i + 1))) by lia.
    cbn [seq flat_map]. replace (S i) with (i + 1) by lia.
    unfold failedAttempt at 2, failureAt, latencyAt.
    rewrite Hr, Hd.
    replace (S (S (draws w + 3 * i))) with (draws w + 3 * i + 2) by lia.
    rewrite <- !app_assoc. reflexivity.
Qed.

End Retry.

(** C7 (as the code has it). [submitRegistrationWithRetry] calls the
    submission again after every failure, whatever its error, as long as
    fewer than [retryCount] calls were made: it waits 2000 x j milliseconds
    after the j-th failed call, makes at most [retryCount] calls, and when
    the [retryCount]-th call fails too, throws the error of that last call
    without waiting again. *)
Theorem retry_wrapped_submission (requestData : Request.t) (config : StrategyConfig)
        (w : World) :
  let n := retryCount config in
  (forall k, k < n ->
     (forall j, j < k -> attemptFails w j = true) ->
     attemptFails w k = false ->
     exists response w',
       submitRegistrationWithRetry requestData config w = (Returned (Some response), w')
       /\ Response.success response = true
       /\ trace w' = trace w ++ flat_map (failedAttempt w n) (seq 0 k) ++ lastAttempt w k
       /\ submissions (trace w') = submissions (trace w) + (k + 1))
  /\ (0 < n ->
      (forall j, j < n -> attemptFails w j = true) ->
      exists w',
        submitRegistrationWithRetry requestData config w
        = (Thrown (failureAt w (n - 1)), w')
        /\ trace w' = trace w ++ flat_map (failedAttempt w n) (seq 0 (n - 1))
                              ++ lastAttempt w (n - 1)
        /\ submissions (trace w') = submissions (trace w) + n).
Proof.
  intros n. split.
  - intros k Hk Hfail Hok.
    destruct (retryLoop_success requestData config w n 0 k w)
      as (response & w' & Hrun & Hs & _ & Ht); try done; try lia.
    { intros j Hj. apply Hfail. lia. }
    exists response, w'. split; [exact Hrun|]. split; [exact Hs|].
    rewrite Nat.sub_0_r in Ht. split; [exact Ht|].
    rewrite Ht, !submissions_app, submissions_failedAttempts, length_seq.
    reflexivity.
  - intros Hpos Hfail.
    destruct (retryLoop_exhausted requestData config w n 0 w)
      as (w' & Hrun & Ht); try done; try lia.
    { intros j Hj. apply Hfail. lia. }
    exists w'. split; [exact Hrun|].
    rewrite Nat.sub_0_r in Ht. split; [exact Ht|].
    rewrite Ht, !submissions_app, submissions_failedAttempts, length_seq.
    cbn [lastAttempt submissions List.filter length]. lia.
Qed.

Lemma retry_wrapped_submission_witness :
  exists response w',
    submitRegistrationWithRetry someRequest smart (freshWorld emailTakenOnce)
    = (Returned (Some response), w')
    /\ submissions (trace w') = 2.
Proof.
  destruct (proj1 (retry_wrapped_submission someRequest smart (freshWorld emailTakenOnce)) 1)
    as (response & w' & Hrun & _ & _ & Hcount).
  - cbn. lia.
  - intros j Hj. assert (j = 0) as -> by lia. reflexivity.
  - reflexivity.
  - exists response, w'. split; [exact Hrun|exact Hcount].
Defined.

(** C7 (as stated) fails: an error that is not transient, "email exists",
    is retried like any other. *)
Lemma retry_not_only_transient_counterexample :
  fst (submitRegistration someRequest smart (freshWorld emailTakenOnce))
  = Thrown (SubmissionFailed EmailExists)
  /\ spec_isTransient EmailExists = false
  /\ exists response w',
      submitRegistrationWithRetry someRequest smart (freshWorld emailTakenOnce)
      = (Returned (Some response), w')
      /\ submissions (trace w') = 2
      /\ In (Warn 1 5 (SubmissionFailed EmailExists)) (trace w').
Proof.
  split; [vm_compute; reflexivity|]. split; [reflexivity|].
  eexists _, _. split; [vm_compute; reflexivity|].
  split; [reflexivity|]. cbn. tauto.
Qed.

(** ** The aggressive strategy *)




Lemma randomBelow_range (r : Q) (n : Z) :
  (0 <= r)%Q -> (r < 1)%Q -> (0 < n)%Z -> (0 <= Qfloor (r * inject_Z n) < n)%Z.
Proof.
  intros H0 H1 Hn.
  pose proof (randomMs_range r 0 (n - 1) H0 H1 ltac:(lia)) as H.
  replace (n - 1 - 0 + 1)%Z with n in H by lia. lia.
Qed.

Section Variants.
Variables (rnd : nat -> Q) (st : Stats) (cfd : option FormData) (uiflag : bool).

Local Abbreviation returns := (returns rnd st cfd uiflag).

Lemma returns_mapM {A B} (f : A -> M B) (l : list A) :
  (forall a, returns (f a) (fun _ => True)) -> returns (mapM f l) (fun _ => True).
Proof.
  intros Hf. induction l as [|a l IH]; cbn [mapM]; [by apply returns_ret|].
  eapply returns_bind; [apply Hf|]. intros b _.
  eapply returns_bind; [exact IH|]. intros bs _. by apply returns_ret.
Qed.


Hypothesis valid : forall n, (0 <= rnd n)%Q /\ (rnd n < 1)%Q.

Lemma returns_pick_valid (table : list jsstring) :
  0 < length table ->
  returns (Utils.pick table) (fun v => exists s, v = Some s /\ In s table).
Proof.
  intros Hlen. eapply returns_bind; [apply returns_randomBelow|].
  intros i [k ->]. apply returns_ret.
  destruct (valid k) as [H0 H1].
  destruct (randomBelow_range (rnd k) (Z.of_nat (length table)) H0 H1) as [Hlo Hhi]; [lia|].
  replace (_ <? 0)%Z with false by (symmetry; apply Z.ltb_ge; lia).
  destruct (lookup_lt_is_Some_2 table (Z.to_nat (Qfloor (rnd k * inject_Z (Z.of_nat (length table))))))
    as [s Hs]; [lia|].
  exists s. split; [exact Hs|]. by eapply list_elem_of_In, list_elem_of_lookup_2.
Qed.



End Variants.




Lemma executeAggressiveStrategy_race (formData : FormData) (w : World) :
  executeAggressiveStrategy formData aggressive w
  = match (logStrategy AggressiveStarted ;; generateDataVariants formData 3)%js w with
    | (Returned dataVariants, w2) =>
        promiseAny (imap (fun index variant => attempt aggressive index variant)
                         dataVariants) w2
    | (Thrown e, w') => (Thrown e, w')
    end.
Proof.
  unfold executeAggressiveStrategy, bind, logStrategy, emit. lazy beta iota.
  by destruct (generateDataVariants formData 3 _) as [[variants|e] w2].
Qed.


Lemma inFrame_self (w : World) :
  inFrame (random w) (stats w) (currentFormData w) (uiManager w) w.
Proof. by repeat split. Qed.





End StrategyFacts.

(* ===================================================================== *)
(** * Further properties of js/formProtector.js                         *)
(* ===================================================================== *)
Module FormProtectorMore.
Import Js FormProtector FormProtectorSpec FormProtectorFacts FormProtectorMoreSpec.

Lemma filter_none {A} (f : A -> bool) (l : list A) :
  (forall a, In a l -> f a = false) -> List.filter f l = [].
Proof.
  induction l as [|a l IH]; intros H; [reflexivity|].
  cbn. rewrite (H a) by (by left). apply IH. intros b Hb. apply H. by right.
Qed.

Lemma flat_map_none {A B} (f : A -> list B) (l : list A) :
  (forall a, In a l -> f a = []) -> flat_map f l = [].
Proof.
  induction l as [|a l IH]; intros H; [reflexivity|].
  cbn. rewrite (H a) by (by left). apply IH. intros b Hb. apply H. by right.
Qed.

Lemma saveAllValues_fold (l : list string) (st : State) :
  let st' :=
    fold_left
      (fun st fieldId =>
         match document st !! fieldId with
         | Some field => saveFieldValue fieldId (value field) st
         | None => st
         end) l st in
  document st' = document st
  /\ effects st' = effects st
  /\ timers st' = timers st
  /\ currentYear st' = currentYear st
  /\ forall id,
      savedFormState st' !! id =
        match document st !! id with
        | Some field =>
            if bool_decide (id ∈ l) then Some (value field) else savedFormState st !! id
        | None => savedFormState st !! id
        end.
Proof.
  revert st. induction l as [|a l IH]; intros st; cbn [fold_left].
  - repeat split. intros id. rewrite bool_decide_eq_false_2 by apply not_elem_of_nil.
    by destruct (document st !! id).
  - set (st1 := match document st !! a with
                | Some field => saveFieldValue a (value field) st
                | None => st
                end).
    assert (Hd : document st1 = document st)
      by (subst st1; by destruct (document st !! a)).
    assert (He : effects st1 = effects st)
      by (subst st1; by destruct (document st !! a)).
    assert (Ht : timers st1 = timers st)
      by (subst st1; by destruct (document st !! a)).
    assert (Hy : currentYear st1 = currentYear st)
      by (subst st1; by destruct (document st !! a)).
    assert (Hs : forall id, savedFormState st1 !! id =
                   match document st !! a with
                   | Some field => if decide (id = a) then Some (value field)
                                   else savedFormState st !! id
                   | None => savedFormState st !! id
                   end).
    { intros id. subst st1. destruct (document st !! a) as [field|]; [|done].
      cbn. destruct (decide (id = a)) as [->|Hne].
      - apply lookup_insert_eq.
      - by apply lookup_insert_ne. }
    destruct (IH st1) as (Hd' & He' & Ht' & Hy' & Hs'). cbn zeta.
    split; [congruence|]. split; [congruence|]. split; [congruence|].
    split; [congruence|].
    intros id. rewrite Hs', Hd, Hs.
    destruct (document st !! id) as [field|] eqn:Hid.
    + destruct (decide (id = a)) as [->|Hne].
      * rewrite Hid.
        rewrite (bool_decide_eq_true_2 (a ∈ a :: l)) by apply list_elem_of_here.
        by destruct (bool_decide (a ∈ l)).
      * destruct (bool_decide (id ∈ l)) eqn:Hin.
        -- apply bool_decide_eq_true_1 in Hin.
           rewrite (bool_decide_eq_true_2 (id ∈ a :: l)); [done|].
           by apply list_elem_of_further.
        -- apply bool_decide_eq_false_1 in Hin.
           rewrite (bool_decide_eq_false_2 (id ∈ a :: l)).
           2:{ intros [?|?]%elem_of_cons; done. }
           by destruct (document st !! a).
    + destruct (document st !! a) as [fa|] eqn:Ha; [|done].
      destruct (decide (id = a)) as [->|Hne]; [congruence|done].
Qed.

(** X1. [saveAllValues] stores the current value of every tracked field
    that is on the page, keeps what was saved for any other key (a tracked
    field that has disappeared included), and touches nothing else. *)
Theorem saveAllValues_snapshot (st : State) :
  let st' := saveAllValues st in
  document st' = document st
  /\ effects st' = effects st
  /\ timers st' = timers st
  /\ forall id,
      savedFormState st' !! id =
        match document st !! id with
        | Some field =>
            if bool_decide (id ∈ protectedFields) then Some (value field)
            else savedFormState st !! id
        | None => savedFormState st !! id
        end.
Proof.
  destruct (saveAllValues_fold protectedFields st) as (Hd & He & Ht & _ & Hs).
  cbn zeta. unfold saveAllValues. by repeat split.
Qed.

Lemma nonBlank_blank (s : jsstring) : nonBlank (Some s) = negb (blank s).
Proof. unfold nonBlank, blank. by destruct (truthy s), (truthy (trim s)). Qed.


Lemma toWrite_saved (st : State) (id : string) :
  id ∈ protectedFields ->
  toWrite (saveAllValues st) id =
    match document st !! id with
    | Some field => if nonBlank (Some (value field)) then Some (field, value field) else None
    | None => None
    end.
Proof.
  intros Hin. destruct (saveAllValues_fold protectedFields st) as (Hd & _ & _ & _ & Hs).
  unfold toWrite, saveAllValues. rewrite Hd, Hs.
  destruct (document st !! id) as [field|]; [|done].
  rewrite bool_decide_eq_true_2 by done. reflexivity.
Qed.




(** X3. Once a cleared form has been saved, nothing can be restored: when
    all eight tracked fields are on the page and empty after trimming (and
    nothing valid is saved under any other key), [saveAllValues] leaves a
    snapshot that [hasValidSavedData] rejects, so [checkFormCleared] stays
    false, and [restoreAllValues] writes no field and answers [false]. *)
Theorem save_of_cleared_form (st : State) :
  (forall id, In id protectedFields ->
              exists field, document st !! id = Some field /\ blank (value field) = true) ->
  (forall id v, savedFormState st !! id = Some v -> ~ In id protectedFields ->
                nonBlank (Some v) = false) ->
  let st' := saveAllValues st in
  hasValidSavedData st' = false
  /\ checkFormCleared st' = false
  /\ snd (restoreAllValues st') = VBool false
  /\ document (fst (restoreAllValues st')) = document st.
Proof.
  intros Hblank Hother. cbn zeta.
  destruct (saveAllValues_fold protectedFields st) as (Hd & _ & _ & _ & Hs).
  fold (saveAllValues st) in Hd, Hs.
  assert (Hinvalid : hasValidSavedData (saveAllValues st) = false).
  { destruct (hasValidSavedData (saveAllValues st)) eqn:E; [|reflexivity].
    apply FormProtectorClaims.hasValidSavedData_iff in E as (k & v & Hk & Hv).
    rewrite Hs in Hk.
    destruct (decide (k ∈ protectedFields)) as [Hin|Hnotin].
    - destruct (Hblank k) as (field & Hf & Hb); [by apply list_elem_of_In|].
      rewrite Hf, bool_decide_eq_true_2 in Hk by done. injection Hk as <-.
      rewrite nonBlank_blank, Hb in Hv. discriminate.
    - rewrite (bool_decide_eq_false_2 _ Hnotin) in Hk.
      assert (Hsaved : savedFormState st !! k = Some v)
        by (by destruct (document st !! k)).
      rewrite (Hother k v Hsaved) in Hv; [discriminate|].
      intros Hin. by apply Hnotin, list_elem_of_In. }
  assert (Hnone : forall id, id ∈ protectedFields -> toWrite (saveAllValues st) id = None).
  { intros id Hin. rewrite (toWrite_saved st id Hin).
    destruct (Hblank id) as (field & -> & Hb); [by apply list_elem_of_In|].
    by rewrite nonBlank_blank, Hb. }
  destruct (restoreAllValues_spec (saveAllValues st)) as (_ & _ & _ & _ & Hret & Hdoc).
  split; [exact Hinvalid|]. split; [|split].
  - unfold checkFormCleared.
    destruct (fold_left _ _ _) as [emptyCount totalCount].
    destruct (ratio emptyCount totalCount); [|reflexivity].
    rewrite Hinvalid. apply andb_false_r.
  - rewrite Hret. f_equal.
    assert (Hempty : List.filter (isWritten (saveAllValues st)) protectedFields = []).
    { apply filter_none. intros id Hin%list_elem_of_In. unfold isWritten.
      by rewrite (Hnone id Hin). }
    by rewrite Hempty.
  - apply map_eq. intros id. rewrite Hdoc, Hd.
    destruct (bool_decide (id ∈ protectedFields)) eqn:Hin; [|reflexivity].
    apply bool_decide_eq_true_1 in Hin. unfold afterWrite.
    by rewrite (Hnone id Hin), Hd.
Qed.

Lemma save_of_cleared_form_witness :
  checkFormCleared (mkState twoNames blankForm [] [] 2026) = true
  /\ checkFormCleared (saveAllValues (mkState twoNames blankForm [] [] 2026)) = false.
Proof.
  split; [vm_compute; reflexivity|].
  apply (save_of_cleared_form (mkState twoNames blankForm [] [] 2026)).
  - intros id Hin. cbn in Hin.
    repeat (destruct Hin as [<-|Hin];
            [eexists; split; [vm_compute; reflexivity|vm_compute; reflexivity]|]).
    destruct Hin.
  - intros id v Hsaved Hnotin. exfalso. apply Hnotin.
    assert (Hkeys : id = "first-name"%string \/ id = "last-name"%string).
    { destruct (decide (id = "first-name"%string)) as [->|H1]; [by left|].
      destruct (decide (id = "last-name"%string)) as [->|H2]; [by right|].
      exfalso. unfold twoNames in Hsaved. cbn in Hsaved.
      rewrite lookup_insert_ne in Hsaved by done.
      rewrite lookup_insert_ne in Hsaved by done.
      by rewrite lookup_empty in Hsaved. }
    destruct Hkeys as [-> | ->]; cbn; tauto.
Defined.

Lemma liveEmpty_isLive (st : State) (l : list string) :
  length (List.filter (liveEmpty st) l) <= length (List.filter (isLive st) l).
Proof.
  induction l as [|a l IH]; [reflexivity|]. cbn [List.filter].
  unfold liveEmpty at 1, isLive at 1.
  destruct (document st !! a) as [field|]; [|exact IH].
  destruct (blank (value field)); cbn [length]; lia.
Qed.

(** X4. On any page, [checkFormCleared] answers [true] exactly when
    strictly more than half of the tracked fields that are on the page are
    empty after trimming and the saved data is valid; in particular it
    answers [false] on a page that has none of the tracked fields (where
    the rate is 0/0). *)
Theorem checkFormCleared_majority (st : State) :
  let live := length (List.filter (isLive st) protectedFields) in
  let empty := length (List.filter (liveEmpty st) protectedFields) in
  checkFormCleared st = (live <? 2 * empty) && hasValidSavedData st
  /\ (live = 0 -> checkFormCleared st = false).
Proof.
  cbn zeta.
  set (live := length (List.filter (isLive st) protectedFields)).
  set (empty := length (List.filter (liveEmpty st) protectedFields)).
  assert (Hle : empty <= live) by apply liveEmpty_isLive.
  assert (Hcheck : checkFormCleared st = (live <? 2 * empty) && hasValidSavedData st).
  { unfold checkFormCleared. rewrite FormProtectorClaims.countField_fold.
    fold live empty. cbn [Nat.add]. unfold ratio.
    destruct live as [|n] eqn:Hlive.
    - replace empty with 0 by lia. reflexivity.
    - f_equal. unfold Qle_bool. cbn [Qnum Qden].
      destruct (S n <? 2 * empty) eqn:E.
      + apply Nat.ltb_lt in E. apply negb_true_iff, Z.leb_gt. lia.
      + apply Nat.ltb_ge in E. apply negb_false_iff, Z.leb_le. lia. }
  split; [exact Hcheck|].
  intros H0. rewrite Hcheck, H0. replace empty with 0 by lia. reflexivity.
Qed.

Lemma checkFormCleared_majority_witness :
  checkFormCleared (mkState twoNames ∅ [] [] 2026) = false.
Proof.
  apply (proj2 (checkFormCleared_majority (mkState twoNames ∅ [] [] 2026))).
  vm_compute. reflexivity.
Defined.

(** X5. [forceRestore] answers what [restoreAllValues] answers and shows
    the success notice exactly when that answer is [true]; right after
    [clearSavedData] it writes no field, schedules nothing, answers
    [false] and shows the nothing-to-restore notice. *)
Theorem forceRestore_outcome (st : State) :
  (exists restored,
      snd (forceRestore st) = VBool restored
      /\ snd (restoreAllValues st) = VBool restored
      /\ fst (forceRestore st)
         = showNotification (noticeFor restored) (fst (restoreAllValues st)))
  /\ (let r := forceRestore (clearSavedData st) in
      snd r = VBool false
      /\ document (fst r) = document st
      /\ effects (fst r) = effects st ++ [ShowNotification NothingToRestore]
      /\ timers (fst r) = timers st
      /\ savedFormState (fst r) = ∅).
Proof.
  split.
  - destruct (restoreAllValues_spec st) as (_ & _ & _ & _ & Hret & _).
    unfold forceRestore. destruct (restoreAllValues st) as [st' restored].
    cbn [fst snd] in *. subst restored.
    eexists. split; [|split; [reflexivity|]];
      by destruct (0 <? length (List.filter (isWritten st) protectedFields)).
  - cbn zeta.
    destruct (restoreAllValues_spec (clearSavedData st)) as (Hs & _ & He & Ht & Hret & Hdoc).
    assert (Hnone : forall id, toWrite (clearSavedData st) id = None).
    { intros id. unfold toWrite, clearSavedData, withSaved. cbn [document savedFormState].
      rewrite lookup_empty. by destruct (document st !! id). }
    assert (Hfilter : List.filter (isWritten (clearSavedData st)) protectedFields = []).
    { apply filter_none. intros id _. unfold isWritten. by rewrite Hnone. }
    assert (Heff : flat_map (fieldEffects (clearSavedData st)) protectedFields = []).
    { apply flat_map_none. intros id _. unfold fieldEffects. by rewrite Hnone. }
    rewrite Hfilter in Hret. rewrite Heff, app_nil_r in He.
    unfold forceRestore. destruct (restoreAllValues (clearSavedData st)) as [st' restored].
    cbn [fst snd] in *. subst restored.
    cbn [Nat.ltb Nat.leb length fst snd showNotification document effects timers
         savedFormState].
    split; [reflexivity|]. split; [|split; [|split]].
    + apply map_eq. intros id. rewrite Hdoc. unfold afterWrite. rewrite Hnone.
      by destruct (bool_decide (id ∈ protectedFields)).
    + by rewrite He.
    + rewrite Ht. cbn. by rewrite lookup_empty, app_nil_r.
    + exact Hs.
Qed.

(** ** The regenerated day options *)

Lemma daysOfMonth_range (y m : Z) : (28 <= daysOfMonth y m <= 31)%Z.
Proof.
  unfold daysOfMonth.
  destruct (m =? 1)%Z; [destruct (isLeapYear y); lia|].
  destruct ((m =? 3) || (m =? 5) || (m =? 8) || (m =? 10))%Z; lia.
Qed.

Lemma daysBeforeMonth_range (y m : Z) :
  (0 <= m <= 11)%Z -> (0 <= daysBeforeMonth y m <= 335)%Z.
Proof.
  intros Hm. unfold daysBeforeMonth.
  assert (Hcases : (m = 0 \/ m = 1 \/ m = 2 \/ m = 3 \/ m = 4 \/ m = 5 \/ m = 6
                    \/ m = 7 \/ m = 8 \/ m = 9 \/ m = 10 \/ m = 11)%Z) by lia.
  unfold daysOfMonth.
  repeat (destruct Hcases as [->|Hcases];
          [cbv -[isLeapYear Z.add Z.le]; destruct (isLeapYear y); lia|]).
  rewrite Hcases. cbv -[isLeapYear Z.add Z.le]; destruct (isLeapYear y); lia.
Qed.

(** [new Date(y, m, 0).getDate()] for a month number [m] in 1..12 of a
    year of three or four digits: the days of that month. *)
Lemma lastDayOfPreviousMonth_calendar (y m : Z) :
  (100 <= y <= 9999)%Z -> (1 <= m <= 12)%Z ->
  lastDayOfPreviousMonth y m = Some (daysOfMonth y (m - 1)).
Proof.
  intros Hy Hm. unfold lastDayOfPreviousMonth.
  replace ((0 <=? y) && (y <=? 99))%Z with false
    by (symmetry; apply andb_false_iff; right; apply Z.leb_gt; lia).
  assert (Hday : forall yy mm, (100 <= yy <= 10000)%Z -> (0 <= mm <= 11)%Z ->
                   (Z.abs (dayFromYear yy + daysBeforeMonth yy mm - 1) <=? 100000000)%Z = true).
  { intros yy mm Hyy Hmm. apply Z.leb_le.
    pose proof (daysBeforeMonth_range yy mm Hmm). unfold dayFromYear.
    Z.div_mod_to_equations. lia. }
  destruct (decide (m = 12%Z)) as [->|Hne].
  - change (12 / 12)%Z with 1%Z. change (12 mod 12)%Z with 0%Z.
    rewrite Hday by lia. reflexivity.
  - rewrite (Z.div_small m 12), (Z.mod_small m 12) by lia.
    rewrite Z.add_0_r, Hday by lia.
    replace (m =? 0)%Z with false by (symmetry; apply Z.eqb_neq; lia). reflexivity.
Qed.

Lemma twoDigits_parse :
  forallb (fun d => bool_decide (parseInt (padStart2 (toString (N.of_nat d)))
                                 = Some (Z.of_nat d))
                    && bool_decide (length (padStart2 (toString (N.of_nat d))) = 2))
          (seq 1 31) = true.
Proof. vm_compute. reflexivity. Qed.

Lemma twoDigits_spec (d : Z) :
  (1 <= d <= 31)%Z ->
  parseInt (padStart2 (toString (Z.to_N d))) = Some d
  /\ length (padStart2 (toString (Z.to_N d))) = 2.
Proof.
  intros Hd. pose proof twoDigits_parse as H.
  rewrite forallb_forall in H. specialize (H (Z.to_nat d)).
  rewrite andb_true_iff, !bool_decide_eq_true in H.
  replace (N.of_nat (Z.to_nat d)) with (Z.to_N d) in H by lia.
  replace (Z.of_nat (Z.to_nat d)) with d in H by lia.
  apply H, in_seq. lia.
Qed.

Lemma value_assign_option (el : Element) (options : list jsstring) (v : jsstring) :
  v ∈ options -> value (assign (replaceOptions el options) v) = v.
Proof.
  intros Hin. unfold replaceOptions, assign. destruct el as [k w]. cbn [kind value].
  destruct k as [|old]; cbn [kind value]; [reflexivity|].
  rewrite bool_decide_eq_true_2; [reflexivity|]. by apply list_elem_of_further.
Qed.

(** X6. For a month 1..12 of a year of three or four digits,
    [updateBirthDaysAndRestore] offers one option per calendar day of that
    month (28 to 31, 29 for February of a leap year), written with two
    digits, and a saved day written that way and within the month is the
    value of the day field afterwards. *)
Theorem birthDay_within_month_restored
    (st : State) (birthMonth birthDay birthYear : Element) (m y d : Z) :
  document st !! "birth-month"%string = Some birthMonth ->
  document st !! "birth-day"%string = Some birthDay ->
  document st !! "birth-year"%string = Some birthYear ->
  parseInt (value birthMonth) = Some m -> (1 <= m <= 12)%Z ->
  parseInt (value birthYear) = Some y -> (100 <= y <= 9999)%Z ->
  (1 <= d <= daysOfMonth y (m - 1))%Z ->
  savedFormState st !! "birth-day"%string = Some (padStart2 (toString (Z.to_N d))) ->
  let days := daysOfMonth y (m - 1) in
  let st' := updateBirthDaysAndRestore st in
  (28 <= days <= 31)%Z
  /\ (days = 29%Z <-> m = 2%Z /\ isLeapYear y = true)
  /\ (forall birthDay', document st' !! "birth-day"%string = Some birthDay' ->
        kind birthDay = TextInput \/
        kind birthDay'
        = Select ([] :: map (fun k => padStart2 (toString (N.of_nat k)))
                            (seq 1 (Z.to_nat days))))
  /\ fieldValue st' "birth-day"%string = Some (padStart2 (toString (Z.to_N d))).
Proof.
  intros Hbm Hbd Hby Hm Hmr Hy Hyr Hd Hsaved days st'.
  pose proof (daysOfMonth_range y (m - 1)) as Hrange. fold days in Hrange, Hd.
  assert (Hlast : lastDayOfPreviousMonth y m = Some days)
    by by apply lastDayOfPreviousMonth_calendar.
  destruct (twoDigits_spec d) as [Hparse Hlen]; [lia|].
  set (savedDay := padStart2 (toString (Z.to_N d))) in *.
  assert (Hin : savedDay ∈ dayOptions (Some days)).
  { unfold dayOptions. apply list_elem_of_In, in_map_iff.
    exists (Z.to_nat d). split.
    - subst savedDay. do 2 f_equal. lia.
    - apply in_seq. lia. }
  assert (Htruthy : truthy savedDay = true).
  { destruct savedDay; [discriminate Hlen|reflexivity]. }
  assert (Hst' : st' = mkState (savedFormState st)
                         (<["birth-day"%string :=
                              assign (replaceOptions birthDay (dayOptions (Some days)))
                                     savedDay]> (document st))
                         (effects st) (timers st) (currentYear st)).
  { subst st'. unfold updateBirthDaysAndRestore.
    rewrite Hbm, Hbd, Hby, Hm, Hy.
    assert (Hmt : truthyNumber (Some m) = true)
      by (cbn; apply negb_true_iff, Z.eqb_neq; lia).
    assert (Hyt : truthyNumber (Some y) = true)
      by (cbn; apply negb_true_iff, Z.eqb_neq; lia).
    rewrite Hmt, Hyt, Hlast, Hsaved, Htruthy, Hparse. cbn [numLe andb].
    replace (d <=? days)%Z with true by (symmetry; apply Z.leb_le; lia).
    reflexivity. }
  split; [exact Hrange|]. split; [|split].
  - subst days. unfold daysOfMonth.
    destruct (m - 1 =? 1)%Z eqn:E.
    + apply Z.eqb_eq in E. destruct (isLeapYear y); split; try lia; try tauto.
    + apply Z.eqb_neq in E.
      destruct ((m - 1 =? 3) || (m - 1 =? 5) || (m - 1 =? 8) || (m - 1 =? 10))%Z;
        split; lia.
  - intros birthDay'. rewrite Hst'. cbn [document]. rewrite lookup_insert_eq.
    intros [= <-]. rewrite FormProtectorClaims.kind_assign.
    unfold replaceOptions. destruct (kind birthDay); [by left|right]. reflexivity.
  - unfold fieldValue. rewrite Hst'. cbn [document]. rewrite lookup_insert_eq.
    cbn [fmap option_fmap option_map]. f_equal. by apply value_assign_option.
Qed.

Lemma birthDay_within_month_restored_witness :
  fieldValue (updateBirthDaysAndRestore (mkState leapDay leapForm [] [] 2026))
             "birth-day"%string
  = Some (str "29").
Proof.
  apply (birthDay_within_month_restored (mkState leapDay leapForm [] [] 2026)
           (mkElement (Select [[]; str "02"; str "04"]) (str "02"))
           (mkElement (Select [[]]) [])
           (mkElement (Select [[]; str "2023"; str "2024"]) (str "2024"))
           2 2024 29);
    first [reflexivity | vm_compute; intuition discriminate].
Defined.

End FormProtectorMore.

(* ===================================================================== *)
(** * Further properties of js/utils.js                                 *)
(* ===================================================================== *)
Module UtilsMoreFacts.
Import Js JsText Runtime Utils UtilsSpec UtilsFacts UtilsMore UtilsMoreSpec.
Import StrategySpec.

(** ** Password strength *)

(** X7. [checkPasswordStrength] rates a password "strong" exactly when it
    has at least 12 characters and a lowercase letter, an uppercase
    letter, a digit and a symbol; a password of fewer than 8 characters is
    never rated above "fair"; the score is at most 6; and the empty
    password scores 0, is "weak" and gets the one advice to enter a
    password. *)
Theorem checkPasswordStrength_levels (p : jsstring) :
  (level (checkPasswordStrength p) = strong
   <-> 12 <= length p /\ forall c, meets c p = true)
  /\ (length p < 8 ->
      level (checkPasswordStrength p) = weak \/ level (checkPasswordStrength p) = fair)
  /\ score (checkPasswordStrength p) <= 6
  /\ checkPasswordStrength [] = mkStrength 0 weak [FbEnterPassword].
Proof.
  rewrite level_spec, score_sum.
  split; [|split; [|split; [|reflexivity]]].
  - split.
    + intros Hstrong.
      assert (Hall : meets LengthAtLeast8 p = true /\ (12 <=? length p) = true
                     /\ meets HasLower p = true /\ meets HasUpper p = true
                     /\ meets HasDigit p = true /\ meets HasSymbol p = true).
      { destruct (meets LengthAtLeast8 p), (12 <=? length p), (meets HasLower p),
          (meets HasUpper p), (meets HasDigit p), (meets HasSymbol p);
          try discriminate Hstrong; by repeat split. }
      destruct Hall as (H8 & H12 & Hl & Hu & Hd & Hs).
      split; [by apply Nat.leb_le|]. by intros [].
    + intros [H12 Hall]. apply Nat.leb_le in H12.
      by rewrite H12, !Hall.
  - intros Hshort.
    assert (H8 : meets LengthAtLeast8 p = false) by (cbn [meets]; apply Nat.leb_gt; lia).
    assert (H12 : (12 <=? length p) = false) by (apply Nat.leb_gt; lia).
    rewrite H8, H12.
    destruct (meets HasLower p), (meets HasUpper p), (meets HasDigit p),
      (meets HasSymbol p); cbn; auto.
  - destruct (meets LengthAtLeast8 p), (12 <=? length p), (meets HasLower p),
      (meets HasUpper p), (meets HasDigit p), (meets HasSymbol p); cbn; lia.
Qed.

Lemma checkPasswordStrength_levels_witness :
  level (checkPasswordStrength (str "Abcdefgh1234!")) = strong.
Proof.
  apply (proj1 (checkPasswordStrength_levels (str "Abcdefgh1234!"))).
  split; [vm_compute; lia|]. intros []; reflexivity.
Defined.

Lemma feedback_credit t m r :
  feedback (credit t m r) = feedback r ++ (if t then [] else m).
Proof. destruct t; cbn; by rewrite ?app_nil_r. Qed.

(** X8. For a non-empty password the feedback of [checkPasswordStrength]
    is one advice for each of the five criteria that is not met, in the
    order length, lowercase, uppercase, digit, symbol; nothing is said
    about the bonus for 12 characters, so score and advices add up to 5,
    or to 6 with that bonus. *)
Theorem feedback_lists_unmet (p : jsstring) :
  feedback (checkPasswordStrength p)
  = (if truthy p
     then flat_map (fun c => if meets c p then [] else [advice c]) criteria
     else [FbEnterPassword])
  /\ (truthy p = true ->
      score (checkPasswordStrength p) + length (feedback (checkPasswordStrength p))
      = 5 + b2n (12 <=? length p)).
Proof.
  assert (Hfb : feedback (checkPasswordStrength p)
                = if truthy p
                  then flat_map (fun c => if meets c p then [] else [advice c]) criteria
                  else [FbEnterPassword]).
  { unfold checkPasswordStrength. destruct p as [|c p]; [reflexivity|].
    cbn [truthy negb feedback]. rewrite !feedback_credit. cbn [feedback].
    unfold criteria. cbn [flat_map meets advice].
    generalize (8 <=? length (c :: p)), (12 <=? length (c :: p)),
      (existsb isLower (c :: p)), (existsb isUpper (c :: p)),
      (existsb isDigit (c :: p)),
      (existsb (fun c => negb (isLower c || isUpper c || isDigit c)) (c :: p)).
    by intros [] [] [] [] [] []. }
  split; [exact Hfb|].
  intros Ht. rewrite Hfb, Ht, score_sum. unfold criteria. cbn [flat_map].
  generalize (meets LengthAtLeast8 p), (12 <=? length p), (meets HasLower p),
    (meets HasUpper p), (meets HasDigit p), (meets HasSymbol p).
  by intros [] [] [] [] [] [].
Qed.

Lemma feedback_lists_unmet_witness :
  score (checkPasswordStrength (str "abc")) + length (feedback (checkPasswordStrength (str "abc")))
  = 5.
Proof.
  apply (proj2 (feedback_lists_unmet (str "abc"))). reflexivity.
Defined.

(** ** Regular expressions *)

Lemma nullable_spec (r : RegExp) : nullable r = true <-> Matches r [].
Proof.
  induction r as [| |class|r IHr s IHs|r IHr s IHs|r IHr]; cbn [nullable].
  - split; [discriminate|]. intros H. inversion H.
  - split; [constructor|reflexivity].
  - split; [discriminate|]. intros H. inversion H.
  - rewrite andb_true_iff, IHr, IHs. split.
    + intros [Hr Hs]. by apply (MatchesThen r s [] []).
    + intros H. inversion H as [| |? ? u v Hu Hv| | | |]; subst.
      match goal with E : _ ++ _ = [] |- _ => apply app_eq_nil in E as [-> ->] end.
      by split.
  - rewrite orb_true_iff, IHr, IHs. split.
    + intros [H|H]; [by apply MatchesLeft|by apply MatchesRight].
    + intros H. inversion H; subst; [by left|by right].
  - split; [constructor|reflexivity].
Qed.

Lemma Matches_many_cons (r : RegExp) (c : N) (s : jsstring) :
  Matches (Many r) (c :: s) ->
  exists u v, s = u ++ v /\ Matches r (c :: u) /\ Matches (Many r) v.
Proof.
  intros H. remember (Many r) as m eqn:Hm. remember (c :: s) as cs eqn:Hcs.
  revert s Hcs. induction H as [| | | | | |r' u v Hu _ Hv IHv]; intros s' Hcs; try discriminate.
  injection Hm as ->. destruct u as [|c' u].
  - cbn in Hcs. by apply IHv.
  - cbn in Hcs. injection Hcs as -> <-. by exists u, v.
Qed.

Lemma derivative_spec (r : RegExp) (c : N) (s : jsstring) :
  Matches (derivative c r) s <-> Matches r (c :: s).
Proof.
  revert s. induction r as [| |class|r IHr t IHt|r IHr t IHt|r IHr]; intros s;
    cbn [derivative].
  - split; intros H; inversion H.
  - split; intros H; inversion H.
  - destruct (class c) eqn:Hc; split; intros H; inversion H; subst.
    + by constructor.
    + constructor.
    + congruence.
  - assert (Hthen : Matches (Then (derivative c r) t) s ->
                    Matches (Then r t) (c :: s)).
    { intros H. inversion H as [| |? ? u v Hu Hv| | | |]; subst.
      apply IHr in Hu. by apply (MatchesThen r t (c :: u) v). }
    assert (Hback : Matches (Then r t) (c :: s) ->
                    Matches (Then (derivative c r) t) s
                    \/ (Matches r [] /\ Matches (derivative c t) s)).
    { intros H. inversion H as [| |? ? u v Hu Hv| | | |]; subst.
      match goal with E : _ ++ _ = _ :: _ |- _ => rename E into Heq end.
      destruct u as [|c' u].
      - cbn in Heq. subst v. right. split; [exact Hu|by apply IHt].
      - cbn in Heq. injection Heq as -> <-. left.
        apply MatchesThen; [by apply IHr|exact Hv]. }
    destruct (nullable r) eqn:Hn.
    + split.
      * intros H. inversion H; subst; [by apply Hthen|].
        apply (MatchesThen r t [] (c :: s)); [by apply nullable_spec|by apply IHt].
      * intros H. destruct (Hback H) as [Hl|[_ Hr]];
          [by apply MatchesLeft|by apply MatchesRight].
    + split; [exact Hthen|].
      intros H. destruct (Hback H) as [Hl|[Hr _]]; [exact Hl|].
      apply nullable_spec in Hr. congruence.
  - split.
    + intros H. inversion H; subst;
        [apply MatchesLeft; by apply IHr|apply MatchesRight; by apply IHt].
    + intros H. inversion H; subst;
        [apply MatchesLeft; by apply IHr|apply MatchesRight; by apply IHt].
  - split.
    + intros H. inversion H as [| |? ? u v Hu Hv| | | |]; subst.
      apply IHr in Hu. by apply (MatchesMore r (c :: u) v).
    + intros H. destruct (Matches_many_cons r c s H) as (u & v & -> & Hu & Hv).
      apply MatchesThen; [by apply IHr|exact Hv].
Qed.

Lemma matchesWhole_spec (r : RegExp) (s : jsstring) :
  matchesWhole r s = true <-> Matches r s.
Proof.
  unfold matchesWhole. revert r. induction s as [|c s IH]; intros r; cbn [fold_left].
  - apply nullable_spec.
  - rewrite IH. apply derivative_spec.
Qed.

Lemma Matches_many_chars (class : N -> bool) (s : jsstring) :
  Matches (Many (Chars class)) s <-> forallb class s = true.
Proof.
  split.
  - intros H. remember (Many (Chars class)) as m eqn:Hm.
    induction H as [| | | | | |r u v Hu _ Hv IHv]; try discriminate; [reflexivity|].
    injection Hm as ->. inversion Hu; subst. cbn. rewrite andb_true_iff. auto.
  - induction s as [|c s IH]; cbn [forallb]; [constructor|].
    rewrite andb_true_iff. intros [Hc Hs].
    apply (MatchesMore _ [c] s); [by constructor|by apply IH].
Qed.

Lemma Matches_oneOrMore_chars (class : N -> bool) (s : jsstring) :
  Matches (OneOrMore (Chars class)) s <-> s <> [] /\ forallb class s = true.
Proof.
  unfold OneOrMore. split.
  - intros H. inversion H as [| |? ? u v Hu Hv| | | |]; subst.
    inversion Hu; subst. apply Matches_many_chars in Hv.
    split; [discriminate|]. cbn. by rewrite Hv, andb_true_r.
  - intros [Hne Hall]. destruct s as [|c s]; [done|].
    cbn in Hall. apply andb_true_iff in Hall as [Hc Hs].
    apply (MatchesThen _ _ [c] s); [by constructor|by apply Matches_many_chars].
Qed.

Lemma Matches_then_char (c : N) (r : RegExp) (s : jsstring) :
  Matches (Then (Chars (N.eqb c)) r) s <-> exists v, s = c :: v /\ Matches r v.
Proof.
  split.
  - intros H. inversion H as [| |? ? u v Hu Hv| | | |]; subst.
    inversion Hu as [|? c' Hc| | | | |]; subst. apply N.eqb_eq in Hc as <-.
    by exists v.
  - intros (v & -> & Hv). apply (MatchesThen _ _ [c] v); [|exact Hv].
    constructor. apply N.eqb_refl.
Qed.

Lemma Matches_then (r t : RegExp) (s : jsstring) :
  Matches (Then r t) s <-> exists u v, s = u ++ v /\ Matches r u /\ Matches t v.
Proof.
  split.
  - intros H. inversion H; subst. eauto.
  - intros (u & v & -> & Hu & Hv). by constructor.
Qed.

Lemma notSpaceOrAt_spec (l : jsstring) :
  forallb notSpaceOrAt l = true ->
  existsb isWhiteSpace l = false /\ List.filter (N.eqb 64) l = [].
Proof.
  induction l as [|c l IH]; cbn [forallb existsb List.filter]; [done|].
  rewrite andb_true_iff. intros [Hc Hl]. destruct (IH Hl) as [-> ->].
  unfold notSpaceOrAt in Hc. apply negb_true_iff, orb_false_iff in Hc as [-> Hat].
  rewrite N.eqb_sym, Hat. done.
Qed.

(** X14. [validateEmail] accepts exactly the strings made of a non-empty
    local part, an [@], and a domain holding a dot with at least one
    character on either side of it, where no part holds white space or a
    further [@]; so an accepted address has no white space at all and
    exactly one [@]. *)
Theorem validateEmail_shape (email : jsstring) :
  (validateEmail email = true <->
   exists localPart domain top,
     email = localPart ++ 64%N :: domain ++ 46%N :: top
     /\ localPart <> [] /\ domain <> [] /\ top <> []
     /\ forallb notSpaceOrAt (localPart ++ domain ++ top) = true)
  /\ (validateEmail email = true ->
      existsb isWhiteSpace email = false
      /\ length (List.filter (N.eqb 64) email) = 1).
Proof.
  assert (Hshape : validateEmail email = true <->
            exists localPart domain top,
              email = localPart ++ 64%N :: domain ++ 46%N :: top
              /\ localPart <> [] /\ domain <> [] /\ top <> []
              /\ forallb notSpaceOrAt (localPart ++ domain ++ top) = true).
  { unfold validateEmail, emailRegex. rewrite matchesWhole_spec, Matches_then. split.
    - intros (a & rest & -> & Ha & Hrest).
      apply Matches_oneOrMore_chars in Ha as [Hane Ha].
      apply Matches_then_char in Hrest as (rest' & -> & Hrest).
      apply Matches_then in Hrest as (b & rest & -> & Hb & Hrest).
      apply Matches_oneOrMore_chars in Hb as [Hbne Hb].
      apply Matches_then_char in Hrest as (c & -> & Hc).
      apply Matches_oneOrMore_chars in Hc as [Hcne Hc].
      exists a, b, c. repeat split; try done.
      rewrite !forallb_app, Ha, Hb, Hc. reflexivity.
    - intros (a & b & c & -> & Hane & Hbne & Hcne & Hall).
      rewrite !forallb_app, !andb_true_iff in Hall. destruct Hall as (Ha & Hb & Hc).
      exists a, (64%N :: b ++ 46%N :: c). split; [reflexivity|].
      split; [by apply Matches_oneOrMore_chars|].
      apply Matches_then_char. exists (b ++ 46%N :: c). split; [reflexivity|].
      apply Matches_then. exists b, (46%N :: c). split; [reflexivity|].
      split; [by apply Matches_oneOrMore_chars|].
      apply Matches_then_char. exists c. split; [reflexivity|].
      by apply Matches_oneOrMore_chars. }
  split; [exact Hshape|].
  intros Hok. apply Hshape in Hok as (a & b & c & -> & _ & _ & _ & Hall).
  rewrite !forallb_app, !andb_true_iff in Hall. destruct Hall as (Ha & Hb & Hc).
  destruct (notSpaceOrAt_spec a Ha) as [Hwa Hfa].
  destruct (notSpaceOrAt_spec b Hb) as [Hwb Hfb].
  destruct (notSpaceOrAt_spec c Hc) as [Hwc Hfc].
  split.
  - rewrite existsb_app. cbn [existsb]. rewrite existsb_app. cbn [existsb].
    by rewrite Hwa, Hwb, Hwc.
  - rewrite List.filter_app. cbn [List.filter]. rewrite List.filter_app. cbn [List.filter].
    change (64 =? 64)%N with true. change (64 =? 46)%N with false. cbn iota.
    by rewrite Hfa, Hfb, Hfc.
Qed.

Lemma validateEmail_shape_witness :
  validateEmail (str "alex@outlook.com") = true
  /\ length (List.filter (N.eqb 64) (str "alex@outlook.com")) = 1.
Proof.
  assert (Hok : validateEmail (str "alex@outlook.com") = true).
  { apply (proj1 (validateEmail_shape (str "alex@outlook.com"))).
    exists (str "alex"), (str "outlook"), (str "com").
    repeat split; try discriminate; vm_compute; reflexivity. }
  split; [exact Hok|].
  apply (proj2 (validateEmail_shape (str "alex@outlook.com")) Hok).
Defined.

(** ** Trimming *)

Lemma trimStart_app_space (pre s : jsstring) :
  forallb isWhiteSpace pre = true -> trimStart (pre ++ s) = trimStart s.
Proof.
  induction pre as [|c pre IH]; cbn [forallb app trimStart]; [done|].
  rewrite andb_true_iff. intros [-> Hpre]. by apply IH.
Qed.

Lemma trimStart_all_space (s : jsstring) :
  forallb isWhiteSpace s = true -> trimStart s = [].
Proof.
  intros H. rewrite <- (app_nil_r s). by rewrite trimStart_app_space.
Qed.

Lemma trimStart_app_r (s post : jsstring) :
  forallb isWhiteSpace s = false -> trimStart (s ++ post) = trimStart s ++ post.
Proof.
  induction s as [|c s IH]; cbn [forallb app trimStart]; [discriminate|].
  destruct (isWhiteSpace c); [exact IH|reflexivity].
Qed.

Lemma forallb_reverse {A} (f : A -> bool) (l : list A) : forallb f (rev l) = forallb f l.
Proof.
  induction l as [|a l IH]; [reflexivity|].
  cbn [rev forallb]. rewrite forallb_app, IH. cbn [forallb].
  rewrite andb_true_r. apply andb_comm.
Qed.

Lemma trimEnd_app_space (s post : jsstring) :
  forallb isWhiteSpace post = true -> trimEnd (s ++ post) = trimEnd s.
Proof.
  intros Hpost. unfold trimEnd. rewrite rev_app_distr, trimStart_app_space; [done|].
  by rewrite forallb_reverse.
Qed.

Lemma trim_padding (pre s post : jsstring) :
  forallb isWhiteSpace pre = true -> forallb isWhiteSpace post = true ->
  trim (pre ++ s ++ post) = trim s.
Proof.
  intros Hpre Hpost. unfold trim. rewrite trimStart_app_space by done.
  destruct (forallb isWhiteSpace s) eqn:Hs.
  - rewrite !trimStart_all_space; [done|done|].
    by rewrite forallb_app, Hs, Hpost.
  - rewrite trimStart_app_r by done. by apply trimEnd_app_space.
Qed.

(** X15. [validateText] measures the text without the white space around
    it: padding a non-empty text with white space on either side does not
    change the verdict. The empty string is rejected whatever the bounds,
    while a non-empty string of white space counts as a text of length 0,
    which a minimum of 0 accepts. *)
Theorem validateText_padding (minLength maxLength : Z) :
  (forall pre text post : jsstring,
      forallb isWhiteSpace pre = true -> forallb isWhiteSpace post = true ->
      text <> [] ->
      validateText (pre ++ text ++ post) minLength maxLength
      = validateText text minLength maxLength)
  /\ validateText [] minLength maxLength = false
  /\ (forall spaces : jsstring,
         spaces <> [] -> forallb isWhiteSpace spaces = true ->
         validateText spaces minLength maxLength
         = (minLength <=? 0)%Z && (0 <=? maxLength)%Z).
Proof.
  split; [|split; [reflexivity|]].
  - intros pre text post Hpre Hpost Hne. unfold validateText.
    rewrite trim_padding by done.
    destruct text as [|c text]; [done|]. by destruct pre.
  - intros spaces Hne Hall. unfold validateText.
    destruct spaces as [|c spaces]; [done|]. cbn [truthy negb].
    unfold trim. by rewrite (trimStart_all_space (c :: spaces)).
Qed.

Lemma validateText_padding_witness :
  validateText (str "  Alex ") 1 100 = validateText (str "Alex") 1 100
  /\ validateText (str " ") 0 100 = true.
Proof.
  split.
  - apply (proj1 (validateText_padding 1 100) (str "  ") (str "Alex") (str " "));
      [reflexivity|reflexivity|discriminate].
  - rewrite (proj2 (proj2 (validateText_padding 0 100)) (str " "));
      [reflexivity|discriminate|reflexivity].
Defined.

(** ** Retrying *)

Lemma sleeps_snoc (t : list Event) (e : Event) :
  sleeps (t ++ [e]) = sleeps t ++ match e with Sleep ms => [ms] | _ => [] end.
Proof. rewrite StrategyFacts.sleeps_app. cbn. by destruct e; rewrite ?app_nil_r. Qed.

Lemma retryLoop_alwaysFails {A} (fn : M A) (n : nat) (delayMs : Z) (remaining : nat) :
  alwaysFails fn ->
  forall (i : nat) (wi : World),
    i + remaining = n -> 0 < remaining ->
    exists e w',
      retryLoop fn n delayMs remaining i wi = (Thrown e, w')
      /\ sleeps (trace w')
         = sleeps (trace wi)
           ++ map (fun j => (delayMs * Z.of_nat j)%Z) (seq (i + 1) (remaining - 1))
      /\ ((0 <= delayMs)%Z ->
          (2 * (clock w' - clock wi)
           = delayMs * (Z.of_nat n * (Z.of_nat n - 1) - Z.of_nat i * (Z.of_nat i + 1)))%Z).
Proof.
  intros Hfails. induction remaining as [|remaining IH]; intros i wi Hn Hpos; [lia|].
  cbn [retryLoop]. unfold tryCatch, bind at 1.
  destruct (Hfails wi) as (e & w1 & -> & Hclock & Hsleeps).
  destruct (decide (remaining = 0)) as [->|Hne].
  - replace (i =? n - 1) with true by (symmetry; apply Nat.eqb_eq; lia).
    exists e, w1. split; [reflexivity|]. cbn [seq map Nat.sub].
    split; [by rewrite app_nil_r|]. intros _. rewrite Hclock. nia.
  - replace (i =? n - 1) with false by (symmetry; apply Nat.eqb_neq; lia).
    unfold bind, emit, delay, withTrace.
    cbn [random draws clock trace uiManager stats currentFormData fst snd].
    match goal with
    | |- context [retryLoop fn n delayMs remaining (i + 1) ?wn] =>
        destruct (IH (i + 1) wn) as (e' & w' & Hrun & Hs & Hc); [lia|lia|]
    end.
    exists e', w'. split; [exact Hrun|]. cbn [trace clock] in Hs, Hc. split.
    + rewrite Hs, !sleeps_snoc, app_nil_r, Hsleeps, <- app_assoc.
      replace (S remaining - 1) with (S (remaining - 1)) by lia.
      cbn [seq map app]. do 3 f_equal; [lia|]. by replace (S (i + 1)) with (i + 1 + 1) by lia.
    + intros Hd. specialize (Hc Hd). rewrite Hclock in Hc. nia.
Qed.

(** X16. [retry] with [maxRetries] 0 never calls the operation and
    resolves with [undefined]; an operation that succeeds at its first call
    is called once, and nothing is logged or waited for; and an operation
    that fails at every call is given up after [maxRetries] calls, with
    the waits [delay], 2 x [delay], ... between them and none after the
    last, [delay] x [maxRetries] x ([maxRetries] - 1) / 2 in all. *)
Theorem retry_schedule {A} (fn : M A) (maxRetries : nat) (delayMs : Z) (w : World) :
  retry fn 0 delayMs w = (Returned None, w)
  /\ (forall a w1, 0 < maxRetries -> fn w = (Returned a, w1) ->
                   retry fn maxRetries delayMs w = (Returned (Some a), w1))
  /\ (alwaysFails fn -> 0 < maxRetries ->
      exists e w',
        retry fn maxRetries delayMs w = (Thrown e, w')
        /\ sleeps (trace w') = sleeps (trace w) ++ backoff delayMs maxRetries
        /\ ((0 <= delayMs)%Z ->
            (2 * (clock w' - clock w)
             = delayMs * (Z.of_nat maxRetries * (Z.of_nat maxRetries - 1)))%Z)).
Proof.
  split; [reflexivity|]. split.
  - intros a w1 Hpos Hfn. unfold retry. destruct maxRetries as [|n]; [lia|].
    cbn [retryLoop]. unfold tryCatch, bind. by rewrite Hfn.
  - intros Hfails Hpos.
    destruct (retryLoop_alwaysFails fn maxRetries delayMs maxRetries Hfails 0 w)
      as (e & w' & Hrun & Hs & Hc); [lia|lia|].
    exists e, w'. split; [exact Hrun|]. split; [exact Hs|].
    intros Hd. rewrite (Hc Hd). lia.
Qed.

Lemma retry_schedule_witness :
  exists e w',
    retry (throw (A := unit) TypeError) 5 2000 (freshWorld oneHalf) = (Thrown e, w')
    /\ sleeps (trace w') = [2000; 4000; 6000; 8000]%Z
    /\ clock w' = 20000%Z.
Proof.
  destruct (proj2 (proj2 (retry_schedule (throw (A := unit) TypeError) 5 2000
                            (freshWorld oneHalf))))
    as (e & w' & Hrun & Hs & Hc).
  - intros w0. by exists TypeError, w0.
  - lia.
  - exists e, w'. split; [exact Hrun|]. split; [exact Hs|].
    specialize (Hc ltac:(lia)). cbn in Hc. lia.
Defined.

(** ** Random data *)

Lemma drawn_0 (w : World) : drawn 0 w = w.
Proof. destruct w. unfold drawn. cbn. by rewrite Nat.add_0_r. Qed.

Lemma drawn_add (a b : nat) (w : World) : drawn b (drawn a w) = drawn (a + b) w.
Proof. unfold drawn. cbn. by rewrite Nat.add_assoc. Qed.

Lemma bind_returned {A B} (c : M A) (k : A -> M B) (w w' : World) (a : A) :
  c w = (Returned a, w') -> bind c k w = k a w'.
Proof. intros H. unfold bind. by rewrite H. Qed.

Lemma mathRandom_drawn (w : World) :
  mathRandom w = (Returned (random w (draws w)), drawn 1 w).
Proof. unfold mathRandom, drawn. by rewrite Nat.add_1_r. Qed.

Lemma randomBelow_drawn (n : Z) (w : World) :
  randomBelow n w = (Returned (Qfloor (random w (draws w) * inject_Z n)), drawn 1 w).
Proof. unfold randomBelow. by rewrite (bind_returned _ _ _ _ _ (mathRandom_drawn w)). Qed.

Lemma randomBelow_drawn_range (n : Z) (w : World) :
  unitInterval (random w) -> (0 < n)%Z ->
  exists i, (0 <= i < n)%Z /\ randomBelow n w = (Returned i, drawn 1 w).
Proof.
  intros Hvalid Hn. eexists. split; [|apply randomBelow_drawn].
  destruct (Hvalid (draws w)). by apply StrategyFacts.randomBelow_range.
Qed.

Lemma pick_drawn (table : list jsstring) (w : World) :
  unitInterval (random w) -> 0 < length table ->
  exists s, In s table /\ pick table w = (Returned (Some s), drawn 1 w).
Proof.
  intros Hvalid Hlen.
  destruct (randomBelow_drawn_range (Z.of_nat (length table)) w Hvalid) as (i & Hi & Hrun);
    [lia|].
  destruct (lookup_lt_is_Some_2 table (Z.to_nat i)) as [s Hs]; [lia|].
  exists s. split; [by eapply list_elem_of_In, list_elem_of_lookup_2|].
  unfold pick. rewrite (bind_returned _ _ _ _ _ Hrun). unfold ret.
  replace (i <? 0)%Z with false by (symmetry; apply Z.ltb_ge; lia). by rewrite Hs.
Qed.

(** A loop whose body draws [cost a] numbers and does nothing else. *)
Lemma mapM_drawn {A B} (f : A -> M B) (P : A -> B -> Prop) (cost : A -> nat)
      (l : list A) (w : World) :
  (forall a w0, random w0 = random w ->
                exists b, P a b /\ f a w0 = (Returned b, drawn (cost a) w0)) ->
  exists bs, Forall2 P l bs
             /\ mapM f l w = (Returned bs, drawn (list_sum (map cost l)) w).
Proof.
  intros Hf. assert (Hw : random w = random w) by reflexivity.
  revert Hw. generalize w at 1 3 4 as w0.
  induction l as [|a l IH]; intros w0 Hw.
  - exists []. split; [constructor|]. cbn. by rewrite drawn_0.
  - destruct (Hf a w0 Hw) as (b & Hb & Hrun).
    destruct (IH (drawn (cost a) w0)) as (bs & Hbs & Hruns); [exact Hw|].
    exists (b :: bs). split; [by constructor|].
    cbn [mapM map list_sum].
    rewrite (bind_returned _ _ _ _ _ Hrun), (bind_returned _ _ _ _ _ Hruns).
    unfold ret. by rewrite drawn_add.
Qed.

Lemma hexDigits_check :
  forallb (fun r => isHexDigit (hexDigit r)
                    && uuidChar 121 (hexDigit (Z.lor (Z.land r 3) 8)))
          (map Z.of_nat (seq 0 16)) = true.
Proof. vm_compute. reflexivity. Qed.

Lemma hexDigit_spec (r : Z) :
  (0 <= r < 16)%Z ->
  isHexDigit (hexDigit r) = true
  /\ uuidChar 121 (hexDigit (Z.lor (Z.land r 3) 8)) = true.
Proof.
  intros Hr. pose proof hexDigits_check as H. rewrite forallb_forall in H.
  apply andb_true_iff, H, in_map_iff. exists (Z.to_nat r). split; [lia|].
  apply in_seq. lia.
Qed.

(** X9. [generateUUID] returns 36 characters in the layout of a version-4
    UUID: hyphens at positions 8, 13, 18 and 23, the digit 4 at position
    14, one of 8, 9, a, b at position 19 and a lowercase hexadecimal digit
    everywhere else; it calls [Math.random()] 31 times and does nothing
    else. *)
Theorem generateUUID_format (w : World) :
  unitInterval (random w) ->
  exists uuid,
    generateUUID w = (Returned uuid, drawn 31 w)
    /\ length uuid = 36
    /\ Forall2 (fun t c => uuidChar t c = true) uuidTemplate uuid
    /\ (forall i, In i [8; 13; 18; 23] -> uuid !! i = Some 45%N)
    /\ uuid !! 14 = Some 52%N
    /\ (exists c, uuid !! 19 = Some c /\ In c (str "89ab")).
Proof.
  intros Hvalid.
  destruct (mapM_drawn
              (fun c : N =>
                 if ((c =? 120) || (c =? 121))%N then
                   bind (randomBelow 16)
                        (fun r => ret (hexDigit (if (c =? 120)%N then r
                                                 else Z.lor (Z.land r 3) 8)))
                 else ret c)
              (fun t c => uuidChar t c = true)
              (fun c => if ((c =? 120) || (c =? 121))%N then 1 else 0)
              uuidTemplate w) as (uuid & Hall & Hrun).
  { intros t w0 Hw0. unfold uuidChar.
    destruct (t =? 120)%N eqn:Ex; [|destruct (t =? 121)%N eqn:Ey]; cbn [orb].
    - destruct (randomBelow_drawn_range 16 w0) as (r & Hr & Hrun);
        [by rewrite Hw0|lia|].
      exists (hexDigit r). split; [by apply hexDigit_spec|].
      by rewrite (bind_returned _ _ _ _ _ Hrun).
    - destruct (randomBelow_drawn_range 16 w0) as (r & Hr & Hrun);
        [by rewrite Hw0|lia|].
      exists (hexDigit (Z.lor (Z.land r 3) 8)). split.
      + destruct (hexDigit_spec r Hr) as [_ Hy]. exact Hy.
      + by rewrite (bind_returned _ _ _ _ _ Hrun).
    - exists t. split; [apply N.eqb_refl|]. unfold ret. by rewrite drawn_0. }
  assert (Hcost : list_sum (map (fun c => if ((c =? 120) || (c =? 121))%N then 1 else 0)
                                uuidTemplate) = 31) by (vm_compute; reflexivity).
  rewrite Hcost in Hrun.
  exists uuid. split; [exact Hrun|].
  assert (Hlen36 : length uuidTemplate = 36) by (vm_compute; reflexivity).
  assert (Hlen : length uuid = 36).
  { rewrite <- (Forall2_length _ _ _ Hall). exact Hlen36. }
  assert (Hat : forall i t, uuidTemplate !! i = Some t ->
                            exists c, uuid !! i = Some c /\ uuidChar t c = true).
  { intros i t Ht. destruct (Forall2_lookup_l _ _ _ _ _ Hall Ht) as (c & Hc & Hok).
    exists c. split; assumption. }
  split; [exact Hlen|]. split; [exact Hall|]. split; [|split].
  - intros i Hi. cbn in Hi.
    assert (Ht : uuidTemplate !! i = Some 45%N)
      by (destruct Hi as [<-|[<-|[<-|[<-|[]]]]]; vm_compute; reflexivity).
    destruct (Hat i _ Ht) as (c & Hc & Hok). rewrite Hc. f_equal.
    by apply N.eqb_eq in Hok.
  - assert (Ht : uuidTemplate !! 14 = Some 52%N) by (vm_compute; reflexivity).
    destruct (Hat 14 52%N Ht) as (c & Hc & Hok). rewrite Hc. f_equal.
    by apply N.eqb_eq in Hok.
  - assert (Ht : uuidTemplate !! 19 = Some 121%N) by (vm_compute; reflexivity).
    destruct (Hat 19 121%N Ht) as (c & Hc & Hok). exists c. split; [exact Hc|].
    change (((c =? 56) || (c =? 57) || (c =? 97) || (c =? 98))%N = true) in Hok.
    rewrite !orb_true_iff, !N.eqb_eq in Hok.
    change (In c [56; 57; 97; 98]%N). cbn [In]. intuition.
Qed.

Lemma generateUUID_format_witness :
  exists uuid, generateUUID (freshWorld oneHalf) = (Returned uuid, drawn 31 (freshWorld oneHalf))
               /\ length uuid = 36.
Proof.
  destruct (generateUUID_format (freshWorld oneHalf)) as (uuid & Hrun & Hlen & _).
  - intros n. unfold oneHalf, Qle, Qlt. cbn. lia.
  - exists uuid. split; assumption.
Defined.

Lemma charset_check :
  forallb (fun c => isLower c || isDigit c) (str "abcdefghijklmnopqrstuvwxyz0123456789")
  = true.
Proof. vm_compute. reflexivity. Qed.

Lemma concat_singletons {A} (P : A -> Prop) (l : list nat) (chars : list (list A)) :
  Forall2 (fun _ cs => exists c, cs = [c] /\ P c) l chars ->
  length (concat chars) = length l /\ Forall P (concat chars).
Proof.
  induction 1 as [|i cs l chars (c & -> & Hc) _ [IHlen IHall]]; [by split|].
  cbn. split; [by rewrite IHlen|by constructor].
Qed.

Lemma list_sum_ones (k n : nat) : list_sum (map (fun _ : nat => 1) (seq k n)) = n.
Proof.
  revert k. induction n as [|n IH]; intros k; [reflexivity|].
  cbn. by rewrite IH.
Qed.

(** X10. [generateRandomString(n)] with the default character set
    returns exactly [n] characters, each a lowercase letter or a digit; it
    calls [Math.random()] [n] times and does nothing else. *)
Theorem generateRandomString_charset (len : nat) (w : World) :
  unitInterval (random w) ->
  exists s,
    generateRandomString len w = (Returned s, drawn len w)
    /\ length s = len
    /\ Forall (fun c => isLower c || isDigit c = true) s.
Proof.
  intros Hvalid. unfold generateRandomString.
  set (charset := str "abcdefghijklmnopqrstuvwxyz0123456789").
  destruct (mapM_drawn
              (fun _ : nat =>
                 bind (randomBelow (Z.of_nat (length charset)))
                      (fun i => ret (if (i <? 0)%Z then []
                                     else option_list (charset !! Z.to_nat i))))
              (fun _ cs => exists c, cs = [c] /\ isLower c || isDigit c = true)
              (fun _ => 1) (seq 0 len) w) as (chars & Hall & Hrun).
  { intros _ w0 Hw0.
    destruct (randomBelow_drawn_range (Z.of_nat (length charset)) w0) as (i & Hi & Hrun);
      [by rewrite Hw0|subst charset; cbn; lia|].
    destruct (lookup_lt_is_Some_2 charset (Z.to_nat i)) as [c Hc]; [lia|].
    exists [c]. split.
    - exists c. split; [reflexivity|].
      pose proof charset_check as Hcheck. rewrite forallb_forall in Hcheck.
      apply Hcheck. eapply list_elem_of_In, list_elem_of_lookup_2, Hc.
    - rewrite (bind_returned _ _ _ _ _ Hrun). unfold ret.
      replace (i <? 0)%Z with false by (symmetry; apply Z.ltb_ge; lia).
      by rewrite Hc. }
  destruct (concat_singletons _ _ _ Hall) as [Hlen Hchars].
  exists (concat chars). rewrite (bind_returned _ _ _ _ _ Hrun). unfold ret.
  rewrite list_sum_ones, length_seq in *. by repeat split.
Qed.

Lemma generateRandomString_charset_witness :
  exists s, generateRandomString 16 (freshWorld oneHalf)
            = (Returned s, drawn 16 (freshWorld oneHalf))
            /\ length s = 16.
Proof.
  destruct (generateRandomString_charset 16 (freshWorld oneHalf)) as (s & Hrun & Hlen & _).
  - intros n. unfold oneHalf, Qle, Qlt. cbn. lia.
  - exists s. split; assumption.
Defined.

(** X11. [getRandomIP] returns four decimal numbers between 0 and 255
    separated by dots, drawn in that order. *)
Theorem getRandomIP_octets (w : World) :
  unitInterval (random w) ->
  exists a b c d,
    Forall (fun n => (0 <= n <= 255)%Z) [a; b; c; d]
    /\ getRandomIP w
       = (Returned (numberToString a ++ str "." ++ numberToString b ++ str "."
                    ++ numberToString c ++ str "." ++ numberToString d),
          drawn 4 w).
Proof.
  intros Hvalid. unfold getRandomIP.
  destruct (mapM_drawn (fun _ : nat => randomBelow 256)
              (fun _ n => (0 <= n <= 255)%Z) (fun _ => 1) (seq 0 4) w)
    as (parts & Hall & Hrun).
  { intros _ w0 Hw0.
    destruct (randomBelow_drawn_range 256 w0) as (i & Hi & Hrun);
      [by rewrite Hw0|lia|].
    exists i. split; [lia|exact Hrun]. }
  rewrite (bind_returned _ _ _ _ _ Hrun). unfold ret.
  cbn [seq] in Hall.
  inversion Hall as [|? a ? l1 Ha H1]; subst.
  inversion H1 as [|? b ? l2 Hb H2]; subst.
  inversion H2 as [|? c ? l3 Hc H3]; subst.
  inversion H3 as [|? d ? l4 Hd H4]; subst.
  inversion H4; subst.
  exists a, b, c, d. split; [|reflexivity].
  repeat (apply List.Forall_cons; [assumption|]). apply List.Forall_nil.
Qed.

Lemma getRandomIP_octets_witness :
  exists a b c d,
    Forall (fun n => (0 <= n <= 255)%Z) [a; b; c; d]
    /\ getRandomIP (freshWorld oneHalf)
       = (Returned (numberToString a ++ str "." ++ numberToString b ++ str "."
                    ++ numberToString c ++ str "." ++ numberToString d),
          drawn 4 (freshWorld oneHalf)).
Proof.
  apply (getRandomIP_octets (freshWorld oneHalf)).
  intros n. unfold oneHalf, Qle, Qlt. cbn. lia.
Defined.

(** X12. [generateRandomBirth(minAge, maxAge)] returns a date of the
    calendar whose year lies between [maxAge] and [minAge] years before the
    current one: the month is 1..12 and the day at most the day count of
    that month in that year, both written with two digits. *)
Theorem generateRandomBirth_valid (currentYear minAge maxAge : Z) (w : World) :
  unitInterval (random w) ->
  (minAge <= maxAge)%Z ->
  (100 <= currentYear - maxAge)%Z -> (currentYear - minAge <= 9999)%Z ->
  exists y m d,
    generateRandomBirth currentYear minAge maxAge w
    = (Returned (Birth.make (numberToString y) (padStart2 (numberToString m))
                            (padStart2 (numberToString d))),
       drawn 3 w)
    /\ (currentYear - maxAge <= y <= currentYear - minAge)%Z
    /\ (1 <= m <= 12)%Z
    /\ (1 <= d <= daysOfMonth y (m - 1))%Z.
Proof.
  intros Hvalid Hages Hlo Hhi. unfold generateRandomBirth.
  destruct (randomBelow_drawn_range (maxAge - minAge + 1) w Hvalid) as (age & Hage & Hrun1);
    [lia|].
  destruct (randomBelow_drawn_range 12 (drawn 1 w) Hvalid) as (month & Hmonth & Hrun2);
    [lia|].
  set (y := (currentYear - age - minAge)%Z).
  set (m := (month + 1)%Z).
  assert (Hdays : lastDayOfPreviousMonth y m = Some (daysOfMonth y (m - 1))).
  { apply FormProtectorMore.lastDayOfPreviousMonth_calendar; subst y m; lia. }
  pose proof (FormProtectorMore.daysOfMonth_range y (m - 1)) as Hrange.
  destruct (Hvalid (draws (drawn 1 (drawn 1 w)))) as [H0 H1].
  destruct (StrategyFacts.randomBelow_range _ (daysOfMonth y (m - 1)) H0 H1) as [Hd0 Hd1];
    [lia|].
  eexists y, m, _. split; [|split; [subst y; lia|split; [subst m; lia|]]].
  - rewrite (bind_returned _ _ _ _ _ Hrun1). fold y.
    rewrite (bind_returned _ _ _ _ _ Hrun2). fold m.
    rewrite (bind_returned _ _ _ _ _ (mathRandom_drawn _)).
    rewrite Hdays. unfold ret. rewrite !drawn_add. reflexivity.
  - rewrite !drawn_add in Hd0, Hd1. cbn [random drawn] in *. lia.
Qed.

Lemma generateRandomBirth_valid_witness :
  exists y m d,
    fst (generateRandomBirth 2026 18 65 (freshWorld oneHalf))
    = Returned (Birth.make (numberToString y) (padStart2 (numberToString m))
                           (padStart2 (numberToString d)))
    /\ (1961 <= y <= 2008)%Z /\ (1 <= m <= 12)%Z /\ (1 <= d <= 31)%Z.
Proof.
  destruct (generateRandomBirth_valid 2026 18 65 (freshWorld oneHalf))
    as (y & m & d & Hrun & Hy & Hm & Hd).
  - intros n. unfold oneHalf, Qle, Qlt. cbn. lia.
  - lia.
  - lia.
  - lia.
  - exists y, m, d. rewrite Hrun. split; [reflexivity|].
    pose proof (FormProtectorMore.daysOfMonth_range y (m - 1)). lia.
Defined.

(** X13. [generateRandomEmail] ends the name with the decimal digits of a
    number from 0 to 9998, drawn first: after the given prefix when there
    is one, and otherwise after one of the ten adjectives followed by one
    of the ten nouns, drawn in that order. *)
Theorem generateRandomEmail_shape (prefix : jsstring) (w : World) :
  unitInterval (random w) ->
  exists numbers,
    (0 <= numbers <= 9998)%Z
    /\ (prefix <> [] ->
        generateRandomEmail prefix w
        = (Returned (prefix ++ numberToString numbers), drawn 1 w))
    /\ (prefix = [] ->
        exists adjective noun,
          In adjective adjectives /\ In noun nouns
          /\ generateRandomEmail prefix w
             = (Returned (adjective ++ noun ++ numberToString numbers), drawn 3 w)).
Proof.
  intros Hvalid. unfold generateRandomEmail.
  destruct (randomBelow_drawn_range 9999 w Hvalid) as (numbers & Hn & Hrun); [lia|].
  exists numbers. split; [lia|]. split.
  - intros Hne. rewrite (bind_returned _ _ _ _ _ Hrun). by destruct prefix.
  - intros ->. rewrite (bind_returned _ _ _ _ _ Hrun). cbn [truthy].
    destruct (pick_drawn adjectives (drawn 1 w) Hvalid) as (adjective & Ha & Hrun1);
      [cbn; lia|].
    destruct (pick_drawn nouns (drawn 1 (drawn 1 w)) Hvalid) as (noun & Hb & Hrun2);
      [cbn; lia|].
    exists adjective, noun. split; [exact Ha|]. split; [exact Hb|].
    rewrite (bind_returned _ _ _ _ _ Hrun1), (bind_returned _ _ _ _ _ Hrun2).
    unfold ret. by rewrite !drawn_add.
Qed.

Lemma generateRandomEmail_shape_witness :
  exists numbers,
    (0 <= numbers <= 9998)%Z
    /\ fst (generateRandomEmail (str "alex") (freshWorld oneHalf))
       = Returned (str "alex" ++ numberToString numbers).
Proof.
  destruct (generateRandomEmail_shape (str "alex") (freshWorld oneHalf))
    as (numbers & Hn & Hprefix & _).
  - intros n. unfold oneHalf, Qle, Qlt. cbn. lia.
  - exists numbers. split; [exact Hn|]. rewrite Hprefix; [reflexivity|discriminate].
Defined.

End UtilsMoreFacts.

(* ===================================================================== *)
(** * Further properties of the registration strategies module          *)
(* ===================================================================== *)
Module StrategyMoreFacts.
Import Js JsText Runtime Utils UtilsMore RegistrationStrategies StrategySpec.
Import UtilsMoreSpec RegistrationStrategiesMore StrategyMoreSpec.
Import StrategyFacts UtilsMoreFacts.
Local Open Scope js_scope.

(** ** Computations that leave the statistics alone *)

Lemma keepsStats_ret {A} (a : A) : keepsStats (ret a).
Proof. by intros w. Qed.

Lemma keepsStats_throw {A} (e : JsError) : keepsStats (throw (A := A) e).
Proof. by intros w. Qed.

Lemma keepsStats_bind {A B} (c : M A) (k : A -> M B) :
  keepsStats c -> (forall a, keepsStats (k a)) -> keepsStats (bind c k).
Proof.
  intros Hc Hk w. unfold bind. specialize (Hc w).
  destruct (c w) as [[a|e] w1]; cbn [fst snd] in *; [|exact Hc].
  by rewrite Hk.
Qed.

Lemma keepsStats_tryCatch {A} (body : M A) (handler : JsError -> M A) :
  keepsStats body -> (forall e, keepsStats (handler e)) ->
  keepsStats (tryCatch body handler).
Proof.
  intros Hc Hk w. unfold tryCatch. specialize (Hc w).
  destruct (body w) as [[a|e] w1]; cbn [fst snd] in *; [exact Hc|].
  by rewrite Hk.
Qed.

Lemma keepsStats_emit (e : Event) : keepsStats (emit e).
Proof. by intros w. Qed.

Lemma keepsStats_logStrategy (m : LogMessage) : keepsStats (logStrategy m).
Proof. by intros w. Qed.

Lemma keepsStats_ui (events : list Event) : keepsStats (ui events).
Proof. intros w. unfold ui. cbn. by destruct (uiManager w). Qed.

Lemma keepsStats_mathRandom : keepsStats mathRandom.
Proof. by intros w. Qed.

Lemma keepsStats_now : keepsStats now.
Proof. by intros w. Qed.

Lemma keepsStats_randomBelow (n : Z) : keepsStats (randomBelow n).
Proof. by intros w. Qed.

Lemma keepsStats_delay (ms : Z) : keepsStats (delay ms).
Proof. by intros w. Qed.

Lemma keepsStats_randomDelay (min max : Z) : keepsStats (randomDelay min max).
Proof. by intros w. Qed.

Lemma keepsStats_pick (table : list jsstring) : keepsStats (pick table).
Proof. by intros w. Qed.

Lemma keepsStats_mapM {A B} (f : A -> M B) (l : list A) :
  (forall a, keepsStats (f a)) -> keepsStats (mapM f l).
Proof.
  intros Hf. induction l as [|a l IH]; cbn [mapM]; [apply keepsStats_ret|].
  apply keepsStats_bind; [apply Hf|]. intros b.
  apply keepsStats_bind; [exact IH|]. intros bs. apply keepsStats_ret.
Qed.

Ltac keeps :=
  repeat match goal with
    | H : keepsStats ?c |- keepsStats ?d => constr_eq c d; exact H
    | |- keepsStats (ret _) => apply keepsStats_ret
    | |- keepsStats (throw _) => apply keepsStats_throw
    | |- keepsStats (emit _) => apply keepsStats_emit
    | |- keepsStats (logStrategy _) => apply keepsStats_logStrategy
    | |- keepsStats (ui _) => apply keepsStats_ui
    | |- keepsStats mathRandom => apply keepsStats_mathRandom
    | |- keepsStats now => apply keepsStats_now
    | |- keepsStats (randomBelow _) => apply keepsStats_randomBelow
    | |- keepsStats (delay _) => apply keepsStats_delay
    | |- keepsStats (randomDelay _ _) => apply keepsStats_randomDelay
    | |- keepsStats (pick _) => apply keepsStats_pick
    | |- keepsStats (mapM _ _) => apply keepsStats_mapM; intros ?
    | |- keepsStats (bind _ _) => apply keepsStats_bind; [|intros ?]
    | |- keepsStats (tryCatch _ _) => apply keepsStats_tryCatch; [|intros ?]
    | |- keepsStats (if ?b then _ else _) => destruct b
    | |- keepsStats (match ?x with _ => _ end) => destruct x
    end.

Lemma keepsStats_executeStepsFrom {V} (config : StrategyConfig) (updateUI : bool)
      (steps : list (Step V)) :
  Forall (fun step => forall input, keepsStats (action step input)) steps ->
  forall i result, keepsStats (executeStepsFrom config updateUI i result steps).
Proof.
  induction 1 as [|step steps Hstep _ IH]; intros i result; cbn [executeStepsFrom].
  - apply keepsStats_ret.
  - pose proof (Hstep result). keeps. apply IH.
Qed.

Lemma keepsStats_validateFormData (formData : FormData) :
  keepsStats (validateFormData formData).
Proof. unfold validateFormData. keeps. Qed.

Lemma keepsStats_generateUUID : keepsStats generateUUID.
Proof. unfold generateUUID. keeps. Qed.

Lemma keepsStats_generateRandomString (len : nat) : keepsStats (generateRandomString len).
Proof. unfold generateRandomString. keeps. Qed.

Lemma keepsStats_prepareRequest (formData : FormData) (config : StrategyConfig) :
  keepsStats (prepareRequest formData config).
Proof.
  unfold prepareRequest, getRandomUserAgent.
  pose proof keepsStats_generateUUID. pose proof (keepsStats_generateRandomString 16).
  keeps.
Qed.

Lemma keepsStats_prepareAggressiveRequest (formData : FormData) (config : StrategyConfig)
      (index : nat) :
  keepsStats (prepareAggressiveRequest formData config index).
Proof.
  unfold prepareAggressiveRequest, getRandomUserAgent.
  pose proof (keepsStats_prepareRequest formData config). keeps.
Qed.

Lemma keepsStats_submitRegistration (requestData : Request.t) (config : StrategyConfig) :
  keepsStats (submitRegistration requestData config).
Proof. unfold submitRegistration. keeps. Qed.

Lemma keepsStats_submitRegistrationAggressive (requestData : Request.t)
      (config : StrategyConfig) :
  keepsStats (submitRegistrationAggressive requestData config).
Proof. unfold submitRegistrationAggressive. keeps. Qed.

Lemma keepsStats_validateResponse (response : Response.t) :
  keepsStats (validateResponse response).
Proof. unfold validateResponse. keeps. Qed.

Lemma keepsStats_finalizeRegistration (data : Response.t) :
  keepsStats (finalizeRegistration data).
Proof.
  unfold finalizeRegistration.
  apply keepsStats_bind; [by intros w|]. intros password. keeps.
Qed.

Lemma keepsStats_quickValidate (formData : FormData) : keepsStats (quickValidate formData).
Proof. unfold quickValidate. keeps. Qed.

Lemma keepsStats_executeStandardStrategy (formData : FormData) (config : StrategyConfig) :
  keepsStats (executeStandardStrategy formData config).
Proof.
  unfold executeStandardStrategy, executeSteps.
  apply keepsStats_executeStepsFrom.
  repeat apply List.Forall_cons; try apply List.Forall_nil;
    intros input; cbn [action]; unfold onRequest, onResponse.
  - apply keepsStats_validateFormData.
  - pose proof (keepsStats_prepareRequest formData config). keeps.
  - destruct input as [[]|]; keeps.
    pose proof (keepsStats_submitRegistration r config). keeps.
  - destruct input as [[]|]; keeps.
    pose proof (keepsStats_validateResponse r). keeps.
  - destruct input as [[]|]; keeps.
    pose proof (keepsStats_finalizeRegistration r). keeps.
Qed.

Lemma keepsStats_promiseAny {A} (tasks : list (M A)) : keepsStats (promiseAny tasks).
Proof.
  intros w. unfold promiseAny.
  by destruct (firstFulfilled (settle tasks w)) as [[a t]|].
Qed.

Lemma keepsStats_generateDataVariants (formData : FormData) (count : nat) :
  keepsStats (generateDataVariants formData count).
Proof. unfold generateDataVariants, generateRandomName. keeps. Qed.

Lemma keepsStats_executeAggressiveStrategy (formData : FormData) (config : StrategyConfig) :
  keepsStats (executeAggressiveStrategy formData config).
Proof.
  unfold executeAggressiveStrategy.
  pose proof (keepsStats_generateDataVariants formData 3). keeps.
  apply keepsStats_promiseAny.
Qed.

(** ** The statistics kept by executeStrategy, whatever the outcome *)

Lemma getProperty_initializedFor (strategy : string) (perf : list (string * Counters)) :
  getProperty (initializedFor strategy perf) strategy <> Undefined.
Proof.
  unfold initializedFor. destruct (getProperty perf strategy) eqn:E; try by rewrite E.
  unfold getProperty in *. destruct (lookupOwn strategy perf) eqn:Eown; [discriminate|].
  by rewrite lookupOwn_createProperty_eq.
Qed.

Lemma getProperty_bumped (f : Counters -> Counters) (strategy : string)
      (perf : list (string * Counters)) :
  getProperty perf strategy <> Undefined ->
  getProperty (bumped f strategy perf) strategy <> Undefined.
Proof.
  unfold bumped. destruct (getProperty perf strategy) as [c| |] eqn:E; try by rewrite E.
  intros _. unfold getProperty in *.
  rewrite lookupOwn_updateOwn_eq.
  destruct (lookupOwn strategy perf); [done|]. by destruct (bool_decide _).
Qed.

Lemma bumpPerformance_defined (f : Counters -> Counters) (strategy : string) (w : World) :
  getProperty (strategyPerformance (stats w)) strategy <> Undefined ->
  exists w', bumpPerformance f strategy w = (Returned tt, w')
             /\ stats w' = mkStats (totals (stats w))
                                   (bumped f strategy (strategyPerformance (stats w)))
             /\ trace w' = trace w.
Proof.
  intros Hdef. unfold bumpPerformance, bumped.
  destruct (getProperty (strategyPerformance (stats w)) strategy); [| |done].
  - eexists. split; [reflexivity|]. by split.
  - exists w. split; [reflexivity|]. split; [|reflexivity]. by destruct (stats w).
Qed.

Lemma initializeStrategyStats_stats (strategy : string) (w : World) :
  exists w', initializeStrategyStats strategy w = (Returned tt, w')
             /\ stats w' = mkStats (totals (stats w))
                                   (initializedFor strategy (strategyPerformance (stats w)))
             /\ trace w' = trace w.
Proof.
  unfold initializeStrategyStats, initializedFor.
  destruct (getProperty (strategyPerformance (stats w)) strategy).
  - exists w. split; [reflexivity|]. split; [|reflexivity]. by destruct (stats w).
  - exists w. split; [reflexivity|]. split; [|reflexivity]. by destruct (stats w).
  - eexists. split; [reflexivity|]. by split.
Qed.

Lemma bind_thrown {A B} (c : M A) (k : A -> M B) (w w' : World) (e : JsError) :
  c w = (Thrown e, w') -> bind c k w = (Thrown e, w').
Proof. intros H. unfold bind. by rewrite H. Qed.

Lemma tryCatch_returned {A} (body : M A) (handler : JsError -> M A) (w w' : World) (a : A) :
  body w = (Returned a, w') -> tryCatch body handler w = (Returned a, w').
Proof. intros H. unfold tryCatch. by rewrite H. Qed.

Lemma tryCatch_thrown {A} (body : M A) (handler : JsError -> M A) (w w' : World)
      (e : JsError) :
  body w = (Thrown e, w') -> tryCatch body handler w = handler e w'.
Proof. intros H. unfold tryCatch. by rewrite H. Qed.

(** The frame of [executeStrategy] around any pipeline that leaves the
    statistics alone. *)
Lemma bookkeeping {A} (strategy cfgName : string) (body : M A) (w : World) :
  keepsStats body ->
  exists o w' w0,
    (bumpTotals countAttempt ;;
     initializeStrategyStats strategy ;;
     bumpPerformance countAttempt strategy ;;
     tryCatch
       (logStrategy (StrategyStarted cfgName) ;;
        let* result := body in
        bumpTotals countSuccess ;;
        bumpPerformance countSuccess strategy ;;
        logStrategy (StrategySucceeded cfgName) ;;
        ret result)
       (fun error =>
          bumpTotals countFailure ;;
          bumpPerformance countFailure strategy ;;
          logStrategy (StrategyFailed cfgName error) ;;
          throw error))%js w = (o, w')
    /\ stats w' = tally strategy (succeeded o) (stats w)
    /\ fst (body w0) = o.
Proof.
  intros Hbody.
  set (perf := strategyPerformance (stats w)).
  set (perf0 := initializedFor strategy perf).
  set (perf1 := bumped countAttempt strategy perf0).
  assert (Hdef1 : getProperty perf1 strategy <> Undefined)
    by apply getProperty_bumped, getProperty_initializedFor.
  set (wa := withStats w (mkStats (countAttempt (totals (stats w)))
                                   (strategyPerformance (stats w)))).
  assert (Ea : bumpTotals countAttempt w = (Returned tt, wa)) by reflexivity.
  destruct (initializeStrategyStats_stats strategy wa) as (wb & Eb & Hsb & _).
  destruct (bumpPerformance_defined countAttempt strategy wb) as (wc & Ec & Hsc & _).
  { rewrite Hsb. cbn [strategyPerformance]. apply getProperty_initializedFor. }
  assert (Hstats_c : stats wc = mkStats (countAttempt (totals (stats w))) perf1).
  { rewrite Hsc, Hsb. reflexivity. }
  set (wd := withTrace wc (trace wc ++ [Log (StrategyStarted cfgName)])).
  assert (Ed : logStrategy (StrategyStarted cfgName) wc = (Returned tt, wd)) by reflexivity.
  pose proof (Hbody wd) as Hkeep.
  destruct (body wd) as [[a|e] we] eqn:Erun; cbn [snd] in Hkeep.
  - set (wf := withStats we (mkStats (countSuccess (totals (stats we)))
                                     (strategyPerformance (stats we)))).
    assert (Ef : bumpTotals countSuccess we = (Returned tt, wf)) by reflexivity.
    destruct (bumpPerformance_defined countSuccess strategy wf) as (wg & Eg & Hsg & _).
    { subst wf. cbn [stats withStats strategyPerformance].
      rewrite Hkeep. change (stats wd) with (stats wc). rewrite Hstats_c. exact Hdef1. }
    exists (Returned a), (withTrace wg (trace wg ++ [Log (StrategySucceeded cfgName)])), wd.
    split; [|split; [|by rewrite Erun]].
    + rewrite (bind_returned _ _ _ _ _ Ea), (bind_returned _ _ _ _ _ Eb),
        (bind_returned _ _ _ _ _ Ec).
      apply tryCatch_returned.
      rewrite (bind_returned _ _ _ _ _ Ed), (bind_returned _ _ _ _ _ Erun),
        (bind_returned _ _ _ _ _ Ef), (bind_returned _ _ _ _ _ Eg).
      reflexivity.
    + cbn [stats withTrace succeeded]. rewrite Hsg. subst wf.
      cbn [stats withStats totals strategyPerformance].
      rewrite Hkeep. change (stats wd) with (stats wc). rewrite Hstats_c. reflexivity.
  - set (wf := withStats we (mkStats (countFailure (totals (stats we)))
                                     (strategyPerformance (stats we)))).
    assert (Ef : bumpTotals countFailure we = (Returned tt, wf)) by reflexivity.
    destruct (bumpPerformance_defined countFailure strategy wf) as (wg & Eg & Hsg & _).
    { subst wf. cbn [stats withStats strategyPerformance].
      rewrite Hkeep. change (stats wd) with (stats wc). rewrite Hstats_c. exact Hdef1. }
    exists (Thrown e), (withTrace wg (trace wg ++ [Log (StrategyFailed cfgName e)])), wd.
    split; [|split; [|by rewrite Erun]].
    + rewrite (bind_returned _ _ _ _ _ Ea), (bind_returned _ _ _ _ _ Eb),
        (bind_returned _ _ _ _ _ Ec).
      erewrite tryCatch_thrown.
      2:{ rewrite (bind_returned _ _ _ _ _ Ed). apply bind_thrown. exact Erun. }
      rewrite (bind_returned _ _ _ _ _ Ef), (bind_returned _ _ _ _ _ Eg).
      reflexivity.
    + cbn [stats withTrace succeeded]. rewrite Hsg. subst wf.
      cbn [stats withStats totals strategyPerformance].
      rewrite Hkeep. change (stats wd) with (stats wc). rewrite Hstats_c. reflexivity.
Qed.

Lemma lookupOwn_bumped_ne (f : Counters -> Counters) (strategy other : string)
      (perf : list (string * Counters)) :
  other <> strategy -> lookupOwn other (bumped f strategy perf) = lookupOwn other perf.
Proof.
  intros Hne. unfold bumped. destruct (getProperty perf strategy); try reflexivity.
  by apply lookupOwn_updateOwn_ne.
Qed.

Lemma lookupOwn_initializedFor_ne (strategy other : string)
      (perf : list (string * Counters)) :
  other <> strategy ->
  lookupOwn other (initializedFor strategy perf) = lookupOwn other perf.
Proof.
  intros Hne. unfold initializedFor. destruct (getProperty perf strategy); try reflexivity.
  by apply lookupOwn_createProperty_ne.
Qed.

Lemma lookupOwn_initializedFor (strategy : string) (perf : list (string * Counters)) :
  strategy ∉ objectPrototypeKeys ->
  lookupOwn strategy (initializedFor strategy perf)
  = Some (default zero (lookupOwn strategy perf)).
Proof.
  intros Hproto. unfold initializedFor, getProperty.
  destruct (lookupOwn strategy perf) as [c|] eqn:E; [exact E|].
  rewrite bool_decide_eq_false_2 by done. by apply lookupOwn_createProperty_eq.
Qed.

Lemma lookupOwn_bumped (f : Counters -> Counters) (strategy : string)
      (perf : list (string * Counters)) (c : Counters) :
  lookupOwn strategy perf = Some c ->
  lookupOwn strategy (bumped f strategy perf) = Some (f c).
Proof.
  intros Hown. unfold bumped. rewrite (getProperty_own _ _ _ Hown).
  by rewrite lookupOwn_updateOwn_eq, Hown.
Qed.

Section Bookkeeping.
Variable executeSmartStrategy : FormData -> StrategyConfig -> M (option StepValue).
Hypothesis smartKeepsStats : forall formData config,
    keepsStats (executeSmartStrategy formData config).

Lemma keepsStats_dispatch (formData : FormData) (strategy : string) :
  keepsStats
    (if String.eqb strategy "standard"
     then withConfig (getStrategy strategy) (executeStandardStrategy formData)
     else if String.eqb strategy "smart"
     then withConfig (getStrategy strategy) (executeSmartStrategy formData)
     else if String.eqb strategy "aggressive"
     then withConfig (getStrategy strategy) (executeAggressiveStrategy formData)
     else throw (UnknownStrategy strategy)).
Proof.
  unfold withConfig.
  destruct (String.eqb strategy "standard").
  { destruct (getStrategy strategy);
      [apply keepsStats_executeStandardStrategy|apply keepsStats_throw]. }
  destruct (String.eqb strategy "smart").
  { destruct (getStrategy strategy); [apply smartKeepsStats|apply keepsStats_throw]. }
  destruct (String.eqb strategy "aggressive").
  { destruct (getStrategy strategy);
      [apply keepsStats_executeAggressiveStrategy|apply keepsStats_throw]. }
  apply keepsStats_throw.
Qed.

Lemma executeStrategy_tally (formData : FormData) (strategy : string) (w : World) :
  let r := executeStrategy executeSmartStrategy formData strategy w in
  stats (snd r) = tally strategy (succeeded (fst r)) (stats w)
  /\ (succeeded (fst r) = true -> isKnown strategy = true).
Proof.
  cbn zeta.
  destruct (bookkeeping strategy (configName (getStrategy strategy)) _ w
              (keepsStats_dispatch formData strategy)) as (o & w' & w0 & Hrun & Hstats & Hbody).
  change (executeStrategy executeSmartStrategy formData strategy w = (o, w')) in Hrun.
  rewrite Hrun. cbn [fst snd]. split; [exact Hstats|].
  rewrite <- Hbody. unfold isKnown.
  destruct (String.eqb strategy "standard"); [done|].
  destruct (String.eqb strategy "smart"); [done|].
  destruct (String.eqb strategy "aggressive"); [done|]. discriminate.
Qed.

(** X17. Whatever the strategy name, the form data and the outcome, a
    call of [executeStrategy] counts exactly one attempt and exactly one
    of success (when it resolves) and failure (when it rejects) in the
    global counters; it does the same in the bucket of the name, created
    at zero if need be, unless the name is a member inherited from
    [Object.prototype]; and it leaves every other bucket as it was. (The
    smart pipeline is assumed not to touch the statistics itself.) *)
Theorem executeStrategy_bookkeeping (formData : FormData) (strategy : string) (w : World) :
  let r := executeStrategy executeSmartStrategy formData strategy w in
  let count := countOutcome (succeeded (fst r)) in
  let perf := strategyPerformance (stats w) in
  let perf' := strategyPerformance (stats (snd r)) in
  totals (stats (snd r)) = count (countAttempt (totals (stats w)))
  /\ (strategy ∉ objectPrototypeKeys ->
      lookupOwn strategy perf'
      = Some (count (countAttempt (default zero (lookupOwn strategy perf)))))
  /\ (forall other, other <> strategy -> lookupOwn other perf' = lookupOwn other perf).
Proof.
  cbn zeta. destruct (executeStrategy_tally formData strategy w) as [-> _].
  unfold tally. cbn [totals strategyPerformance].
  split; [reflexivity|]. split.
  - intros Hproto.
    erewrite lookupOwn_bumped; [reflexivity|].
    erewrite lookupOwn_bumped; [reflexivity|].
    by apply lookupOwn_initializedFor.
  - intros other Hne.
    by rewrite !lookupOwn_bumped_ne, lookupOwn_initializedFor_ne.
Qed.

End Bookkeeping.

Lemma keepsStats_noSmartStrategy (formData : FormData) (config : StrategyConfig) :
  keepsStats (noSmartStrategy formData config).
Proof. apply keepsStats_throw. Qed.

Lemma executeStrategy_bookkeeping_witness :
  lookupOwn "turbo" (strategyPerformance
                       (stats (snd (executeStrategy noSmartStrategy alex "turbo"
                                                    (freshWorld oneHalf)))))
  = Some (mkCounters 1 0 1).
Proof.
  rewrite (proj1 (proj2 (executeStrategy_bookkeeping noSmartStrategy
                           keepsStats_noSmartStrategy alex "turbo" (freshWorld oneHalf)))).
  - reflexivity.
  - apply (bool_decide_unpack _). vm_compute. exact I.
Defined.

End StrategyMoreFacts.

(* ===================================================================== *)
(** * The pipelines, the statistics and the registration flow           *)
(* ===================================================================== *)
Module PipelineFacts.
Import Js JsText Runtime Utils UtilsMore RegistrationStrategies StrategySpec.
Import UtilsMoreSpec RegistrationStrategiesMore StrategyMoreSpec PipelineSpec.
Import UtilsFacts StrategyFacts UtilsMoreFacts StrategyMoreFacts.
Import OutlookRegistration.
Local Open Scope js_scope.

(** ** validateFormData *)

Lemma filter_nil_inv {A} (f : A -> bool) (l : list A) :
  List.filter f l = [] -> forall a, In a l -> f a = false.
Proof.
  induction l as [|b l IH]; intros Hnil a Ha; [destruct Ha|].
  cbn in Hnil. destruct (f b) eqn:E; [discriminate|].
  destruct Ha as [<-|Ha]; [exact E|by apply IH].
Qed.

Lemma level_weak (p : jsstring) :
  level (checkPasswordStrength p) = weak <-> score (checkPasswordStrength p) <= 2.
Proof.
  rewrite level_spec. unfold levelOf.
  destruct (score (checkPasswordStrength p) <=? 2) eqn:E2.
  - apply Nat.leb_le in E2. tauto.
  - apply Nat.leb_gt in E2. split; [|lia].
    destruct (score (checkPasswordStrength p) <=? 4);
      [discriminate|destruct (score (checkPasswordStrength p) <=? 5); discriminate].
Qed.

Lemma validateFormData_cases (formData : FormData) (w : World) :
  (acceptable formData
   /\ validateFormData formData w = (Returned (Validation true (Some formData)), w))
  \/ (~ acceptable formData /\ exists e, validateFormData formData w = (Thrown e, w)).
Proof.
  unfold validateFormData.
  destruct (List.filter _ required) as [|field missing] eqn:Emissing.
  2:{ right. split; [|eexists; reflexivity].
      intros (Hreq & _).
      assert (Hin : In field (List.filter
                                (fun field => negb (truthyProp (formData !! field)))
                                required)) by (rewrite Emissing; by left).
      apply filter_In in Hin as [Hin Hfalsy]. rewrite (Hreq _ Hin) in Hfalsy.
      discriminate. }
  pose proof (filter_nil_inv _ _ Emissing) as Hreq.
  change (0 <? @length string []) with false. cbv iota.
  destruct (length (default [] (formData !! "desired-email"%string)) <? 3) eqn:Eemail.
  { right. split; [|eexists; reflexivity].
    intros (_ & Hemail & _). apply Nat.ltb_lt in Eemail. lia. }
  apply Nat.ltb_ge in Eemail.
  destruct (level (checkPasswordStrength (default [] (formData !! "password"%string))))
    eqn:Elevel.
  { right. split; [|eexists; reflexivity].
    intros (_ & _ & Hpw). apply level_weak in Elevel. lia. }
  all: left; split; [|reflexivity]; split; [|split; [exact Eemail|]].
  all: try (intros field Hin; specialize (Hreq field Hin); by apply negb_false_iff in Hreq).
  all: destruct (Nat.le_gt_cases (score (checkPasswordStrength
                                          (default [] (formData !! "password"%string)))) 2)
         as [Hle|Hgt]; [apply level_weak in Hle; congruence|lia].
Qed.

Lemma acceptable_insert (formData : FormData) (field : string) (value : jsstring) :
  ~ In field required ->
  acceptable (<[field := value]> formData) <-> acceptable formData.
Proof.
  intros Hfield. unfold acceptable.
  assert (Hother : forall key, In key required ->
                               <[field := value]> formData !! key = formData !! key).
  { intros key Hkey. apply lookup_insert_ne. intros ->. contradiction. }
  rewrite (Hother "desired-email"%string) by (cbn; tauto).
  rewrite (Hother "password"%string) by (cbn; tauto).
  split; intros (Hreq & Hrest); (split; [|exact Hrest]); intros key Hkey.
  - rewrite <- Hother by exact Hkey. by apply Hreq.
  - rewrite Hother by exact Hkey. by apply Hreq.
Qed.

(** X18. [validateFormData] accepts a form exactly when its five required
    fields are non-empty, the email name has at least 3 characters and the
    password scores at least 3; it then returns the form itself. It never
    changes anything, and its verdict does not depend on any other field
    (birth date, phone). *)
Theorem validateFormData_verdict (formData : FormData) (w : World) :
  snd (validateFormData formData w) = w
  /\ (acceptable formData
      <-> fst (validateFormData formData w) = Returned (Validation true (Some formData)))
  /\ (forall field value,
         ~ In field required ->
         succeeded (fst (validateFormData (<[field := value]> formData) w))
         = succeeded (fst (validateFormData formData w))).
Proof.
  split; [|split].
  - destruct (validateFormData_cases formData w) as [[_ ->]|[_ [e ->]]]; reflexivity.
  - destruct (validateFormData_cases formData w) as [[Hok ->]|[Hno [e ->]]]; cbn [fst].
    + tauto.
    + split; [tauto|discriminate].
  - intros field value Hfield.
    pose proof (acceptable_insert formData field value Hfield) as Hiff.
    destruct (validateFormData_cases formData w) as [[Hok ->]|[Hno [e ->]]];
      destruct (validateFormData_cases (<[field := value]> formData) w)
        as [[Hok' ->]|[Hno' [e' ->]]]; cbn [fst succeeded]; tauto.
Qed.

Lemma validateFormData_verdict_witness :
  succeeded (fst (validateFormData (<["phone"%string := str "5550100"]> alex)
                                   (freshWorld oneHalf)))
  = succeeded (fst (validateFormData alex (freshWorld oneHalf))).
Proof.
  apply (proj2 (proj2 (validateFormData_verdict alex (freshWorld oneHalf)))).
  cbn. intros H. repeat (destruct H as [H|H]; [discriminate H|]). exact H.
Defined.

(** ** The mocked submission *)

(** X19. [submitRegistration] takes between 2 and 5 seconds, logs the
    submission and draws three random numbers, whatever the outcome. When
    the second number is above 0.2 it resolves with a successful response
    for the email of the request, which [validateResponse] passes on
    unchanged; otherwise it rejects with one of the five listed errors. *)
Theorem submitRegistration_outcomes (requestData : Request.t) (config : StrategyConfig)
        (w : World) :
  unitInterval (random w) ->
  exists latency,
    (2000 <= latency <= 5000)%Z
    /\ snd (submitRegistration requestData config w) = submitted latency w
    /\ ((2 # 10 < random w (S (draws w)))%Q ->
        exists verificationRequired,
          let response :=
            Response.make true (Request.email requestData) (Some Registered)
                          verificationRequired in
          fst (submitRegistration requestData config w) = Returned response
          /\ forall w', fst (validateResponse response w') = Returned response)
    /\ ((random w (S (draws w)) <= 2 # 10)%Q ->
        exists reason,
          In reason submitErrors
          /\ fst (submitRegistration requestData config w)
             = Thrown (SubmissionFailed reason)).
Proof.
  intros Hvalid.
  destruct (Hvalid (draws w)) as [H0 H1].
  pose proof (randomMs_range _ 2000 5000 H0 H1 ltac:(lia)) as Hlatency.
  set (latency := (Qfloor (random w (draws w) * inject_Z (5000 - 2000 + 1)) + 2000)%Z) in *.
  assert (Hworld : mkWorld (random w) (S (S (S (draws w)))) (clock w + Z.max 0 latency)
                           ((trace w ++ [Log SubmittingRequest]) ++ [Sleep latency])
                           (uiManager w) (stats w) (currentFormData w)
                   = submitted latency w).
  { unfold submitted. rewrite <- app_assoc. clearbody latency. f_equal; try lia. }
  exists latency. split; [exact Hlatency|]. split; [|split].
  - destruct (Qle_bool (random w (S (draws w))) (2 # 10)) eqn:E.
    + rewrite (submitRegistration_fails requestData config w E). exact Hworld.
    + rewrite (submitRegistration_succeeds requestData config w); [exact Hworld|].
      apply Qgt_bool_iff. by rewrite E.
  - intros Hok. eexists. cbn zeta.
    rewrite (submitRegistration_succeeds requestData config w Hok). split; [reflexivity|].
    intros w'. unfold validateResponse. cbn [Response.success negb Response.verificationRequired].
    by destruct (negb _).
  - intros Hfail. apply Qle_bool_iff in Hfail.
    rewrite (submitRegistration_fails requestData config w Hfail). cbn zeta.
    destruct (Hvalid (S (S (draws w)))) as [H0' H1'].
    destruct (randomBelow_range _ (Z.of_nat (length submitErrors)) H0' H1') as [Hlo Hhi];
      [cbn; lia|].
    set (i := Qfloor (random w (S (S (draws w))) * _)) in *.
    replace (i <? 0)%Z with false by (symmetry; apply Z.ltb_ge; lia).
    destruct (lookup_lt_is_Some_2 submitErrors (Z.to_nat i)) as [reason Hreason]; [lia|].
    exists reason. rewrite Hreason. split; [|reflexivity].
    by eapply list_elem_of_In, list_elem_of_lookup_2.
Qed.

Lemma submitRegistration_outcomes_witness :
  exists latency,
    (2000 <= latency <= 5000)%Z
    /\ snd (submitRegistration someRequest standard (freshWorld oneHalf))
       = submitted latency (freshWorld oneHalf).
Proof.
  destruct (submitRegistration_outcomes someRequest standard (freshWorld oneHalf))
    as (latency & Hl & Hw & _).
  - intros n. unfold oneHalf, Qle, Qlt. cbn. lia.
  - exists latency. split; assumption.
Defined.

(** ** The aggressive strategy on a form without password *)

Section Passwords.
Variables (rnd : nat -> Q) (st : Stats) (cfd : option FormData) (uiflag : bool).

Lemma returns_mapM_all {A B} (f : A -> M B) (P : B -> Prop) (l : list A) :
  (forall a, returns rnd st cfd uiflag (f a) P) ->
  returns rnd st cfd uiflag (mapM f l) (fun bs => length bs = length l /\ Forall P bs).
Proof.
  intros Hf. induction l as [|a l IH]; cbn [mapM]; [by apply returns_ret|].
  eapply returns_bind; [apply Hf|]. intros b Hb.
  eapply returns_bind; [exact IH|]. intros bs [Hlen Hbs]. apply returns_ret.
  split; [cbn; by rewrite Hlen|by constructor].
Qed.

(** The variants keep the password of the form. *)
Lemma returns_variants_password (formData : FormData) (count : nat) :
  returns rnd st cfd uiflag (generateDataVariants formData count)
          (fun variants =>
             length variants = count
             /\ Forall (fun variant => variant !! "password"%string
                                       = formData !! "password"%string) variants).
Proof.
  unfold generateDataVariants.
  eapply returns_weaken;
    [apply (returns_mapM_all _ (fun variant => variant !! "password"%string
                                               = formData !! "password"%string))|].
  - intros i. cbn beta. eapply returns_bind; [apply returns_randomBelow|]. intros suffix _.
    destruct (0 <? i).
    + eapply returns_bind with (P := fun _ => True).
      * eapply returns_bind; [apply returns_pick|]. intros f _.
        eapply returns_bind; [apply returns_pick|]. intros l _. by apply returns_ret.
      * intros names _. apply returns_ret.
        rewrite lookup_insert_ne by discriminate.
        rewrite lookup_insert_ne by discriminate.
        by rewrite lookup_insert_ne by discriminate.
    + apply returns_ret. by rewrite lookup_insert_ne by discriminate.
  - cbn beta. intros variants [Hlen Hall]. by rewrite length_seq in Hlen.
Qed.

End Passwords.

Lemma attempt_missing (index : nat) (variant : FormData) (w : World) :
  truthyProp (variant !! "password"%string) = false ->
  attempt aggressive index variant w
  = (Thrown MissingKeyFields,
     withTrace w (trace w ++ [Log (AttemptStarted (index + 1));
                              Log (AttemptFailed (index + 1) MissingKeyFields)])).
Proof.
  intros Hpw. unfold attempt, executeSteps. cbn [executeStepsFrom action].
  unfold quickValidate. rewrite Hpw. cbn [negb]. rewrite orb_true_r.
  unfold tryCatch, bind, logStrategy, emit, throw, ret, withTrace.
  cbn [random draws clock trace uiManager stats currentFormData fst snd
       humanLikeDelay aggressive andb].
  by rewrite <- app_assoc.
Qed.

Lemma executeAggressiveStrategy_missing (formData : FormData) (w : World) :
  truthyProp (formData !! "password"%string) = false ->
  fst (executeAggressiveStrategy formData aggressive w)
  = Thrown (AggregateError [MissingKeyFields; MissingKeyFields; MissingKeyFields]).
Proof.
  intros Hpw. rewrite executeAggressiveStrategy_race.
  assert (Hret : returns (random w) (stats w) (currentFormData w) (uiManager w)
                   (logStrategy AggressiveStarted ;; generateDataVariants formData 3)%js
                   (fun variants =>
                      length variants = 3
                      /\ Forall (fun variant => variant !! "password"%string
                                                = formData !! "password"%string) variants)).
  { eapply returns_bind; [apply returns_emit|]. intros _ _.
    apply returns_variants_password. }
  destruct (Hret w (inFrame_self w)) as (variants & w2 & Hrun & _ & Hlen & Hall).
  rewrite Hrun.
  destruct variants as [|v0 [|v1 [|v2 [|]]]]; try discriminate Hlen.
  apply Forall_cons in Hall as [H0 Hall].
  apply Forall_cons in Hall as [H1 Hall].
  apply Forall_cons in Hall as [H2 _].
  unfold promiseAny, settle. cbn [imap length]. unfold compose. cbn beta.
  rewrite !attempt_missing by (rewrite ?H0, ?H1, ?H2; exact Hpw).
  reflexivity.
Qed.

(** X20. On a form without password every attempt of the aggressive
    strategy stops at its first check: the strategy rejects with an
    [AggregateError] holding the error of the three attempts, whatever the
    random numbers, and [executeStrategy] counts one failure for the one
    attempt. *)
Theorem aggressive_without_password
        (executeSmartStrategy : FormData -> StrategyConfig -> M (option StepValue))
        (formData : FormData) (w : World) :
  truthyProp (formData !! "password"%string) = false ->
  let rejected :=
    Thrown (AggregateError [MissingKeyFields; MissingKeyFields; MissingKeyFields]) in
  let r := executeStrategy executeSmartStrategy formData "aggressive" w in
  fst (executeAggressiveStrategy formData aggressive w) = rejected
  /\ fst r = rejected
  /\ totals (stats (snd r)) = countFailure (countAttempt (totals (stats w))).
Proof.
  intros Hpw. cbn zeta. split; [by apply executeAggressiveStrategy_missing|].
  rewrite executeStrategy_aggressive.
  destruct (bookkeeping "aggressive" (name aggressive)
              (executeAggressiveStrategy formData aggressive) w
              (keepsStats_executeAggressiveStrategy formData aggressive))
    as (o & w' & w0 & Hrun & Hstats & Hbody).
  rewrite Hrun. cbn [fst snd].
  rewrite (executeAggressiveStrategy_missing formData w0 Hpw) in Hbody. subst o.
  split; [reflexivity|]. rewrite Hstats. reflexivity.
Qed.

Lemma aggressive_without_password_witness :
  fst (executeStrategy noSmartStrategy emailOnly "aggressive" (freshWorld oneHalf))
  = Thrown (AggregateError [MissingKeyFields; MissingKeyFields; MissingKeyFields]).
Proof.
  apply (aggressive_without_password noSmartStrategy emailOnly (freshWorld oneHalf)).
  reflexivity.
Defined.

(** ** What the statistics can hold, and what is recommended from them *)

Lemma In_updateOwn (key : string) (f : Counters -> Counters)
      (o : list (string * Counters)) (n : string) (c : Counters) :
  In (n, c) (updateOwn key f o) ->
  In (n, c) o \/ (n = key /\ exists c0, In (n, c0) o /\ c = f c0).
Proof.
  induction o as [|[k a] o IH]; cbn [updateOwn]; [tauto|].
  destruct (String.eqb k key) eqn:E.
  - apply String.eqb_eq in E as ->. intros [[= <- <-]|Hin].
    + right. split; [reflexivity|]. exists a. split; [by left|reflexivity].
    + left. by right.
  - intros [Heq|Hin]; [left; by left|].
    destruct (IH Hin) as [Hold|(-> & c0 & Hc0 & ->)]; [left; by right|].
    right. split; [reflexivity|]. exists c0. split; [by right|reflexivity].
Qed.

Lemma In_createProperty (key : string) (a : Counters) (o : list (string * Counters))
      (n : string) (c : Counters) :
  In (n, c) (createProperty key a o) -> (n, c) = (key, a) \/ In (n, c) o.
Proof.
  induction o as [|[k b] o IH]; cbn [createProperty].
  - intros [<-|[]]. by left.
  - destruct (isArrayIndex key) as [i|], (isArrayIndex k) as [j|];
      try destruct (i <? j)%N; cbn [In]; intros [H|H]; auto;
      destruct (IH H); auto.
Qed.

Lemma honest_initializedFor (strategy : string) (perf : list (string * Counters)) :
  honest perf -> honest (initializedFor strategy perf).
Proof.
  intros Hperf. unfold initializedFor.
  destruct (getProperty perf strategy); try exact Hperf.
  intros n c Hin Hpos. apply In_createProperty in Hin as [[= -> ->]|Hin].
  - cbn in Hpos. lia.
  - by eapply Hperf.
Qed.

Lemma honest_bumped (f : Counters -> Counters) (strategy : string)
      (perf : list (string * Counters)) :
  (forall c, 0 < successes (f c) -> 0 < successes c \/ isKnown strategy = true) ->
  honest perf -> honest (bumped f strategy perf).
Proof.
  intros Hf Hperf. unfold bumped.
  destruct (getProperty perf strategy); try exact Hperf.
  intros n c Hin Hpos. apply In_updateOwn in Hin as [Hin|(-> & c0 & Hin & ->)].
  - by eapply Hperf.
  - destruct (Hf c0 Hpos) as [Hpos0|Hknown]; [by eapply Hperf|exact Hknown].
Qed.

Section Honest.
Variable executeSmartStrategy : FormData -> StrategyConfig -> M (option StepValue).
Hypothesis smartKeepsStats : forall formData config,
    keepsStats (executeSmartStrategy formData config).

Lemma honest_executeStrategy (formData : FormData) (strategy : string) (w : World) :
  honest (strategyPerformance (stats w)) ->
  honest (strategyPerformance
            (stats (snd (executeStrategy executeSmartStrategy formData strategy w)))).
Proof.
  intros Hw.
  destruct (executeStrategy_tally executeSmartStrategy smartKeepsStats formData strategy w)
    as [-> Hknown].
  unfold tally. cbn [strategyPerformance].
  apply honest_bumped.
  { intros c Hpos.
    destruct (succeeded (fst (executeStrategy executeSmartStrategy formData strategy w)));
      [right; by apply Hknown|left; exact Hpos]. }
  apply honest_bumped; [intros c Hpos; left; exact Hpos|].
  by apply honest_initializedFor.
Qed.

(** X21. Only the three profiles ever record a success: a run under any
    other name is rejected. So if no other name has a success on record,
    none has after any series of calls of [executeStrategy], whatever
    their names, forms and outcomes; and this is so from [resetStats] on.
    (The smart pipeline is assumed not to touch the statistics itself.) *)
Theorem statistics_stay_honest (runs : list (FormData * string)) (w : World) :
  (honest (strategyPerformance (stats w)) ->
   honest (strategyPerformance (stats (afterRuns executeSmartStrategy runs w))))
  /\ honest (strategyPerformance
               (stats (afterRuns executeSmartStrategy runs (snd (resetStats w))))).
Proof.
  assert (Hruns : forall w0, honest (strategyPerformance (stats w0)) ->
                             honest (strategyPerformance
                                       (stats (afterRuns executeSmartStrategy runs w0)))).
  { induction runs as [|[formData strategy] runs IH]; intros w0 Hw0; [exact Hw0|].
    cbn [afterRuns]. by apply IH, honest_executeStrategy. }
  split; [apply Hruns|]. apply Hruns. intros n c [].
Qed.

End Honest.

Lemma statistics_stay_honest_witness :
  honest (strategyPerformance
            (stats (afterRuns noSmartStrategy [(alex, "turbo"%string); (alex, "smart"%string)]
                              (freshWorld oneHalf)))).
Proof.
  apply (proj1 (statistics_stay_honest noSmartStrategy keepsStats_noSmartStrategy
                  [(alex, "turbo"%string); (alex, "smart"%string)] (freshWorld oneHalf))).
  intros n c [].
Defined.

(** X22. From statistics in which only the three profiles have successes
    on record, [recommendStrategy] returns the name of one of the three
    profiles, whatever the context: a name that [getStrategy] resolves to
    that profile and that [executeStrategy] runs. *)
Theorem recommendStrategy_known (context : Context) (s : Stats) :
  honest (strategyPerformance s) ->
  isKnown (recommendStrategy context s) = true
  /\ exists config,
      lookupOwn (recommendStrategy context s) strategies = Some config
      /\ getStrategy (recommendStrategy context s) = Profile config.
Proof.
  intros Hs.
  assert (Hknown : isKnown (recommendStrategy context s) = true).
  { rewrite recommendStrategy_unfold.
    destruct (3 <? previousFailures context)%Z; [reflexivity|].
    destruct (isVpnDetected context || _); [reflexivity|].
    destruct (_ && _); [reflexivity|].
    unfold bestByHistory.
    destruct (considerStrategy_invariant (strategyPerformance s))
      as [[-> _]|(i & c & Hi & _ & Hpos & _)]; [reflexivity|].
    eapply Hs; [|exact Hpos]. eapply list_elem_of_In, list_elem_of_lookup_2, Hi. }
  split; [exact Hknown|].
  unfold isKnown in Hknown. unfold getStrategy, getProperty, strategies.
  cbn [lookupOwn].
  rewrite (String.eqb_sym "standard"), (String.eqb_sym "smart"),
    (String.eqb_sym "aggressive").
  destruct (String.eqb (recommendStrategy context s) "standard"); [by eexists|].
  destruct (String.eqb (recommendStrategy context s) "smart"); [by eexists|].
  destruct (String.eqb (recommendStrategy context s) "aggressive"); [by eexists|].
  discriminate.
Qed.

Lemma recommendStrategy_known_witness :
  isKnown (recommendStrategy quietEvening aggressiveFirst) = true.
Proof.
  apply (recommendStrategy_known quietEvening aggressiveFirst).
  intros n c [[= <- <-]|[[= <- <-]|[]]] _; reflexivity.
Defined.

(** ** The registration flow under the standard strategy *)

Section StandardRun.
Variables (rnd : nat -> Q) (st : Stats) (cfd : option FormData) (uiflag : bool).
Hypothesis submissionSucceeds : forall n, (2 # 10 < rnd n)%Q.

Lemma returns_executeStandardStrategy (formData : FormData) :
  acceptable formData ->
  returns rnd st cfd uiflag (executeStandardStrategy formData standard)
          (fun r => exists result,
               r = Some (Finished result)
               /\ Result.success result = true
               /\ Result.email result
                  = template (formData !! "desired-email"%string) ++ str "@outlook.com"
               /\ Result.password result = framePassword cfd).
Proof.
  intros Hok. unfold executeStandardStrategy, executeSteps.
  eapply returns_executeStepsFrom_cons with (P := fun _ => True).
  { cbn [action]. intros w Hw.
    destruct (validateFormData_cases formData w) as [[_ Hrun]|[Hno _]]; [|contradiction].
    by eexists _, w. }
  intros validation _.
  eapply returns_executeStepsFrom_cons
    with (P := fun v => exists r, v = Requested r
                                  /\ Request.email r
                                     = template (formData !! "desired-email"%string)
                                       ++ str "@outlook.com").
  { cbn [action]. eapply returns_bind; [by apply returns_prepareRequest|].
    intros r Hr. apply returns_ret. by exists r. }
  intros ? (requestData & -> & Hemail).
  eapply returns_executeStepsFrom_cons
    with (P := fun v => exists r, v = Responded r /\ Response.success r = true
                                  /\ Response.email r
                                     = template (formData !! "desired-email"%string)
                                       ++ str "@outlook.com").
  { cbn [action onRequest].
    eapply returns_bind; [by apply returns_submitRegistration|].
    intros r [Hs Hr]. apply returns_ret. exists r. by rewrite Hr, Hemail. }
  intros ? (response & -> & Hs & Hremail).
  eapply returns_executeStepsFrom_cons with (P := fun v => v = Responded response).
  { cbn [action onResponse]. eapply returns_bind; [by apply returns_validateResponse|].
    intros ? ->. by apply returns_ret. }
  intros ? ->.
  eapply returns_executeStepsFrom_cons
    with (P := fun v => exists result,
                 v = Finished result /\ Result.success result = true
                 /\ Result.email result
                    = template (formData !! "desired-email"%string) ++ str "@outlook.com"
                 /\ Result.password result = framePassword cfd).
  { cbn [action onResponse]. eapply returns_bind; [apply returns_finalizeRegistration|].
    intros r (Hsr & He & Hp). apply returns_ret. exists r. by rewrite He, Hremail. }
  intros ? (result & -> & Hres). cbn [executeStepsFrom]. apply returns_ret. eauto.
Qed.

End StandardRun.

Section Registration.
Variable executeSmartStrategy : FormData -> StrategyConfig -> M (option StepValue).
Variable executeSimpleRegistration : FormData -> M (option StepValue).

(** X23. With the strategies module loaded, [executeRegistration] under
    the standard strategy, on any form that [validateFormData] accepts and
    with a submission that succeeds, resolves with the address built from
    the email name of the form and with the password of that same form,
    whatever form an earlier registration left behind; the standard bucket
    counts one more attempt and one more success. Without the module the
    call is the built-in simple flow, and no strategy runs. *)
Theorem executeRegistration_standard (formData : FormData) (w : World) :
  (acceptable formData ->
   (forall n, (2 # 10 < random w n)%Q) ->
   exists result w' email password,
     executeRegistration executeSmartStrategy executeSimpleRegistration true
                         formData "standard" w
     = (Returned (Some (Finished result)), w')
     /\ formData !! "desired-email"%string = Some email
     /\ formData !! "password"%string = Some password
     /\ Result.success result = true
     /\ Result.email result = email ++ str "@outlook.com"
     /\ Result.password result = password
     /\ lookupOwn "standard" (strategyPerformance (stats w'))
        = Some (countSuccess (countAttempt
                  (default zero (lookupOwn "standard" (strategyPerformance (stats w)))))))
  /\ (forall strategy,
         executeRegistration executeSmartStrategy executeSimpleRegistration false
                             formData strategy w
         = executeSimpleRegistration formData w).
Proof.
  split; [|reflexivity].
  intros Hok Hrnd. pose proof Hok as (Hreq & _ & _).
  assert (Hemail : exists email, formData !! "desired-email"%string = Some email).
  { specialize (Hreq "desired-email"%string ltac:(cbn; tauto)).
    destruct (formData !! "desired-email"%string); [by eexists|discriminate]. }
  assert (Hpw : exists password, formData !! "password"%string = Some password
                                 /\ truthy password = true).
  { specialize (Hreq "password"%string ltac:(cbn; tauto)).
    destruct (formData !! "password"%string) as [p|]; [by exists p|discriminate]. }
  destruct Hemail as [email Hemail], Hpw as (password & Hpw & Htruthy).
  set (w1 := mkWorld (random w) (draws w) (clock w) (trace w) (uiManager w) (stats w)
                     (Some formData)).
  unfold executeRegistration.
  rewrite (bind_returned (setCurrentFormData formData) _ w w1 tt eq_refl).
  remember (started "standard" standard w1) as w3 eqn:Hw3.
  destruct (returns_executeStandardStrategy
              (random w) (stats w3) (Some formData) (uiManager w) Hrnd formData Hok w3)
    as (r & w4 & Hrun & (_ & Hst & _ & _) & result & -> & Hs & He & Hp).
  { subst w3. by repeat split. }
  subst w3.
  assert (Hproto : "standard"%string ∉ objectPrototypeKeys)
    by (apply (bool_decide_unpack _); vm_compute; exact I).
  destruct (counted_success "standard" standard
              (executeStandardStrategy formData standard)
              (fun error =>
                 bumpTotals countFailure ;;
                 bumpPerformance countFailure "standard" ;;
                 logStrategy (StrategyFailed (name standard) error) ;;
                 throw error)%js
              w1 w4 _ Hproto Hrun Hst) as [Hexec Hbucket].
  exists result. eexists. exists email, password.
  split; [rewrite executeStrategy_standard; exact Hexec|].
  split; [exact Hemail|]. split; [exact Hpw|]. split; [exact Hs|]. split; [|split].
  - rewrite He, Hemail. reflexivity.
  - rewrite Hp. unfold framePassword. rewrite Hpw. cbn [truthyProp default].
    by rewrite Htruthy.
  - cbn [stats strategyPerformance]. exact Hbucket.
Qed.

End Registration.

Lemma executeRegistration_standard_witness :
  exists result w',
    executeRegistration noSmartStrategy (fun _ => throw TypeError) true alex "standard"
                        (freshWorld oneHalf)
    = (Returned (Some (Finished result)), w')
    /\ Result.email result = str "alexsmith01@outlook.com"
    /\ Result.password result = str "Abc12345!".
Proof.
  destruct (proj1 (executeRegistration_standard noSmartStrategy (fun _ => throw TypeError)
                     alex (freshWorld oneHalf)))
    as (result & w' & email & password & Hrun & Hemail & Hpw & _ & He & Hp & _).
  - split; [|split].
    + intros field Hin. cbn in Hin.
      repeat (destruct Hin as [<-|Hin]; [vm_compute; reflexivity|]). destruct Hin.
    + vm_compute. lia.
    + vm_compute. lia.
  - intros n. unfold oneHalf, Qlt. cbn. lia.
  - exists result, w'. split; [exact Hrun|].
    vm_compute in Hemail, Hpw. injection Hemail as <-. injection Hpw as <-.
    split; [exact He|exact Hp].
Defined.

(** ** Names that are no strategy *)

(** X24. Under a name that is none of the three profiles (nor a member
    inherited from [Object.prototype]) [executeStrategy] rejects with the
    unknown-strategy error at once: no random number is drawn, no time
    passes, the current form data stay, and the log holds a start and a
    failure, both under the name of the standard profile, which is what
    [getStrategy] falls back to. *)
Theorem unknown_strategy_rejected
        (executeSmartStrategy : FormData -> StrategyConfig -> M (option StepValue))
        (formData : FormData) (strategy : string) (w : World) :
  isKnown strategy = false ->
  strategy ∉ objectPrototypeKeys ->
  let r := executeStrategy executeSmartStrategy formData strategy w in
  fst r = Thrown (UnknownStrategy strategy)
  /\ getStrategy strategy = Profile standard
  /\ trace (snd r)
     = trace w ++ [Log (StrategyStarted (name standard));
                   Log (StrategyFailed (name standard) (UnknownStrategy strategy))]
  /\ draws (snd r) = draws w
  /\ clock (snd r) = clock w
  /\ currentFormData (snd r) = currentFormData w.
Proof.
  intros Hknown Hproto. cbn zeta.
  destruct (executeStrategy_unknown executeSmartStrategy formData strategy w Hknown Hproto)
    as [-> _].
  cbn [fst snd trace draws clock currentFormData]. repeat split.
  unfold isKnown in Hknown.
  apply orb_false_iff in Hknown as [Hknown Hagg].
  apply orb_false_iff in Hknown as [Hstd Hsmart].
  unfold getStrategy, getProperty, strategies. cbn [lookupOwn].
  rewrite (String.eqb_sym "standard"), (String.eqb_sym "smart"),
    (String.eqb_sym "aggressive"), Hstd, Hsmart, Hagg.
  by rewrite bool_decide_eq_false_2.
Qed.

Lemma unknown_strategy_rejected_witness :
  fst (executeStrategy noSmartStrategy alex "turbo" (freshWorld oneHalf))
  = Thrown (UnknownStrategy "turbo").
Proof.
  apply (unknown_strategy_rejected noSmartStrategy alex "turbo" (freshWorld oneHalf)).
  - reflexivity.
  - apply (bool_decide_unpack _). vm_compute. exact I.
Defined.

(** ** initializeStrategyStats *)

(** X25. [initializeStrategyStats] creates a bucket of zeros for a name
    that has none, and is otherwise without effect: it never resets a
    bucket that exists, it never touches the bucket of another name, a
    second call changes nothing, and for a name inherited from
    [Object.prototype] it creates no bucket at all. *)
Theorem initializeStrategyStats_once (strategy : string) (w : World) :
  let w1 := snd (initializeStrategyStats strategy w) in
  let perf := strategyPerformance (stats w) in
  let perf1 := strategyPerformance (stats w1) in
  fst (initializeStrategyStats strategy w) = Returned tt
  /\ snd (initializeStrategyStats strategy w1) = w1
  /\ totals (stats w1) = totals (stats w)
  /\ (forall c, lookupOwn strategy perf = Some c -> w1 = w)
  /\ (lookupOwn strategy perf = None -> strategy ∈ objectPrototypeKeys -> w1 = w)
  /\ (lookupOwn strategy perf = None -> strategy ∉ objectPrototypeKeys ->
      lookupOwn strategy perf1 = Some zero)
  /\ (forall other, other <> strategy -> lookupOwn other perf1 = lookupOwn other perf).
Proof.
  cbn zeta.
  destruct (initializeStrategyStats_stats strategy w) as (w1 & Hrun & Hstats & _).
  rewrite Hrun. cbn [fst snd].
  split; [reflexivity|]. split; [|split; [by rewrite Hstats|]].
  { unfold initializeStrategyStats. rewrite Hstats. cbn [strategyPerformance].
    pose proof (getProperty_initializedFor strategy (strategyPerformance (stats w))) as Hdef.
    by destruct (getProperty (initializedFor strategy (strategyPerformance (stats w)))
                             strategy). }
  split; [|split; [|split]].
  - intros c Hown. unfold initializeStrategyStats in Hrun.
    rewrite (getProperty_own _ _ _ Hown) in Hrun. by injection Hrun as <-.
  - intros Hnone Hproto. unfold initializeStrategyStats, getProperty in Hrun.
    rewrite Hnone, bool_decide_eq_true_2 in Hrun by exact Hproto. by injection Hrun as <-.
  - intros Hnone Hproto. rewrite Hstats. cbn [strategyPerformance].
    rewrite lookupOwn_initializedFor by exact Hproto. by rewrite Hnone.
  - intros other Hne. rewrite Hstats. cbn [strategyPerformance].
    by apply lookupOwn_initializedFor_ne.
Qed.

Lemma initializeStrategyStats_once_witness :
  lookupOwn "smart" (strategyPerformance
                       (stats (snd (initializeStrategyStats "smart" (freshWorld oneHalf)))))
  = Some zero.
Proof.
  apply (proj1 (proj2 (proj2 (proj2 (proj2 (proj2
           (initializeStrategyStats_once "smart" (freshWorld oneHalf)))))))).
  - reflexivity.
  - apply (bool_decide_unpack _). vm_compute. exact I.
Defined.

(** ** The global counters and getStats *)

Lemma successRate_unit (c : Counters) :
  0 < attempts c -> successes c <= attempts c ->
  (0 <= successRate c)%Q /\ (successRate c <= 1)%Q.
Proof.
  intros Hpos Hle. unfold successRate, Qle. cbn [Qnum Qden].
  assert (Hden : Z.pos (Pos.of_nat (attempts c)) = Z.of_nat (attempts c)).
  { rewrite <- positive_nat_Z, Nat2Pos.id by lia. reflexivity. }
  rewrite Hden. split; lia.
Qed.

Section Totals.
Variable executeSmartStrategy : FormData -> StrategyConfig -> M (option StepValue).
Hypothesis smartKeepsStats : forall formData config,
    keepsStats (executeSmartStrategy formData config).

Lemma totals_afterRuns (runs : list (FormData * string)) (w : World) :
  let before := totals (stats w) in
  let after := totals (stats (afterRuns executeSmartStrategy runs w)) in
  attempts after = attempts before + length runs
  /\ successes after + failures after = successes before + failures before + length runs.
Proof.
  cbn zeta. revert w.
  induction runs as [|[formData strategy] runs IH]; intros w; cbn [afterRuns length];
    [lia|].
  destruct (IH (snd (executeStrategy executeSmartStrategy formData strategy w)))
    as [Ha Hsf].
  destruct (executeStrategy_tally executeSmartStrategy smartKeepsStats formData strategy w)
    as [Hstats _].
  rewrite Hstats in Ha, Hsf. unfold tally, countOutcome in Ha, Hsf.
  destruct (succeeded _);
    cbn [totals attempts successes failures countAttempt countSuccess countFailure]
      in Ha, Hsf; lia.
Qed.

(** X26. After [resetStats] and any series of calls of [executeStrategy],
    whatever their names, forms and outcomes, the global counters are
    settled: the attempts are the number of calls, and the successes and
    failures add up to it. [getStats] then reports these statistics with a
    success rate between 0 and 1, which is 0 when no call was made. (The
    smart pipeline is assumed not to touch the statistics itself.) *)
Theorem getStats_after_runs (runs : list (FormData * string)) (w : World) :
  let s := stats (afterRuns executeSmartStrategy runs (snd (resetStats w))) in
  attempts (totals s) = length runs
  /\ balanced (totals s)
  /\ fst (getStats s) = s
  /\ (0 <= snd (getStats s))%Q /\ (snd (getStats s) <= 1)%Q
  /\ (runs = [] -> snd (getStats s) = 0%Q).
Proof.
  cbn zeta.
  destruct (totals_afterRuns runs (snd (resetStats w))) as [Ha Hsf].
  change (totals (stats (snd (resetStats w)))) with zero in Ha, Hsf.
  cbn [zero attempts successes failures] in Ha, Hsf.
  split; [lia|]. split; [unfold balanced; lia|]. split; [reflexivity|].
  unfold getStats. cbn [snd].
  destruct (0 <? attempts _) eqn:Epos.
  - apply Nat.ltb_lt in Epos.
    destruct (successRate_unit _ Epos ltac:(lia)) as [H0 H1].
    split; [exact H0|]. split; [exact H1|].
    intros ->. cbn [length] in Ha. lia.
  - split; [apply Qle_refl|]. split; [by unfold Qle|]. reflexivity.
Qed.

End Totals.

Lemma getStats_after_runs_witness :
  snd (getStats (stats (afterRuns noSmartStrategy [] (snd (resetStats (freshWorld oneHalf))))))
  = 0%Q.
Proof.
  apply (proj2 (proj2 (proj2 (proj2 (proj2
           (getStats_after_runs noSmartStrategy keepsStats_noSmartStrategy []
                                (freshWorld oneHalf))))))).
  reflexivity.
Defined.

(** ** The requests *)

Section Requests.
Variables (rnd : nat -> Q) (st : Stats) (cfd : option FormData) (uiflag : bool).

Lemma returns_prepareRequest_fields (formData : FormData) (config : StrategyConfig) :
  returns rnd st cfd uiflag (prepareRequest formData config)
          (fun r => Request.email r
                    = template (formData !! "desired-email"%string) ++ str "@outlook.com"
                    /\ Request.password r = formData !! "password"%string
                    /\ Request.country r = formData !! "country"%string
                    /\ (Request.clientId r <> None <-> randomizeData config = true)
                    /\ (Request.sessionId r <> None <-> randomizeData config = true)).
Proof.
  unfold prepareRequest.
  eapply returns_bind; [apply returns_pick|]. intros ua _.
  eapply returns_bind; [apply returns_now|]. intros ts _.
  destruct (randomizeData config).
  - eapply returns_bind with (P := fun _ => True).
    { apply returns_mapM. intros c. destruct (_ || _)%bool; [|by apply returns_ret].
      eapply returns_bind; [apply returns_randomBelow|]. intros; by apply returns_ret. }
    intros clientId _. eapply returns_bind with (P := fun _ => True).
    { eapply returns_bind with (P := fun _ => True); [|intros; by apply returns_ret].
      apply returns_mapM. intros i.
      eapply returns_bind; [apply returns_randomBelow|]. intros; by apply returns_ret. }
    intros sessionId _. apply returns_ret. cbn. by repeat split.
  - apply returns_ret. cbn. repeat split; try done; intros H; by destruct H.
Qed.

End Requests.

(** X27. Preparing a request never fails, whatever the form holds: the
    address is the email name followed by "@outlook.com" and the password
    is passed on as it is, with a client and a session identifier exactly
    when the profile randomizes data. [prepareAggressiveRequest] builds the
    same request except that it overrides the country of the form: the
    attempts report US, CA and GB in turn, by their index modulo 3. *)
Theorem prepareAggressiveRequest_overrides (formData : FormData) (config : StrategyConfig)
        (index : nat) (w : World) :
  (exists r w',
      prepareRequest formData config w = (Returned r, w')
      /\ Request.email r
         = template (formData !! "desired-email"%string) ++ str "@outlook.com"
      /\ Request.password r = formData !! "password"%string
      /\ Request.country r = formData !! "country"%string
      /\ (Request.clientId r <> None <-> randomizeData config = true)
      /\ (Request.sessionId r <> None <-> randomizeData config = true))
  /\ (exists r w',
         prepareAggressiveRequest formData config index w = (Returned r, w')
         /\ Request.email r
            = template (formData !! "desired-email"%string) ++ str "@outlook.com"
         /\ Request.password r = formData !! "password"%string
         /\ Request.country r = aggressiveCountries !! (index mod 3)
         /\ is_Some (aggressiveCountries !! (index mod 3))).
Proof.
  split.
  - destruct (returns_prepareRequest_fields (random w) (stats w) (currentFormData w)
                (uiManager w) formData config w (inFrame_self w))
      as (r & w' & Hrun & _ & Hr).
    by exists r, w'.
  - assert (Hret : returns (random w) (stats w) (currentFormData w) (uiManager w)
                     (prepareAggressiveRequest formData config index)
                     (fun r => Request.email r
                               = template (formData !! "desired-email"%string)
                                 ++ str "@outlook.com"
                               /\ Request.password r = formData !! "password"%string
                               /\ Request.country r
                                  = aggressiveCountries !! (index mod 3))).
    { unfold prepareAggressiveRequest.
      eapply returns_bind; [apply returns_prepareRequest_fields|].
      intros r0 (He & Hp & _).
      eapply returns_bind; [apply returns_pick|]. intros ua0 _.
      eapply returns_bind; [apply returns_pick|]. intros ua1 _.
      eapply returns_bind; [apply returns_pick|]. intros ua2 _.
      pose proof (Nat.mod_upper_bound index 3 ltac:(lia)) as Hlt.
      destruct (index mod 3) as [|[|[|k]]]; [| | |lia];
        apply returns_ret; by repeat split. }
    destruct (Hret w (inFrame_self w)) as (r & w' & Hrun & _ & He & Hp & Hc).
    exists r, w'. repeat split; try assumption.
    apply lookup_lt_is_Some_2. change (length aggressiveCountries) with 3.
    apply Nat.mod_upper_bound. lia.
Qed.

(** ** Email alternatives *)

Lemma Forall2_right {A B} (P : B -> Prop) (l : list A) (bs : list B) :
  Forall2 (fun _ b => P b) l bs -> length bs = length l /\ Forall P bs.
Proof.
  induction 1 as [|a b l bs Hb _ [IHlen IHall]]; [by split|].
  cbn. split; [by rewrite IHlen|by constructor].
Qed.

(** X28. [generateEmailAlternatives] proposes fifteen names: five made of
    the original name and a number below 1000, drawn in order, then the
    original name with each of the six fixed suffixes, then each of the four
    fixed prefixes with the original name. *)
Theorem generateEmailAlternatives_shape (originalEmail : jsstring) (w : World) :
  unitInterval (random w) ->
  exists numbered,
    generateEmailAlternatives originalEmail w
    = (Returned (numbered ++ fixedAlternatives originalEmail), drawn 5 w)
    /\ length numbered = 5
    /\ Forall (fun alternative =>
                 exists n, (0 <= n <= 999)%Z
                           /\ alternative = originalEmail ++ numberToString n) numbered
    /\ length (numbered ++ fixedAlternatives originalEmail) = 15.
Proof.
  intros Hvalid. unfold generateEmailAlternatives.
  destruct (mapM_drawn
              (fun _ : nat =>
                 bind (randomBelow 1000) (fun n => ret (originalEmail ++ numberToString n)))
              (fun _ alternative =>
                 exists n, (0 <= n <= 999)%Z
                           /\ alternative = originalEmail ++ numberToString n)
              (fun _ => 1) (seq 1 5) w) as (numbered & Hall & Hrun).
  { intros _ w0 Hw0.
    destruct (randomBelow_drawn_range 1000 w0) as (n & Hn & Hrun);
      [by rewrite Hw0|lia|].
    exists (originalEmail ++ numberToString n). split; [exists n; split; [lia|reflexivity]|].
    by rewrite (bind_returned _ _ _ _ _ Hrun). }
  destruct (Forall2_right _ _ _ Hall) as [Hlen Hnumbered].
  exists numbered. rewrite (bind_returned _ _ _ _ _ Hrun). unfold ret.
  split; [|split; [exact Hlen|split; [exact Hnumbered|]]].
  - unfold fixedAlternatives. rewrite <- app_assoc. reflexivity.
  - rewrite length_app, Hlen. reflexivity.
Qed.

Lemma generateEmailAlternatives_shape_witness :
  exists alternatives,
    fst (generateEmailAlternatives (str "alex") (freshWorld oneHalf)) = Returned alternatives
    /\ length alternatives = 15.
Proof.
  destruct (generateEmailAlternatives_shape (str "alex") (freshWorld oneHalf))
    as (numbered & Hrun & _ & _ & Hlen).
  - intros n. unfold oneHalf, Qle, Qlt. cbn. lia.
  - eexists. rewrite Hrun. split; [reflexivity|exact Hlen].
Defined.

(** ** optimizeFormData *)

Lemma toString_truthy (n : N) : truthy (toString n) = true.
Proof.
  unfold toString. destruct n as [|p]; [reflexivity|]. cbn [N.to_uint].
  pose proof (DecimalPos.Unsigned.to_uint_nonnil p) as Hnonnil.
  by destruct (Pos.to_uint p).
Qed.

Lemma numberToString_truthy (z : Z) : truthy (numberToString z) = true.
Proof. unfold numberToString. destruct (z <? 0)%Z; [reflexivity|apply toString_truthy]. Qed.

Lemma padStart2_truthy (s : jsstring) : truthy (padStart2 s) = true.
Proof. by destruct s as [|c [|d s]]. Qed.

Lemma orElse_spec (v : option jsstring) (fallback : jsstring) :
  truthy fallback = true ->
  truthy (orElse v fallback) = true
  /\ (truthyProp v = true -> Some (orElse v fallback) = v).
Proof.
  intros Hfb. unfold orElse. destruct v as [s|]; cbn [truthyProp default].
  - destruct (truthy s) eqn:E; [by split|]. split; [exact Hfb|discriminate].
  - split; [exact Hfb|discriminate].
Qed.

Lemma selectOptimalCountry_table :
  selectOptimalCountry = pick (map str ["US"; "CA"; "GB"; "AU"; "SG"]%string).
Proof. reflexivity. Qed.

Section Optimizer.
Variables (rnd : nat -> Q) (st : Stats) (cfd : option FormData) (uiflag : bool).
Hypothesis valid : forall n, (0 <= rnd n)%Q /\ (rnd n < 1)%Q.
Variable currentYear : Z.

Local Abbreviation returns := (returns rnd st cfd uiflag).

Lemma returns_generateEmailAlternatives (originalEmail : jsstring) :
  returns (generateEmailAlternatives originalEmail) (fun _ => True).
Proof.
  unfold generateEmailAlternatives.
  eapply returns_bind with (P := fun _ => True); [|intros; by apply returns_ret].
  apply returns_mapM. intros i.
  eapply returns_bind; [apply returns_randomBelow|]. intros; by apply returns_ret.
Qed.

Lemma returns_generateRandomBirth (minAge maxAge : Z) :
  returns (generateRandomBirth currentYear minAge maxAge)
          (fun birth => truthy (Birth.month birth) = true
                        /\ truthy (Birth.day birth) = true
                        /\ truthy (Birth.year birth) = true).
Proof.
  unfold generateRandomBirth.
  eapply returns_bind; [apply returns_randomBelow|]. intros age _.
  eapply returns_bind; [apply returns_randomBelow|]. intros month _.
  eapply returns_bind; [apply returns_mathRandom|]. intros r _.
  apply returns_ret. cbn [Birth.month Birth.day Birth.year].
  split; [apply padStart2_truthy|]. split; [apply padStart2_truthy|].
  apply numberToString_truthy.
Qed.

Lemma returns_selectOptimalCountry :
  returns selectOptimalCountry (fun v => exists c, v = Some c /\ truthy c = true).
Proof.
  rewrite selectOptimalCountry_table.
  eapply returns_weaken; [apply (returns_pick_valid rnd st cfd uiflag valid); cbn; lia|].
  cbn beta. intros v (c & -> & Hc). exists c. split; [reflexivity|].
  cbn in Hc. repeat (destruct Hc as [<-|Hc]; [reflexivity|]). destruct Hc.
Qed.

Lemma returns_optimizeFormData (formData : FormData) :
  returns (optimizeFormData currentYear formData)
          (fun optimized =>
             (forall key value,
                 formData !! key = Some value -> truthy value = true ->
                 key <> "emailAlternatives"%string ->
                 Optimized.data optimized !! key = Some value)
             /\ (forall key, In key completedKeys ->
                             truthyProp (Optimized.data optimized !! key) = true)
             /\ (forall key, ~ In key completedKeys -> key <> "emailAlternatives"%string ->
                             Optimized.data optimized !! key = formData !! key)
             /\ (Optimized.emailAlternatives optimized <> None
                 <-> truthyProp (formData !! "desired-email"%string) = true)).
Proof.
  unfold optimizeFormData.
  eapply returns_bind
    with (P := fun alternatives =>
                 alternatives <> None
                 <-> truthyProp (formData !! "desired-email"%string) = true).
  { destruct (truthyProp (formData !! "desired-email"%string)).
    - eapply returns_bind; [apply returns_generateEmailAlternatives|].
      intros alternatives _. by apply returns_ret.
    - apply returns_ret. split; [done|discriminate]. }
  intros alternatives Halternatives.
  set (o1 := match alternatives with
             | Some _ => delete "emailAlternatives"%string formData
             | None => formData
             end).
  assert (H1 : forall key, key <> "emailAlternatives"%string -> o1 !! key = formData !! key).
  { intros key Hkey. subst o1. destruct alternatives; [|reflexivity].
    by apply lookup_delete_ne. }
  eapply returns_bind
    with (P := fun o2 : FormData =>
                 (forall key, key <> "birth-month"%string -> key <> "birth-day"%string ->
                              key <> "birth-year"%string -> o2 !! key = o1 !! key)
                 /\ (forall key, In key ["birth-month"; "birth-day"; "birth-year"]%string ->
                                 truthyProp (o2 !! key) = true
                                 /\ (truthyProp (o1 !! key) = true -> o2 !! key = o1 !! key))).
  { destruct (negb (truthyProp (o1 !! "birth-month"%string))
              || negb (truthyProp (o1 !! "birth-day"%string))
              || negb (truthyProp (o1 !! "birth-year"%string))) eqn:Ebirth.
    - eapply returns_bind; [apply returns_generateRandomBirth|].
      intros birth (Hm & Hd & Hy). apply returns_ret.
      rewrite (lookup_insert_ne _ "birth-month"%string "birth-day"%string) by discriminate.
      rewrite (lookup_insert_ne _ "birth-day"%string "birth-year"%string) by discriminate.
      rewrite (lookup_insert_ne _ "birth-month"%string "birth-year"%string) by discriminate.
      destruct (orElse_spec (o1 !! "birth-month"%string) _ Hm) as [Hm1 Hm2].
      destruct (orElse_spec (o1 !! "birth-day"%string) _ Hd) as [Hd1 Hd2].
      destruct (orElse_spec (o1 !! "birth-year"%string) _ Hy) as [Hy1 Hy2].
      split.
      + intros key Hkm Hkd Hky. by rewrite !lookup_insert_ne by congruence.
      + intros key Hkey. cbn in Hkey. destruct Hkey as [<-|[<-|[<-|[]]]].
        * rewrite lookup_insert_ne by discriminate.
          rewrite lookup_insert_ne by discriminate.
          rewrite lookup_insert_eq. cbn [truthyProp]. split; [exact Hm1|exact Hm2].
        * rewrite lookup_insert_ne by discriminate.
          rewrite lookup_insert_eq. cbn [truthyProp]. split; [exact Hd1|exact Hd2].
        * rewrite lookup_insert_eq. cbn [truthyProp]. split; [exact Hy1|exact Hy2].
    - apply returns_ret. split; [reflexivity|].
      apply orb_false_iff in Ebirth as [Ebirth Hy].
      apply orb_false_iff in Ebirth as [Hm Hd].
      apply negb_false_iff in Hm, Hd, Hy.
      intros key Hkey. cbn in Hkey. destruct Hkey as [<-|[<-|[<-|[]]]]; by split. }
  intros o2 [H2other H2birth].
  eapply returns_bind
    with (P := fun o3 : FormData =>
                 (forall key, key <> "country"%string -> o3 !! key = o2 !! key)
                 /\ truthyProp (o3 !! "country"%string) = true
                 /\ (truthyProp (o2 !! "country"%string) = true ->
                     o3 !! "country"%string = o2 !! "country"%string)).
  { destruct (truthyProp (o2 !! "country"%string)) eqn:Ecountry; cbn [negb].
    - apply returns_ret. by repeat split.
    - eapply returns_bind; [apply returns_selectOptimalCountry|].
      intros ? (c & -> & Hc). apply returns_ret. split; [|split; [|discriminate]].
      + intros key Hkey. by apply lookup_insert_ne.
      + rewrite lookup_insert_eq. exact Hc. }
  intros o3 (H3other & H3country & H3kept).
  apply returns_ret. cbn [Optimized.data Optimized.emailAlternatives].
  assert (Hbirth : forall key, In key ["birth-month"; "birth-day"; "birth-year"]%string ->
                               key <> "country"%string /\ key <> "emailAlternatives"%string).
  { intros key Hkey. cbn in Hkey. destruct Hkey as [<-|[<-|[<-|[]]]]; by split. }
  split; [|split; [|split; [|exact Halternatives]]].
  - intros key value Hkey Hvalue Hne.
    assert (Hkept1 : o1 !! key = Some value) by (rewrite H1 by exact Hne; exact Hkey).
    assert (Hkept2 : o2 !! key = Some value).
    { destruct (decide (In key ["birth-month"; "birth-day"; "birth-year"]%string))
        as [Hin|Hout].
      - destruct (H2birth key Hin) as [_ Hsame]. rewrite Hsame; [exact Hkept1|].
        by rewrite Hkept1.
      - rewrite H2other; [exact Hkept1| | |]; intros ->; apply Hout; cbn; tauto. }
    destruct (decide (key = "country"%string)) as [->|Hc].
    + rewrite H3kept; [exact Hkept2|]. by rewrite Hkept2.
    + by rewrite H3other.
  - intros key Hkey. cbn in Hkey. destruct Hkey as [<-|[<-|[<-|[<-|[]]]]];
      try exact H3country;
      (rewrite H3other by discriminate; apply H2birth; cbn; tauto).
  - intros key Hout Hne.
    rewrite H3other by (intros ->; apply Hout; cbn; tauto).
    rewrite H2other by (intros ->; apply Hout; cbn; tauto).
    by apply H1.
Qed.

End Optimizer.

(** X29. [optimizeFormData] keeps everything the user entered and fills in
    what is empty: in its result the three birth fields and the country are
    never empty; a field that was not empty in the form has the value of the
    form; no field other than these four is touched; and the result carries
    email alternatives exactly when the form has an email name. *)
Theorem optimizeFormData_completes (currentYear : Z) (formData : FormData) (w : World) :
  unitInterval (random w) ->
  exists optimized w',
    optimizeFormData currentYear formData w = (Returned optimized, w')
    /\ (forall key value,
           formData !! key = Some value -> truthy value = true ->
           key <> "emailAlternatives"%string ->
           Optimized.data optimized !! key = Some value)
    /\ (forall key, In key completedKeys ->
                    truthyProp (Optimized.data optimized !! key) = true)
    /\ (forall key, ~ In key completedKeys -> key <> "emailAlternatives"%string ->
                    Optimized.data optimized !! key = formData !! key)
    /\ (Optimized.emailAlternatives optimized <> None
        <-> truthyProp (formData !! "desired-email"%string) = true).
Proof.
  intros Hvalid.
  destruct (returns_optimizeFormData (random w) (stats w) (currentFormData w) (uiManager w)
              Hvalid currentYear formData w (inFrame_self w))
    as (optimized & w' & Hrun & _ & Hpost).
  by exists optimized, w'.
Qed.

Lemma optimizeFormData_completes_witness :
  exists optimized,
    fst (optimizeFormData 2026 emailOnly (freshWorld oneHalf)) = Returned optimized
    /\ truthyProp (Optimized.data optimized !! "country"%string) = true
    /\ Optimized.data optimized !! "desired-email"%string = Some (str "alexsmith01").
Proof.
  destruct (optimizeFormData_completes 2026 emailOnly (freshWorld oneHalf))
    as (optimized & w' & Hrun & Hkept & Hfilled & _).
  - intros n. unfold oneHalf, Qle, Qlt. cbn. lia.
  - exists optimized. rewrite Hrun. split; [reflexivity|]. split.
    + apply Hfilled. cbn. tauto.
    + apply Hkept; [reflexivity|reflexivity|discriminate].
Defined.

End PipelineFacts.
